(** * Appointment slot lifecycle: the booking routes of the back end

    A shallow embedding of [back-end/src/routes/appointments.js] (the
    routes that book, reschedule, cancel and list appointment slots) and
    of the front-end call [AppointmentApiService.completeAppointment]
    that reaches the same router.

    The [appointments] table is a list of rows.  Every route handler is a
    chain of sqlite callbacks; it is embedded as a program in
    continuation-passing style whose nodes are the store statements the
    handler issues, so that one handler can be run alone, with store
    errors injected, or interleaved with another handler statement by
    statement. *)

From Stdlib Require Import List String Ascii ZArith Bool Lia.
From Stdlib Require Import Permutation Sorting.Sorted.
From Stdlib Require QArith Qround DecimalString.
Import ListNotations.

Local Open Scope string_scope.
Local Open Scope list_scope.

(** ** The appointments table *)

(** [status TEXT CHECK (status IN ('available','booked','cancelled','completed'))] *)
Inductive Status : Type :=
| available
| booked
| cancelled
| completed.

Definition Status_eqb (a b : Status) : bool :=
  match a, b with
  | available, available => true
  | booked, booked => true
  | cancelled, cancelled => true
  | completed, completed => true
  | _, _ => false
  end.

(** One row of [appointments]; [None] is SQL NULL. *)
Record Appointment : Type := mkAppointment {
  id : string;
  patientId : option string;
  doctorId : string;
  date : string;
  time : string;
  status : Status;
  notes : option string;
  createdAt : string;
  updatedAt : string
}.

(** The table, in row order. *)
Definition DB : Type := list Appointment.

(** The columns of [SELECT id, doctorId, date, time, status]. *)
Record SlotRow : Type := mkSlotRow {
  slotId : string;
  slotDoctorId : string;
  slotDate : string;
  slotTime : string;
  slotStatus : Status
}.

Definition slotRow (r : Appointment) : SlotRow :=
  mkSlotRow (id r) (doctorId r) (date r) (time r) (status r).

(** ** JavaScript values of the request *)

(** A field of [req.body] or [req.query]: absent ([None]) or a string. *)
Definition truthy (v : option string) : bool :=
  match v with
  | Some s => negb (s =? "")
  | None => false
  end.

Definition valueOf (v : option string) : string :=
  match v with
  | Some s => s
  | None => ""
  end.

(** [v || null] *)
Definition orNull (v : option string) : option string :=
  if truthy v then v else None.

(** [v || w] with [w] a column that may be NULL *)
Definition orElse (v w : option string) : option string :=
  if truthy v then v else w.

(** [v || w] with [w] a NOT NULL column *)
Definition orColumn (v : option string) (w : string) : string :=
  if truthy v then valueOf v else w.

(** ** The clock and [Date]

    [dateOf s] is the time value of [new Date(s)] in milliseconds, [None]
    for an Invalid Date; [today] is the time value of the local midnight
    that [today.setHours(0, 0, 0, 0)] leaves; [now] and [now2] are the
    first and the second reading of [new Date().toISOString()] in a
    request. *)
Record Env : Type := mkEnv {
  dateOf : string -> option Z;
  today : Z;
  now : string;
  now2 : string
}.

(** [new Date(s) < today]: the test by which every route decides that a
    date is in the past.  A comparison with an Invalid Date is false. *)
Definition isPast (e : Env) (s : string) : bool :=
  match dateOf e s with
  | Some t => (t <? today e)%Z
  | None => false
  end.

(** ** Responses *)

Inductive Body : Type :=
| ErrorBody (error : string)
| BookedBody (message : string) (appointment : option Appointment)
| RescheduledBody (message : string) (appointmentId : string)
| MessageBody (message : string)
| RowsBody (rows : list SlotRow).

Record Response : Type := mkResponse {
  code : nat;
  body : Body
}.

Definition fail (c : nat) (msg : string) : Response :=
  mkResponse c (ErrorBody msg).

(** ** Store statements and handler programs *)

(** What a sqlite callback receives: [err] set, or the result. *)
Inductive DbResult (A : Type) : Type :=
| Err
| Ok (a : A).

Arguments Err {A}.
Arguments Ok {A} a.

(** A handler between two store statements runs to completion; the
    statement it then issues is the head of the program and the callback
    is its continuation.  [Get] is [db.get]: the callback receives the
    first row, in row order, that satisfies the [WHERE] clause, or
    nothing.  [All] is [db.all] and [Run] is [db.run]. *)
Inductive Prog : Type :=
| Respond (r : Response)
| Get (where_ : Appointment -> bool)
      (k : DbResult (option Appointment) -> Prog)
| All (select : DB -> list SlotRow)
      (k : DbResult (list SlotRow) -> Prog)
| Run (update : DB -> DB)
      (k : DbResult unit -> Prog).

(** [UPDATE appointments SET ... WHERE id = ?] *)
Definition updateWhereId (set : Appointment -> Appointment) (i : string)
  (db : DB) : DB :=
  map (fun r => if id r =? i then set r else r) db.

(** [SET patientId = ?, status = "booked", notes = ?, updatedAt = ?] *)
Definition setBooked (p : option string) (n : option string) (t : string)
  (r : Appointment) : Appointment :=
  mkAppointment (id r) p (doctorId r) (date r) (time r) booked n
                (createdAt r) t.

(** [SET patientId = NULL, status = "available", notes = NULL, updatedAt = ?] *)
Definition setAvailable (t : string) (r : Appointment) : Appointment :=
  mkAppointment (id r) None (doctorId r) (date r) (time r) available None
                (createdAt r) t.

(** [SET status = "cancelled", updatedAt = ?] *)
Definition setCancelled (t : string) (r : Appointment) : Appointment :=
  mkAppointment (id r) (patientId r) (doctorId r) (date r) (time r)
                cancelled (notes r) (createdAt r) t.

(** [WHERE id = ?] *)
Definition whereId (i : string) (r : Appointment) : bool :=
  id r =? i.

(** [WHERE doctorId = ? AND date = ? AND time = ? AND status = "available"] *)
Definition whereSlot (d dt tm : string) (r : Appointment) : bool :=
  (doctorId r =? d) && (date r =? dt) && (time r =? tm)
  && Status_eqb (status r) available.

(** [patientId = ?]: never true when either side is NULL. *)
Definition patientIs (p : option string) (r : Appointment) : bool :=
  match patientId r, p with
  | Some a, Some b => a =? b
  | _, _ => false
  end.

(** [WHERE patientId = ? AND date = ? AND time = ? AND status = "booked"] *)
Definition wherePatientAt (p : option string) (dt tm : string)
  (r : Appointment) : bool :=
  patientIs p r && (date r =? dt) && (time r =? tm)
  && Status_eqb (status r) booked.

(** [... AND status = "booked" AND id != ?] *)
Definition wherePatientAtExcept (p : option string) (dt tm i : string)
  (r : Appointment) : bool :=
  wherePatientAt p dt tm r && negb (id r =? i).

(** [WHERE doctorId = ? AND date = ? AND status = "available"] *)
Definition whereAvailableOn (d dt : string) (r : Appointment) : bool :=
  (doctorId r =? d) && (date r =? dt) && Status_eqb (status r) available.

(** [ORDER BY time ASC]: text compared byte by byte, ties kept in row
    order. *)
Fixpoint insertByTime (r : Appointment) (l : list Appointment)
  : list Appointment :=
  match l with
  | [] => [r]
  | x :: l' =>
      if String.leb (time r) (time x) then r :: l
      else x :: insertByTime r l'
  end.

Fixpoint orderByTime (l : list Appointment) : list Appointment :=
  match l with
  | [] => []
  | x :: l' => insertByTime x (orderByTime l')
  end.

(** The query of [GET /slots/available]. *)
Definition selectAvailable (d dt : string) (db : DB) : list SlotRow :=
  map slotRow (orderByTime (filter (whereAvailableOn d dt) db)).

(** ** Request bodies *)

(** [const { patientId, doctorId, date, time, notes } = req.body] *)
Record BookRequest : Type := mkBookRequest {
  reqPatientId : option string;
  reqDoctorId : option string;
  reqDate : option string;
  reqTime : option string;
  reqNotes : option string
}.

(** [const { doctorId, date, time, notes } = req.body] of [PUT /:id];
    any other field of the body is not read. *)
Record PutRequest : Type := mkPutRequest {
  putDoctorId : option string;
  putDate : option string;
  putTime : option string;
  putNotes : option string
}.

(** ** The route handlers *)

(** [router.post('/')]: book an appointment. *)
Definition book (e : Env) (req : BookRequest) : Prog :=
  if negb (truthy (reqPatientId req)) || negb (truthy (reqDoctorId req))
     || negb (truthy (reqDate req)) || negb (truthy (reqTime req))
  then Respond (fail 400
         "Missing required fields: patientId, doctorId, date, time")
  else
  let p := reqPatientId req in
  let d := valueOf (reqDoctorId req) in
  let dt := valueOf (reqDate req) in
  let tm := valueOf (reqTime req) in
  if isPast e dt
  then Respond (fail 400 "Cannot book appointments in the past")
  else
  Get (whereSlot d dt tm) (fun res =>
  match res with
  | Err => Respond (fail 500 "Failed to check slot availability")
  | Ok None => Respond (fail 400 "Selected time slot is not available")
  | Ok (Some slot) =>
  Get (wherePatientAt p dt tm) (fun res =>
  match res with
  | Err => Respond (fail 500 "Failed to check patient availability")
  | Ok (Some _) =>
      Respond (fail 400 "Patient already has an appointment at this time")
  | Ok None =>
  Run (updateWhereId (setBooked p (orNull (reqNotes req)) (now e))
                     (id slot)) (fun res =>
  match res with
  | Err => Respond (fail 500 "Failed to book appointment")
  | Ok _ =>
  Get (whereId (id slot)) (fun res =>
  match res with
  | Err => Respond (fail 500
             "Appointment booked but failed to retrieve details")
  | Ok appointment =>
      Respond (mkResponse 201
        (BookedBody "Appointment booked successfully" appointment))
  end)
  end)
  end)
  end).

(** [router.put('/:id')]: reschedule an appointment. *)
Definition reschedule (e : Env) (i : string) (req : PutRequest) : Prog :=
  Get (whereId i) (fun res =>
  match res with
  | Err => Respond (fail 500 "Failed to fetch appointment")
  | Ok None => Respond (fail 404 "Appointment not found")
  | Ok (Some appointment) =>
  if negb (Status_eqb (status appointment) booked)
  then Respond (fail 400 "Only booked appointments can be rescheduled")
  else
  if truthy (putDate req) && isPast e (valueOf (putDate req))
  then Respond (fail 400 "Cannot reschedule appointments to the past")
  else
  let d := orColumn (putDoctorId req) (doctorId appointment) in
  let dt := orColumn (putDate req) (date appointment) in
  let tm := orColumn (putTime req) (time appointment) in
  Get (whereSlot d dt tm) (fun res =>
  match res with
  | Err => Respond (fail 500 "Failed to check slot availability")
  | Ok None => Respond (fail 400 "New time slot is not available")
  | Ok (Some newSlot) =>
  Get (wherePatientAtExcept (patientId appointment) dt tm i) (fun res =>
  match res with
  | Err => Respond (fail 500 "Failed to check patient availability")
  | Ok (Some _) =>
      Respond (fail 400 "Patient already has an appointment at this time")
  | Ok None =>
  Run (updateWhereId (setAvailable (now e)) i) (fun res =>
  match res with
  | Err => Respond (fail 500 "Failed to reschedule appointment")
  | Ok _ =>
  Run (updateWhereId
         (setBooked (patientId appointment)
                    (orElse (putNotes req) (notes appointment)) (now2 e))
         (id newSlot)) (fun res =>
  match res with
  | Err => Respond (fail 500 "Failed to reschedule appointment")
  | Ok _ =>
      Respond (mkResponse 200
        (RescheduledBody "Appointment rescheduled successfully"
                         (id newSlot)))
  end)
  end)
  end)
  end)
  end).

(** [router.patch('/:id/cancel')]: cancel an appointment. *)
Definition cancel (e : Env) (i : string) : Prog :=
  Get (whereId i) (fun res =>
  match res with
  | Err => Respond (fail 500 "Failed to fetch appointment")
  | Ok None => Respond (fail 404 "Appointment not found")
  | Ok (Some appointment) =>
  if negb (Status_eqb (status appointment) booked)
  then Respond (fail 400 "Only booked appointments can be cancelled")
  else
  if isPast e (date appointment)
  then Respond (fail 400 "Cannot cancel past appointments")
  else
  Run (updateWhereId (setCancelled (now e)) i) (fun res =>
  match res with
  | Err => Respond (fail 500 "Failed to cancel appointment")
  | Ok _ =>
      Respond (mkResponse 200
        (MessageBody "Appointment cancelled successfully"))
  end)
  end).

(** [router.get('/slots/available')]: list the available slots. *)
Definition availableSlots (e : Env) (qDoctorId qDate : option string)
  : Prog :=
  if negb (truthy qDoctorId) || negb (truthy qDate)
  then Respond (fail 400
         "Missing required query parameters: doctorId, date")
  else
  if isPast e (valueOf qDate)
  then Respond (fail 400 "Cannot view slots for past dates")
  else
  All (selectAvailable (valueOf qDoctorId) (valueOf qDate)) (fun res =>
  match res with
  | Err => Respond (fail 500 "Failed to fetch available slots")
  | Ok rows => Respond (mkResponse 200 (RowsBody rows))
  end).

(** ** The front-end call that completes an appointment *)

(** Modelled from the spec: the declaration of [UpdateAppointmentRequest]
    (front-end [types/appointment]) is not among the sources.  The record
    holds the three fields [completeAppointment] writes and the four
    fields the [PUT /:id] route reads from the body. *)
Record UpdateAppointmentRequest : Type := mkUpdateAppointmentRequest {
  updStatus : option string;
  updDiagnosis : option string;
  updPrescription : option string;
  updDoctorId : option string;
  updDate : option string;
  updTime : option string;
  updNotes : option string
}.

(** Modelled from the spec: the enumeration [AppointmentStatus] is not
    among the sources; its member [COMPLETED] is the status the spec
    calls [completed]. *)
Definition COMPLETED : string := "completed".

(** [updateAppointment(id, data)]: [apiService.put(`/appointments/${id}`, data)].
    Modelled from the spec: [apiService] (front-end [services/api]) is
    not among the sources; its [put] is the HTTP request [PUT], which the
    back end, with this router mounted at [/api/appointments], routes to
    [router.put('/:id')]. *)
Definition updateAppointment (e : Env) (i : string)
  (data : UpdateAppointmentRequest) : Prog :=
  reschedule e i
    (mkPutRequest (updDoctorId data) (updDate data) (updTime data)
                  (updNotes data)).

(** [completeAppointment(id, diagnosis, prescription)] *)
Definition completeAppointment (e : Env) (i : string)
  (diagnosis prescription : option string) : Prog :=
  updateAppointment e i
    (mkUpdateAppointmentRequest (Some COMPLETED) diagnosis prescription
                                None None None None).

(** ** Running a handler *)

(** One store statement of a handler, executed without error. *)
Definition step (p : Prog) (db : DB) : Prog * DB :=
  match p with
  | Respond r => (p, db)
  | Get q k => (k (Ok (find q db)), db)
  | All q k => (k (Ok (q db)), db)
  | Run u k => (k (Ok tt), u db)
  end.

(** A handler run alone.  [faults] says, statement by statement, whether
    the store reports an error ([true]); a statement that errors leaves
    the table as it was.  Past the end of the list no statement errors. *)
Fixpoint run (p : Prog) (faults : list bool) (db : DB) {struct p}
  : Response * DB :=
  match p with
  | Respond r => (r, db)
  | Get q k =>
      if hd false faults then run (k Err) (tl faults) db
      else run (k (Ok (find q db))) (tl faults) db
  | All q k =>
      if hd false faults then run (k Err) (tl faults) db
      else run (k (Ok (q db))) (tl faults) db
  | Run u k =>
      if hd false faults then run (k Err) (tl faults) db
      else run (k (Ok tt)) (tl faults) (u db)
  end.

(** The successive contents of the table that a run leaves for other
    requests to read: one entry per executed [UPDATE]. *)
Fixpoint history (p : Prog) (faults : list bool) (db : DB) {struct p}
  : list DB :=
  match p with
  | Respond r => []
  | Get q k =>
      if hd false faults then history (k Err) (tl faults) db
      else history (k (Ok (find q db))) (tl faults) db
  | All q k =>
      if hd false faults then history (k Err) (tl faults) db
      else history (k (Ok (q db))) (tl faults) db
  | Run u k =>
      if hd false faults then history (k Err) (tl faults) db
      else u db :: history (k (Ok tt)) (tl faults) (u db)
  end.

(** Two requests in flight on one store.  The schedule names, statement
    by statement, the handler whose statement the store executes next
    ([true] for the first). *)
Fixpoint interleave (sched : list bool) (a b : Prog) (db : DB)
  : Prog * Prog * DB :=
  match sched with
  | [] => (a, b, db)
  | true :: sched' =>
      let (a', db') := step a db in interleave sched' a' b db'
  | false :: sched' =>
      let (b', db') := step b db in interleave sched' a b' db'
  end.

(** The two responses and the final table; what the schedule leaves
    unexecuted runs afterwards, first handler first. *)
Definition concurrent (sched : list bool) (a b : Prog) (db : DB)
  : Response * Response * DB :=
  let '(a', b', db1) := interleave sched a b db in
  let (ra, db2) := run a' [] db1 in
  let (rb, db3) := run b' [] db2 in
  (ra, rb, db3).

(** ** Properties of tables *)

(** [id TEXT PRIMARY KEY] *)
Definition primaryKey (db : DB) : Prop := NoDup (map id db).

(** The biconditional of the specification: a slot is booked exactly
    when it carries a patient. *)
Definition bookedIffPatient (r : Appointment) : bool :=
  Bool.eqb (Status_eqb (status r) booked)
           (match patientId r with Some _ => true | None => false end).

(** What the routes maintain: a booked slot carries a patient and an
    available slot carries none. *)
Definition claimConsistent (r : Appointment) : bool :=
  match status r with
  | booked => match patientId r with Some _ => true | None => false end
  | available => match patientId r with Some _ => false | None => true end
  | _ => true
  end.

(** ** Two [book] requests in flight: stages and write log

    A [book] request that passed its checks issues four statements: the
    read of the slot, the read of the patient's bookings, the write, and
    the read of the written row.  [Stage] names where a request stands
    between them; the log lists the requests that have written, in the
    order of their writes ([true] for the first request). *)
Inductive Stage : Type :=
| Start
| SlotRead
| PatientRead
| Written
| Answered201
| Answered400.

(** The stage of a request after its next statement, and the log. *)
Definition advance (me : bool) (st : Stage) (log : list bool)
  : Stage * list bool :=
  match st with
  | Start => (match log with [] => SlotRead | _ => Answered400 end, log)
  | SlotRead => (PatientRead, log)
  | PatientRead => (Written, log ++ [me])
  | Written => (Answered201, log)
  | Answered201 => (Answered201, log)
  | Answered400 => (Answered400, log)
  end.

Definition Config : Type := Stage * Stage * list bool.

Definition schedule1 (who : bool) (c : Config) : Config :=
  let '(sa, sb, log) := c in
  if who then let (sa', log') := advance true sa log in (sa', sb, log')
  else let (sb', log') := advance false sb log in (sa, sb', log').

Fixpoint stages (sched : list bool) (c : Config) : Config :=
  match sched with
  | [] => c
  | w :: sched' => stages sched' (schedule1 w c)
  end.

Definition beforeWrite (st : Stage) : bool :=
  match st with
  | Start | SlotRead | PatientRead => true
  | _ => false
  end.

Definition afterWrite (st : Stage) : bool :=
  match st with
  | Written | Answered201 => true
  | _ => false
  end.

Definition refused (st : Stage) : bool :=
  match st with
  | Answered400 => true
  | _ => false
  end.

Definition accepted (st : Stage) : bool :=
  match st with
  | Answered201 => true
  | _ => false
  end.

(** The configurations two requests for one slot can be in. *)
Definition validConfig (c : Config) : bool :=
  let '(sa, sb, log) := c in
  match log with
  | [] => beforeWrite sa && beforeWrite sb
  | [true] => afterWrite sa && (beforeWrite sb || refused sb)
  | [false] => afterWrite sb && (beforeWrite sa || refused sa)
  | [true; false] | [false; true] => afterWrite sa && afterWrite sb
  | _ => false
  end.

(** Both requests answered: each writer accepted, the other refused. *)
Definition settled (c : Config) : bool :=
  let '(sa, sb, log) := c in
  match log with
  | [true] => accepted sa && refused sb
  | [false] => accepted sb && refused sa
  | [true; false] | [false; true] => accepted sa && accepted sb
  | _ => false
  end.

(** Enough statements to finish both requests, the first one first, as
    [concurrent] does with what a schedule leaves unexecuted. *)
Definition finishing : list bool :=
  [true; true; true; true; false; false; false; false].

(** The program of a [book] request at a stage, for a request that finds
    the slot and the patient free in [db]. *)
Definition atStage (e : Env) (req : BookRequest) (db : DB) (st : Stage)
  (a : Prog) : Prop :=
  match st with
  | Start => a = book e req
  | SlotRead => a = fst (step (book e req) db)
  | PatientRead => a = fst (step (fst (step (book e req) db)) db)
  | Written =>
      a = fst (step (fst (step (fst (step (book e req) db)) db)) db)
  | Answered201 =>
      exists x, a = Respond (mkResponse 201
                     (BookedBody "Appointment booked successfully" x))
  | Answered400 =>
      a = Respond (fail 400 "Selected time slot is not available")
  end.

(** The table after the writes of the log. *)
Definition tableAfter (u1 u2 : DB -> DB) (log : list bool) (db : DB) : DB :=
  fold_left (fun acc (w : bool) => if w then u1 acc else u2 acc) log db.

(** ** A server clock

    A clock for the examples and for the reading of [isPast] in calendar
    terms.  [new Date] reads the date-only form [YYYY-MM-DD] as midnight
    UTC; any other text is an Invalid Date here.  [setHours(0, 0, 0, 0)]
    leaves the midnight of the server's local day, for a server whose
    zone is [tz] minutes east of UTC. *)
Definition digitOf (c : ascii) : option Z :=
  let n := N_of_ascii c in
  if ((48 <=? n) && (n <=? 57))%N then Some (Z.of_N (n - 48)) else None.

Fixpoint numberOf (acc : Z) (l : list ascii) : option Z :=
  match l with
  | [] => Some acc
  | c :: l' =>
      match digitOf c with
      | Some v => numberOf (10 * acc + v)%Z l'
      | None => None
      end
  end.

Definition daysFromCivil (y m d : Z) : Z :=
  let y' := (if m <=? 2 then y - 1 else y)%Z in
  let era := (y' / 400)%Z in
  let yoe := (y' - era * 400)%Z in
  let mp := (if m <=? 2 then m + 9 else m - 3)%Z in
  let doy := ((153 * mp + 2) / 5 + d - 1)%Z in
  let doe := (yoe * 365 + yoe / 4 - yoe / 100 + doy)%Z in
  (era * 146097 + doe - 719468)%Z.

Definition isoDate (s : string) : option Z :=
  match list_ascii_of_string s with
  | [y1; y2; y3; y4; "-"%char; m1; m2; "-"%char; d1; d2] =>
      match numberOf 0 [y1; y2; y3; y4], numberOf 0 [m1; m2],
            numberOf 0 [d1; d2] with
      | Some y, Some m, Some d =>
          if ((1 <=? m) && (m <=? 12) && (1 <=? d) && (d <=? 31))%Z
          then Some (daysFromCivil y m d * 86400000)%Z
          else None
      | _, _, _ => None
      end
  | _ => None
  end.

Definition msPerDay : Z := 86400000.

(** The local day of the server, counted from 1970-01-01. *)
Definition localDay (nowMs tz : Z) : Z :=
  ((nowMs + tz * 60000) / msPerDay)%Z.

Definition localMidnight (nowMs tz : Z) : Z :=
  (localDay nowMs tz * msPerDay - tz * 60000)%Z.

Definition serverEnv (nowMs tz : Z) (stamp stamp2 : string) : Env :=
  mkEnv isoDate (localMidnight nowMs tz) stamp stamp2.

(** The server of the examples runs in UTC; it is 08:00 on 2025-06-01. *)
Definition env0 : Env :=
  serverEnv 1748764800000 0
            "2025-06-01T08:00:00.000Z" "2025-06-01T08:00:00.005Z".

(** ** The tables of the examples *)

Definition seedStamp : string := "2025-05-31 12:00:00".

Definition slot (i : string) (d dt tm : string) : Appointment :=
  mkAppointment i None d dt tm available None seedStamp seedStamp.

Definition S1 : Appointment := slot "S1" "D1" "2025-06-10" "10:00".
Definition S2 : Appointment := slot "S2" "D1" "2025-06-11" "09:00".
Definition S3 : Appointment := slot "S3" "D2" "2025-06-10" "10:00".

Definition db0 : DB := [S1; S2; S3].

Definition bookS1 (p : string) (n : option string) : BookRequest :=
  mkBookRequest (Some p) (Some "D1") (Some "2025-06-10") (Some "10:00") n.

(** [S1] booked by patient A, as [book] leaves it. *)
Definition S1A : Appointment :=
  setBooked (Some "patientA") (Some "cough") (now env0) S1.

Definition dbA : DB := [S1A; S2; S3].

(** Move the appointment to 2025-06-11 09:00 with the same doctor. *)
Definition moveToS2 : PutRequest :=
  mkPutRequest None (Some "2025-06-11") (Some "09:00") None.

(** Move the appointment to doctor D2 at the same date and time. *)
Definition moveToD2 : PutRequest :=
  mkPutRequest (Some "D2") None None None.

(** A table with a slot on a date before the day of [env0]. *)
Definition S0 : Appointment := slot "S0" "D1" "2025-05-20" "10:00".

Definition dbPast : DB := [S0; S1; S2].

(** [S1] after patient A cancelled it. *)
Definition S1C : Appointment := setCancelled (now env0) S1A.

Definition dbC : DB := [S1C; S2; S3].

(** A booked slot on a date before the day of [env0]. *)
Definition S0A : Appointment :=
  setBooked (Some "patientA") None seedStamp S0.

Definition dbPastA : DB := [S0A; S1A; S2].

(** [status = 'available'] *)
Definition isAvailable (r : Appointment) : bool :=
  Status_eqb (status r) available.

(** Ascending [time]. *)
Definition timeLe (x y : Appointment) : Prop :=
  String.leb (time x) (time y) = true.

(** Patient B books [S2]. *)
Definition bookS2B : BookRequest :=
  mkBookRequest (Some "patientB") (Some "D1") (Some "2025-06-11")
                (Some "09:00") None.

(** Patient A asks for the slot of 2025-05-20, a date before today. *)
Definition bookPast : BookRequest :=
  mkBookRequest (Some "patientA") (Some "D1") (Some "2025-05-20")
                (Some "10:00") None.

(** Patient A, who holds [S1], asks for [S3] at the same date and time. *)
Definition bookS3A : BookRequest :=
  mkBookRequest (Some "patientA") (Some "D2") (Some "2025-06-10")
                (Some "10:00") None.

(** ** Requests and what every route leaves alone *)

(** A request to one of the four routes that touch the slot table. *)
Inductive Request : Type :=
| PostAppointment (e : Env) (req : BookRequest)
| PutAppointment (e : Env) (i : string) (req : PutRequest)
| PatchCancel (e : Env) (i : string)
| GetAvailable (e : Env) (qDoctorId qDate : option string).

Definition handle (r : Request) : Prog :=
  match r with
  | PostAppointment e req => book e req
  | PutAppointment e i req => reschedule e i req
  | PatchCancel e i => cancel e i
  | GetAvailable e d dt => availableSlots e d dt
  end.

(** The columns that no [UPDATE] of the routes sets. *)
Definition slotKey (r : Appointment)
  : string * string * string * string * string :=
  (id r, doctorId r, date r, time r, createdAt r).

Definition sameSlots (db db' : DB) : Prop :=
  map slotKey db' = map slotKey db.

(** The programs all of whose [UPDATE] statements are in [W], whatever
    the store answers to the statements before them. *)
Inductive writesOnly (W : (DB -> DB) -> Prop) : Prog -> Prop :=
| wo_respond (r : Response) : writesOnly W (Respond r)
| wo_get (q : Appointment -> bool) (k : DbResult (option Appointment) -> Prog) :
    (forall res, writesOnly W (k res)) -> writesOnly W (Get q k)
| wo_all (q : DB -> list SlotRow) (k : DbResult (list SlotRow) -> Prog) :
    (forall res, writesOnly W (k res)) -> writesOnly W (All q k)
| wo_run (u : DB -> DB) (k : DbResult unit -> Prog) :
    W u -> (forall res, writesOnly W (k res)) -> writesOnly W (Run u k).

(** An [UPDATE] that leaves the key columns of every row as they are. *)
Definition keepsSlots (u : DB -> DB) : Prop :=
  forall db, sameSlots db (u db).

(** The statuses no transition leaves. *)
Definition isTerminal (r : Appointment) : bool :=
  match status r with
  | cancelled | completed => true
  | _ => false
  end.

(** The number of rows in a status. *)
Definition countStatus (st : Status) (db : DB) : nat :=
  List.length (filter (fun r => Status_eqb (status r) st) db).

Definition inStatus (st : Status) (r : Appointment) : nat :=
  if Status_eqb (status r) st then 1 else 0.

(** No patient holds two booked slots at one (date, time). *)
Definition noDoubleBooking (db : DB) : Prop :=
  forall r1 r2 p,
    In r1 db -> In r2 db ->
    status r1 = booked -> status r2 = booked ->
    patientId r1 = Some p -> patientId r2 = Some p ->
    date r1 = date r2 -> time r1 = time r2 ->
    id r1 = id r2.

(** ** The router of [routes/appointments.js]

    Express tries the routes of a router in the order of their
    registration and runs the handler of the first whose method and path
    match; no handler of this router passes the request on.  A path is
    given by its segments, the texts between the slashes (routing is not
    strict: a trailing slash is dropped).  A literal segment of a route
    matches without regard to case; a parameter matches any non-empty
    segment.  The decoding of a parameter is not modelled. *)
Inductive Method : Type :=
| GET
| POST
| PUT
| PATCH
| DELETE.

Definition Method_eqb (a b : Method) : bool :=
  match a, b with
  | GET, GET | POST, POST | PUT, PUT | PATCH, PATCH | DELETE, DELETE => true
  | _, _ => false
  end.

Inductive Segment : Type :=
| Lit (s : string)
| Param (name : string).

Definition lowerAscii (c : ascii) : ascii :=
  let n := nat_of_ascii c in
  if (andb (Nat.leb 65 n) (Nat.leb n 90)) then ascii_of_nat (n + 32) else c.

Fixpoint lowerCase (s : string) : string :=
  match s with
  | EmptyString => EmptyString
  | String c s' => String (lowerAscii c) (lowerCase s')
  end.

Fixpoint matchPath (pat : list Segment) (path : list string)
  : option (list (string * string)) :=
  match pat, path with
  | [], [] => Some []
  | Lit s :: pat', x :: path' =>
      if lowerCase x =? lowerCase s then matchPath pat' path' else None
  | Param n :: pat', x :: path' =>
      if x =? "" then None
      else option_map (cons (n, x)) (matchPath pat' path')
  | _, _ => None
  end.

(** The handlers of the router, named by what they do. *)
Inductive Route : Type :=
| ListAll
| GetById
| Book
| Reschedule
| Cancel
| SlotsAvailable
| PatientAppointments
| PastAll
| Upcoming.

(** [router.get('/')], [router.get('/:id')], [router.post('/')], ... in
    the order of the file. *)
Definition appointmentRoutes : list (Method * list Segment * Route) :=
  [ (GET, [], ListAll);
    (GET, [Param "id"], GetById);
    (POST, [], Book);
    (PUT, [Param "id"], Reschedule);
    (PATCH, [Param "id"; Lit "cancel"], Cancel);
    (GET, [Lit "slots"; Lit "available"], SlotsAvailable);
    (GET, [Lit "patient"; Param "patientId"], PatientAppointments);
    (GET, [Lit "past"; Lit "all"], PastAll);
    (GET, [Lit "upcoming"], Upcoming) ].

Fixpoint dispatch (routes : list (Method * list Segment * Route))
  (m : Method) (path : list string)
  : option (Route * list (string * string)) :=
  match routes with
  | [] => None
  | (m', pat, r) :: routes' =>
      if Method_eqb m m' then
        match matchPath pat path with
        | Some params => Some (r, params)
        | None => dispatch routes' m path
        end
      else dispatch routes' m path
  end.

(** The requests of the front-end service [AppointmentApiService], by
    method and path below [/appointments]; an id is one segment. *)
Definition rescheduleAppointmentCall (i : string) : Method * list string :=
  (POST, [i; "reschedule"]).

Definition deleteAppointmentCall (i : string) : Method * list string :=
  (DELETE, [i]).

Definition cancelAppointmentCall (i : string) : Method * list string :=
  (PATCH, [i; "cancel"]).

Definition updateAppointmentCall (i : string) : Method * list string :=
  (PUT, [i]).

Definition getDoctorAppointmentsCall (d : string) : Method * list string :=
  (GET, ["doctor"; d]).

Definition getUpcomingAppointmentsCall : Method * list string :=
  (GET, ["upcoming"]).

Definition getPastAppointmentsCall : Method * list string :=
  (GET, ["past"]).

Definition getAvailableTimeSlotsCall : Method * list string :=
  (GET, ["slots"; "available"]).

(** ** The read routes and the tables they join *)

(** A row of [patients]. *)
Record Patient : Type := mkPatient {
  patId : string;
  patName : string;
  patEmail : string;
  patPhone : option string;
  patDateOfBirth : option string;
  patAddress : option string;
  patCreatedAt : string;
  patUpdatedAt : string
}.

(** The columns of [doctors] that the routes of this file read. *)
Record Doctor : Type := mkDoctor {
  docId : string;
  docName : string;
  docEmail : string;
  docPhone : option string;
  docSpecialization : option string
}.

Record Store : Type := mkStore {
  appointments : DB;
  patients : list Patient;
  doctors : list Doctor
}.

(** [a.*, p.name as patientName, ..., d.name as doctorName, ...]; the
    columns of a table are NULL together when [LEFT JOIN] finds no row. *)
Record AppointmentRow : Type := mkAppointmentRow {
  rowAppointment : Appointment;
  rowPatient : option Patient;
  rowDoctor : option Doctor
}.

Definition patientName (r : AppointmentRow) : option string :=
  option_map patName (rowPatient r).

Definition patientEmail (r : AppointmentRow) : option string :=
  option_map patEmail (rowPatient r).

Definition patientPhone (r : AppointmentRow) : option string :=
  match rowPatient r with Some p => patPhone p | None => None end.

Definition doctorName (r : AppointmentRow) : option string :=
  option_map docName (rowDoctor r).

Definition doctorSpecialization (r : AppointmentRow) : option string :=
  match rowDoctor r with Some d => docSpecialization d | None => None end.

Definition doctorEmail (r : AppointmentRow) : option string :=
  option_map docEmail (rowDoctor r).

Definition doctorPhone (r : AppointmentRow) : option string :=
  match rowDoctor r with Some d => docPhone d | None => None end.

(** [LEFT JOIN]: the matching rows, or one NULL row when there is none. *)
Definition leftJoin {B : Type} (matching : list B) : list (option B) :=
  match matching with
  | [] => [None]
  | _ => map Some matching
  end.

(** [ON a.patientId = p.id] *)
Definition onPatient (a : Appointment) (p : Patient) : bool :=
  match patientId a with
  | Some x => x =? patId p
  | None => false
  end.

(** [ON a.doctorId = d.id] *)
Definition onDoctor (a : Appointment) (d : Doctor) : bool :=
  doctorId a =? docId d.

(** [FROM appointments a LEFT JOIN patients p ... LEFT JOIN doctors d ...] *)
Definition joinPatientDoctor (st : Store) (a : Appointment)
  : list AppointmentRow :=
  flat_map
    (fun p => map (fun d => mkAppointmentRow a p d)
                  (leftJoin (filter (onDoctor a) (doctors st))))
    (leftJoin (filter (onPatient a) (patients st))).

(** [FROM appointments a LEFT JOIN doctors d ...], with no patient
    columns. *)
Definition joinDoctor (st : Store) (a : Appointment) : list AppointmentRow :=
  map (fun d => mkAppointmentRow a None d)
      (leftJoin (filter (onDoctor a) (doctors st))).

(** [ORDER BY]: a stable sort by the order [le]. *)
Fixpoint insertBy {A : Type} (le : A -> A -> bool) (x : A) (l : list A)
  : list A :=
  match l with
  | [] => [x]
  | y :: l' => if le x y then x :: l else y :: insertBy le x l'
  end.

Fixpoint sortBy {A : Type} (le : A -> A -> bool) (l : list A) : list A :=
  match l with
  | [] => []
  | x :: l' => insertBy le x (sortBy le l')
  end.

(** [ORDER BY a.date DESC, a.time ASC], both compared as text. *)
Definition dateDescTimeAsc (x y : AppointmentRow) : bool :=
  let a := rowAppointment x in
  let b := rowAppointment y in
  String.ltb (date b) (date a)
  || ((date a =? date b) && String.leb (time a) (time b)).

(** What the read routes answer. *)
Inductive ReplyBody : Type :=
| ErrorReply (error : string)
| RowReply (row : AppointmentRow)
| RowsReply (rows : list AppointmentRow).

Record Reply : Type := mkReply {
  replyCode : nat;
  replyBody : ReplyBody
}.

(** [router.get('/')]: all appointments.  [err] is the error flag of the
    one statement. *)
Definition listAll (st : Store) (err : bool) : Reply :=
  if err then mkReply 500 (ErrorReply "Failed to fetch appointments")
  else mkReply 200
         (RowsReply (sortBy dateDescTimeAsc
            (flat_map (joinPatientDoctor st) (appointments st)))).

(** [router.get('/:id')]: one appointment. *)
Definition getById (st : Store) (err : bool) (i : string) : Reply :=
  if err then mkReply 500 (ErrorReply "Failed to fetch appointment")
  else
    match find (fun r => id (rowAppointment r) =? i)
               (flat_map (joinPatientDoctor st) (appointments st)) with
    | None => mkReply 404 (ErrorReply "Appointment not found")
    | Some row => mkReply 200 (RowReply row)
    end.

(** The text of a status in the table. *)
Definition statusName (s : Status) : string :=
  match s with
  | available => "available"
  | booked => "booked"
  | cancelled => "cancelled"
  | completed => "completed"
  end.

(** The [WHERE] clause that [router.get('/patient/:patientId')] builds:
    [a.patientId = ?], then [AND a.status = ?] when [status] is given,
    then [AND a.date < ?] when [past] is the text "true" and
    [AND a.date >= ?] when it is "false", with the date of today in UTC,
    [new Date().toISOString().split('T')[0]], for the parameter. *)
Definition wherePatientFilter (pid : string) (qStatus qPast : option string)
  (todayUtc : string) (a : Appointment) : bool :=
  match patientId a with Some x => x =? pid | None => false end
  && (if truthy qStatus then statusName (status a) =? valueOf qStatus
      else true)
  && (match qPast with
      | Some x =>
          if x =? "true" then String.ltb (date a) todayUtc
          else if x =? "false" then negb (String.ltb (date a) todayUtc)
          else true
      | None => true
      end).

(** [router.get('/patient/:patientId')], and with the same statement
    [router.get('/:id/appointments')] of the patients' router. *)
Definition patientAppointments (st : Store) (err : bool) (pid : string)
  (qStatus qPast : option string) (todayUtc : string) : Reply :=
  if err
  then mkReply 500 (ErrorReply "Failed to fetch patient appointments")
  else mkReply 200
         (RowsReply (sortBy dateDescTimeAsc
            (flat_map (joinDoctor st)
               (filter (wherePatientFilter pid qStatus qPast todayUtc)
                       (appointments st))))).

(** The order of [ORDER BY a.date DESC, a.time ASC] as a relation. *)
Definition byDateDescTimeAsc (x y : AppointmentRow) : Prop :=
  dateDescTimeAsc x y = true.

(** The rows of an answer that lists rows. *)
Definition replyRows (r : Reply) : list AppointmentRow :=
  match replyBody r with
  | RowsReply rows => rows
  | _ => []
  end.

(** ** Creating a patient: [router.post('/')] of [routes/patients.js] *)

(** [const { name, email, phone, dateOfBirth, address } = req.body] *)
Record PatientRequest : Type := mkPatientRequest {
  reqName : option string;
  reqEmail : option string;
  reqPhone : option string;
  reqDateOfBirth : option string;
  reqAddress : option string
}.

Inductive PatientBody : Type :=
| PatientError (error : string)
| PatientCreated (message : string) (patient : option Patient).

Record PatientResponse : Type := mkPatientResponse {
  patCode : nat;
  patBody : PatientBody
}.

Definition patFail (c : nat) (msg : string) : PatientResponse :=
  mkPatientResponse c (PatientError msg).

(** The statements of a handler on [patients].  An [INSERT] names the
    new table, or nothing when a constraint of the table refuses the row,
    which the callback receives as an error. *)
Inductive PatientProg : Type :=
| PatRespond (r : PatientResponse)
| PatGet (where_ : Patient -> bool)
         (k : DbResult (option Patient) -> PatientProg)
| PatRun (insert : list Patient -> option (list Patient))
         (k : DbResult unit -> PatientProg).

(** [INSERT INTO patients ...] under [id TEXT PRIMARY KEY] and
    [email TEXT UNIQUE NOT NULL]. *)
Definition insertPatient (p : Patient) (tbl : list Patient)
  : option (list Patient) :=
  if existsb (fun x => patId x =? patId p) tbl
     || existsb (fun x => patEmail x =? patEmail p) tbl
  then None
  else Some (tbl ++ [p]).

(** The handler; [uuid] is the value of [uuidv4()] and [stamp] that of
    [new Date().toISOString()]. *)
Definition createPatient (uuid stamp : string) (req : PatientRequest)
  : PatientProg :=
  if negb (truthy (reqName req)) || negb (truthy (reqEmail req))
  then PatRespond (patFail 400 "Missing required fields: name, email")
  else
  let email := valueOf (reqEmail req) in
  PatGet (fun x => patEmail x =? email) (fun res =>
  match res with
  | Err => PatRespond (patFail 500 "Failed to create patient")
  | Ok (Some _) => PatRespond (patFail 400 "Email already exists")
  | Ok None =>
  PatRun (insertPatient
            (mkPatient uuid (valueOf (reqName req)) email
               (orNull (reqPhone req)) (orNull (reqDateOfBirth req))
               (orNull (reqAddress req)) stamp stamp)) (fun res =>
  match res with
  | Err => PatRespond (patFail 500 "Failed to create patient")
  | Ok _ =>
  PatGet (fun x => patId x =? uuid) (fun res =>
  match res with
  | Err => PatRespond (patFail 500
             "Patient created but failed to retrieve details")
  | Ok patient =>
      PatRespond (mkPatientResponse 201
        (PatientCreated "Patient created successfully" patient))
  end)
  end)
  end).

(** One statement of a handler on [patients], with no other error than
    a refused [INSERT]. *)
Definition patStep (p : PatientProg) (tbl : list Patient)
  : PatientProg * list Patient :=
  match p with
  | PatRespond r => (p, tbl)
  | PatGet q k => (k (Ok (find q tbl)), tbl)
  | PatRun u k =>
      match u tbl with
      | Some tbl' => (k (Ok tt), tbl')
      | None => (k Err, tbl)
      end
  end.

(** A handler run alone, with the errors the store reports besides. *)
Fixpoint patRun (p : PatientProg) (faults : list bool) (tbl : list Patient)
  {struct p} : PatientResponse * list Patient :=
  match p with
  | PatRespond r => (r, tbl)
  | PatGet q k =>
      if hd false faults then patRun (k Err) (tl faults) tbl
      else patRun (k (Ok (find q tbl))) (tl faults) tbl
  | PatRun u k =>
      if hd false faults then patRun (k Err) (tl faults) tbl
      else match u tbl with
           | Some tbl' => patRun (k (Ok tt)) (tl faults) tbl'
           | None => patRun (k Err) (tl faults) tbl
           end
  end.

(** Two requests in flight on [patients]. *)
Fixpoint patInterleave (sched : list bool) (a b : PatientProg)
  (tbl : list Patient) : PatientProg * PatientProg * list Patient :=
  match sched with
  | [] => (a, b, tbl)
  | true :: sched' =>
      let (a', tbl') := patStep a tbl in patInterleave sched' a' b tbl'
  | false :: sched' =>
      let (b', tbl') := patStep b tbl in patInterleave sched' a b' tbl'
  end.

Definition patConcurrent (sched : list bool) (a b : PatientProg)
  (tbl : list Patient)
  : PatientResponse * PatientResponse * list Patient :=
  let '(a', b', tbl1) := patInterleave sched a b tbl in
  let (ra, tbl2) := patRun a' [] tbl1 in
  let (rb, tbl3) := patRun b' [] tbl2 in
  (ra, rb, tbl3).

(** [email UNIQUE] and [id PRIMARY KEY] as properties of the table. *)
Definition patientsKeyed (tbl : list Patient) : Prop :=
  NoDup (map patId tbl) /\ NoDup (map patEmail tbl).

(** The table grows at its end only. *)
Definition extends (tbl tbl' : list Patient) : Prop :=
  exists more, tbl' = tbl ++ more.

(** The row that [createPatient] inserts. *)
Definition newPatient (uuid stamp : string) (req : PatientRequest)
  : Patient :=
  mkPatient uuid (valueOf (reqName req)) (valueOf (reqEmail req))
            (orNull (reqPhone req)) (orNull (reqDateOfBirth req))
            (orNull (reqAddress req)) stamp stamp.

(** Where a [createPatient] request stands between its statements: at
    the read of the email, at the [INSERT], at the read of the new row,
    or answered.  The log lists the requests whose [INSERT] the table
    accepted. *)
Inductive PatStage : Type :=
| PatStart
| PatChecked
| PatInserted
| Pat201
| Pat400
| Pat500.

Definition patAdvance (me : bool) (st : PatStage) (log : list bool)
  : PatStage * list bool :=
  match st with
  | PatStart => (match log with [] => PatChecked | _ => Pat400 end, log)
  | PatChecked =>
      match log with
      | [] => (PatInserted, [me])
      | _ => (Pat500, log)
      end
  | PatInserted => (Pat201, log)
  | _ => (st, log)
  end.

Definition PatConfig : Type := PatStage * PatStage * list bool.

Definition patSchedule1 (who : bool) (c : PatConfig) : PatConfig :=
  let '(sa, sb, log) := c in
  if who then let (sa', log') := patAdvance true sa log in (sa', sb, log')
  else let (sb', log') := patAdvance false sb log in (sa, sb', log').

Fixpoint patStages (sched : list bool) (c : PatConfig) : PatConfig :=
  match sched with
  | [] => c
  | w :: sched' => patStages sched' (patSchedule1 w c)
  end.

Definition patBefore (st : PatStage) : bool :=
  match st with
  | PatStart | PatChecked => true
  | _ => false
  end.

Definition patAfter (st : PatStage) : bool :=
  match st with
  | PatInserted | Pat201 => true
  | _ => false
  end.

Definition patRefused (st : PatStage) : bool :=
  match st with
  | Pat400 | Pat500 => true
  | _ => false
  end.

Definition patValid (c : PatConfig) : bool :=
  let '(sa, sb, log) := c in
  match log with
  | [] => patBefore sa && patBefore sb
  | [true] => patAfter sa && (patBefore sb || patRefused sb)
  | [false] => patAfter sb && (patBefore sa || patRefused sa)
  | _ => false
  end.

Definition patSettled (c : PatConfig) : bool :=
  let '(sa, sb, log) := c in
  match log, sa, sb with
  | [true], Pat201, (Pat400 | Pat500) => true
  | [false], (Pat400 | Pat500), Pat201 => true
  | _, _, _ => false
  end.

Definition patFinishing : list bool :=
  [true; true; true; false; false; false].

Definition patAtStage (uuid stamp : string) (req : PatientRequest)
  (tbl : list Patient) (st : PatStage) (a : PatientProg) : Prop :=
  match st with
  | PatStart => a = createPatient uuid stamp req
  | PatChecked => a = fst (patStep (createPatient uuid stamp req) tbl)
  | PatInserted =>
      a = fst (patStep (fst (patStep (createPatient uuid stamp req) tbl))
                       tbl)
  | Pat201 =>
      exists x, a = PatRespond (mkPatientResponse 201
                      (PatientCreated "Patient created successfully" x))
  | Pat400 => a = PatRespond (patFail 400 "Email already exists")
  | Pat500 => a = PatRespond (patFail 500 "Failed to create patient")
  end.

(** The table after the inserts of the log. *)
Definition patTableAfter (p1 p2 : Patient) (log : list bool)
  (tbl : list Patient) : list Patient :=
  fold_left (fun acc (w : bool) => acc ++ [if w then p1 else p2]) log tbl.

(** ** Sample data: the slots of [insertSampleData] in [database/init.js] *)

(** A value of [Math.random()]: a double, which is a rational number. *)
Definition Draw : Type := QArith_base.Q.

(** The double that the literal [0.7] denotes. *)
Definition threshold : Draw :=
  QArith_base.Qmake 3152519739159347 4503599627370496.

(** [0 <= Math.random() < 1] *)
Definition inUnit (r : Draw) : Prop :=
  QArith_base.Qle (QArith_base.inject_Z 0) r
  /\ QArith_base.Qlt r (QArith_base.inject_Z 1).

(** The [id]s of the arrays [doctors] and [patients], and [timeSlots]. *)
Definition sampleDoctorIds : list string := ["doc-001"; "doc-002"; "doc-003"].
Definition samplePatientIds : list string := ["pat-001"; "pat-002"].
Definition timeSlots : list string :=
  ["09:00"; "10:00"; "11:00"; "14:00"; "15:00"; "16:00"].

(** A number inside a template literal. *)
Definition showNat (n : nat) : string :=
  DecimalString.NilEmpty.string_of_uint (Nat.to_uint n).

(** [`apt-${doctorIndex + 1}-${timeIndex + 1}`] *)
Definition appointmentId (doctorIndex timeIndex : nat) : string :=
  "apt-" ++ showNat (doctorIndex + 1) ++ "-" ++ showNat (timeIndex + 1).

(** [patients[Math.floor(Math.random() * patients.length)].id]: an index
    outside the array gives [undefined], and reading its [id] throws. *)
Definition pickPatient (r : Draw) : option string :=
  let k := Qround.Qfloor
             (QArith_base.Qmult r
                (QArith_base.inject_Z
                   (Z.of_nat (List.length samplePatientIds)))) in
  if (k <? 0)%Z then None else nth_error samplePatientIds (Z.to_nat k).

(** The row that one turn of the inner loop hands to the [INSERT]; [rnd]
    is the sequence of values of [Math.random()] and [n] the number of
    those already taken.  [notes] is not among the columns of the
    [INSERT], and [createdAt] and [updatedAt] take their default, the
    time [stamp] of the insertion. *)
Definition sampleSlot (rnd : nat -> Draw) (tomorrow : string)
  (stamp : nat -> nat -> string) (doctor : string) (doctorIndex : nat)
  (time : string) (timeIndex : nat) (n : nat) : option (Appointment * nat) :=
  if negb (QArith_base.Qle_bool (rnd n) threshold)
  then match pickPatient (rnd (S n)) with
       | Some p =>
           Some (mkAppointment (appointmentId doctorIndex timeIndex)
                   (Some p) doctor tomorrow time booked None
                   (stamp doctorIndex timeIndex)
                   (stamp doctorIndex timeIndex),
                 S (S n))
       | None => None
       end
  else Some (mkAppointment (appointmentId doctorIndex timeIndex)
               None doctor tomorrow time available None
               (stamp doctorIndex timeIndex) (stamp doctorIndex timeIndex),
             S n).

(** [INSERT OR IGNORE INTO appointments]: a row whose [id] the table
    already has is dropped. *)
Definition insertOrIgnore (r : Appointment) (db : DB) : DB :=
  if existsb (fun x => id x =? id r) db then db else db ++ [r].

(** The state of the loops: the number of values of [Math.random()]
    taken, the errors the store is still to report, and the table. *)
Record SeedState : Type := mkSeedState {
  drawn : nat;
  failures : list bool;
  seeded : DB
}.

(** [array.forEach((x, index) => ...)], from index [i] on; a turn that
    throws ends the loop. *)
Fixpoint forEach {A St : Type} (f : A -> nat -> St -> option St)
  (l : list A) (i : nat) (s : St) : option St :=
  match l with
  | [] => Some s
  | x :: l' =>
      match f x i s with
      | Some s' => forEach f l' (S i) s'
      | None => None
      end
  end.

(** One turn of the inner loop: the row is made and given to
    [appointmentStmt.run], which inserts it unless the store reports an
    error. *)
Definition seedSlot (rnd : nat -> Draw) (tomorrow : string)
  (stamp : nat -> nat -> string) (doctor : string) (doctorIndex : nat)
  (time : string) (timeIndex : nat) (s : SeedState) : option SeedState :=
  match sampleSlot rnd tomorrow stamp doctor doctorIndex time timeIndex
          (drawn s) with
  | None => None
  | Some (r, n) =>
      match failures s with
      | true :: fs => Some (mkSeedState n fs (seeded s))
      | false :: fs => Some (mkSeedState n fs (insertOrIgnore r (seeded s)))
      | [] => Some (mkSeedState n [] (insertOrIgnore r (seeded s)))
      end
  end.

(** [doctors.forEach((doctor, doctorIndex) =>
      timeSlots.forEach((time, timeIndex) => ...))] *)
Definition insertSampleSlots (rnd : nat -> Draw) (tomorrow : string)
  (stamp : nat -> nat -> string) (faults : list bool) (db : DB)
  : option DB :=
  option_map seeded
    (forEach (fun doctor doctorIndex =>
                forEach (seedSlot rnd tomorrow stamp doctor doctorIndex)
                        timeSlots 0)
             sampleDoctorIds 0 (mkSeedState 0 faults db)).

(** The [id], doctor and time of the eighteen sample slots, in the order
    of the loops. *)
Definition sampleKeys : list (string * string * string) :=
  [("apt-1-1", "doc-001", "09:00"); ("apt-1-2", "doc-001", "10:00");
   ("apt-1-3", "doc-001", "11:00"); ("apt-1-4", "doc-001", "14:00");
   ("apt-1-5", "doc-001", "15:00"); ("apt-1-6", "doc-001", "16:00");
   ("apt-2-1", "doc-002", "09:00"); ("apt-2-2", "doc-002", "10:00");
   ("apt-2-3", "doc-002", "11:00"); ("apt-2-4", "doc-002", "14:00");
   ("apt-2-5", "doc-002", "15:00"); ("apt-2-6", "doc-002", "16:00");
   ("apt-3-1", "doc-003", "09:00"); ("apt-3-2", "doc-003", "10:00");
   ("apt-3-3", "doc-003", "11:00"); ("apt-3-4", "doc-003", "14:00");
   ("apt-3-5", "doc-003", "15:00"); ("apt-3-6", "doc-003", "16:00")].

Definition sampleKey (r : Appointment) : string * string * string :=
  (id r, doctorId r, time r).

(** What every sample row is like. *)
Definition sampleRow (tomorrow : string) (r : Appointment) : Prop :=
  In (sampleKey r) sampleKeys
  /\ date r = tomorrow
  /\ notes r = None
  /\ ((status r = available /\ patientId r = None)
      \/ (status r = booked
          /\ exists p, patientId r = Some p /\ In p samplePatientIds)).

(** ** The stores of the examples *)

Definition annA : Patient :=
  mkPatient "patientA" "Ann" "ann@example.com" (Some "+1-555-0201") None
            None seedStamp seedStamp.

Definition doctorD1 : Doctor :=
  mkDoctor "D1" "Dr. One" "one@hospital.com" None (Some "Cardiology").

Definition doctorD2 : Doctor :=
  mkDoctor "D2" "Dr. Two" "two@hospital.com" None (Some "Neurology").

(** The table [dbPastA] with its patient and doctors. *)
Definition storeA : Store := mkStore dbPastA [annA] [doctorD1; doctorD2].

(** A request to create a patient whose email no patient has, and one
    with the email of [annA]. *)
Definition createBob : PatientRequest :=
  mkPatientRequest (Some "Bob") (Some "bob@example.com") None None None.

Definition createAnn : PatientRequest :=
  mkPatientRequest (Some "Ann B.") (Some "ann@example.com") None None None.

(** [Math.random()] giving 0.9 at every even call and 0.25 at every odd
    call, and giving 0.9 at every call. *)
Definition drawsMixed : nat -> Draw :=
  fun n => if Nat.even n then QArith_base.Qmake 9 10
           else QArith_base.Qmake 1 4.


(** A table that has the eighteen sample slots, the first one booked. *)
Definition sampleTable : DB :=
  updateWhereId (setBooked (Some "pat-001") None seedStamp) "apt-1-1"
    (map (fun k => slot (fst (fst k)) (snd (fst k)) "2025-06-02" (snd k))
         sampleKeys).

(** Patient B asks for the slot [S1]. *)
Definition bookS1B : BookRequest := bookS1 "patientB" None.

(** Patient A edits the notes of the booking of [S1]: the form sends the
    date and time the appointment has. *)
Definition editNotesS1 : PutRequest :=
  mkPutRequest None (Some "2025-06-10") (Some "10:00") (Some "new note").

(** A server five hours behind UTC, at 08:00 UTC on 2025-06-01. *)
Definition envWest : Env :=
  serverEnv 1748764800000 (-300)
            "2025-06-01T08:00:00.000Z" "2025-06-01T08:00:00.005Z".

(** Patient A asks for a slot of 2025-06-01, the day of [envWest]. *)
Definition bookToday : BookRequest :=
  mkBookRequest (Some "patientA") (Some "D1") (Some "2025-06-01")
                (Some "10:00") None.

(** * Properties *)

(** ** Queries and updates *)

Lemma Status_eqb_eq (a b : Status) : Status_eqb a b = true <-> a = b.
Proof. destruct a, b; simpl; split; intro H; congruence. Qed.

Lemma find_all_false {A : Type} (f : A -> bool) (l : list A) :
  (forall x, In x l -> f x = false) -> find f l = None.
Proof.
  induction l as [|a l IH]; simpl; intro H; [reflexivity|].
  rewrite (H a (or_introl eq_refl)). apply IH. intros x Hx. apply H. now right.
Qed.

Lemma find_exists {A : Type} (f : A -> bool) (l : list A) (x : A) :
  In x l -> f x = true -> exists y, find f l = Some y.
Proof.
  induction l as [|a l IH]; simpl; [tauto|].
  intros [->|Hx] Hf.
  - rewrite Hf. now exists x.
  - destruct (f a); [now exists a | now apply IH].
Qed.

Lemma whereSlot_true (d dt tm : string) (r : Appointment) :
  whereSlot d dt tm r = true <->
  doctorId r = d /\ date r = dt /\ time r = tm /\ status r = available.
Proof.
  unfold whereSlot. rewrite !andb_true_iff, !String.eqb_eq, Status_eqb_eq.
  tauto.
Qed.

Lemma wherePatientAt_true (p : string) (dt tm : string) (r : Appointment) :
  wherePatientAt (Some p) dt tm r = true <->
  patientId r = Some p /\ date r = dt /\ time r = tm /\ status r = booked.
Proof.
  unfold wherePatientAt, patientIs.
  rewrite !andb_true_iff, !String.eqb_eq, Status_eqb_eq.
  destruct (patientId r) as [q|].
  - rewrite String.eqb_eq. split.
    + intros [[[-> ?] ?] ?]. tauto.
    + intros [[= ->] ?]. tauto.
  - split; [intros [[[[=] _] _] _] | intros [[=] _]].
Qed.

(** Case analysis of a run: the tests of the handler, the rows the reads
    find and the error flags of the store. *)
Ltac run_cases :=
  repeat (simpl in *;
    match goal with
    | |- context [hd false ?f] => destruct f as [|[|] ?]
    | |- context [match find ?q ?db with _ => _ end] =>
        destruct (find q db) eqn:?
    | |- context [if ?c then _ else _] => destruct c eqn:?
    end).

(** ** Dates before today *)

(** A date whose day is before the server's local day is in the past for
    every route, whatever the zone of the server. *)
Lemma earlier_day_is_past (nowMs tz : Z) (stamp stamp2 s : string)
  (day : Z) :
  isoDate s = Some (day * msPerDay)%Z ->
  (-1440 < tz < 1440)%Z ->
  (day < localDay nowMs tz)%Z ->
  isPast (serverEnv nowMs tz stamp stamp2) s = true.
Proof.
  intros Hs Htz Hday. unfold isPast, serverEnv. simpl. rewrite Hs.
  apply Z.ltb_lt. unfold localMidnight, msPerDay in *. lia.
Qed.

(** The day of the server itself is not in the past when the server is
    in UTC or east of it. *)
Lemma same_day_is_not_past (nowMs tz : Z) (stamp stamp2 s : string) :
  isoDate s = Some (localDay nowMs tz * msPerDay)%Z ->
  (0 <= tz)%Z ->
  isPast (serverEnv nowMs tz stamp stamp2) s = false.
Proof.
  intros Hs Htz. unfold isPast, serverEnv. simpl. rewrite Hs.
  apply Z.ltb_ge. unfold localMidnight, msPerDay. lia.
Qed.

(** ** Booking: the failures *)

(** C6.  With the required fields present, [book] answers a request for
    a date before today with the past-date failure; a request whose
    (doctor, date, time) has no row in status [available] with the
    slot-unavailable failure; and a request of a patient who already
    holds a booked row at that (date, time) with the double-booking
    failure.  The checks are made in this order.  The three answers are
    pairwise different, and whenever [book] answers with status 400,
    whatever errors the store reports, the table is unchanged. *)
Theorem book_failures (e : Env) (req : BookRequest) (db : DB)
  (p d dt tm : string) :
  reqPatientId req = Some p -> reqDoctorId req = Some d ->
  reqDate req = Some dt -> reqTime req = Some tm ->
  p <> "" -> d <> "" -> dt <> "" -> tm <> "" ->
  (isPast e dt = true ->
   run (book e req) [] db
   = (fail 400 "Cannot book appointments in the past", db))
  /\ (isPast e dt = false ->
      (forall r, In r db -> doctorId r = d -> date r = dt -> time r = tm ->
                 status r <> available) ->
      run (book e req) [] db
      = (fail 400 "Selected time slot is not available", db))
  /\ (isPast e dt = false ->
      forall s held, In s db -> doctorId s = d -> date s = dt ->
        time s = tm -> status s = available ->
        In held db -> patientId held = Some p -> date held = dt ->
        time held = tm -> status held = booked ->
      run (book e req) [] db
      = (fail 400 "Patient already has an appointment at this time", db))
  /\ (fail 400 "Cannot book appointments in the past"
      <> fail 400 "Selected time slot is not available"
      /\ fail 400 "Selected time slot is not available"
         <> fail 400 "Patient already has an appointment at this time"
      /\ fail 400 "Cannot book appointments in the past"
         <> fail 400 "Patient already has an appointment at this time")
  /\ (forall faults r db',
        run (book e req) faults db = (r, db') -> code r = 400 -> db' = db).
Proof.
  intros Hp Hd Hdt Htm Np Nd Ndt Ntm.
  assert (Hreq : negb (truthy (reqPatientId req))
                 || negb (truthy (reqDoctorId req))
                 || negb (truthy (reqDate req))
                 || negb (truthy (reqTime req)) = false).
  { rewrite Hp, Hd, Hdt, Htm. simpl.
    apply String.eqb_neq in Np, Nd, Ndt, Ntm.
    now rewrite Np, Nd, Ndt, Ntm. }
  repeat split.
  - intro Hpast. unfold book. rewrite Hreq, Hdt. simpl valueOf.
    now rewrite Hpast.
  - intros Hpast Hnone. unfold book.
    rewrite Hreq, Hd, Hdt, Htm. simpl valueOf. rewrite Hpast. simpl.
    rewrite find_all_false; [reflexivity|].
    intros r Hr. destruct (whereSlot d dt tm r) eqn:E; [|reflexivity].
    apply whereSlot_true in E. destruct E as (E1 & E2 & E3 & E4).
    now destruct (Hnone r Hr E1 E2 E3).
  - intros Hpast s held Hs Hs1 Hs2 Hs3 Hs4 Hh Hh1 Hh2 Hh3 Hh4. unfold book.
    rewrite Hreq, Hp, Hd, Hdt, Htm. simpl valueOf. rewrite Hpast. simpl.
    destruct (find_exists (whereSlot d dt tm) db s Hs) as [s' ->].
    { apply whereSlot_true. tauto. }
    simpl.
    destruct (find_exists (wherePatientAt (Some p) dt tm) db held Hh)
      as [h' ->].
    { apply wherePatientAt_true. tauto. }
    reflexivity.
  - discriminate.
  - discriminate.
  - discriminate.
  - intros faults r db'. unfold book. rewrite Hreq.
    run_cases; intros [= <- <-]; simpl; intro; (reflexivity || discriminate).
Qed.

(** ** Updates keyed by [id] *)

Lemma primaryKey_inj (db : DB) (r s : Appointment) :
  primaryKey db -> In r db -> In s db -> id r = id s -> r = s.
Proof.
  unfold primaryKey. induction db as [|a l IH]; simpl; [tauto|].
  intros Hk Hr Hs E. inversion Hk as [|? ? Hnot Hl]; subst.
  destruct Hr as [<-|Hr], Hs as [<-|Hs]; try reflexivity.
  - exfalso. apply Hnot. rewrite E. now apply in_map.
  - exfalso. apply Hnot. rewrite <- E. now apply in_map.
  - now apply IH.
Qed.

Lemma find_updateWhereId (set : Appointment -> Appointment) (db : DB)
  (s : Appointment) :
  (forall r, id (set r) = id r) ->
  primaryKey db -> In s db ->
  find (whereId (id s)) (updateWhereId set (id s) db) = Some (set s).
Proof.
  intros Hset Hk Hs. induction db as [|a l IH]; simpl in *; [tauto|].
  destruct (id a =? id s) eqn:E.
  - apply String.eqb_eq in E.
    assert (a = s) as ->.
    { apply (primaryKey_inj (a :: l)); simpl; auto. }
    unfold whereId. now rewrite Hset, String.eqb_refl.
  - unfold whereId at 1. rewrite E.
    destruct Hs as [->|Hs]; [now rewrite String.eqb_refl in E|].
    apply IH; [|assumption].
    unfold primaryKey in *. simpl in Hk. now inversion Hk.
Qed.

Lemma nth_error_updateWhereId (set : Appointment -> Appointment)
  (i : string) (db : DB) (n : nat) :
  nth_error (updateWhereId set i db) n
  = option_map (fun r => if id r =? i then set r else r) (nth_error db n).
Proof. unfold updateWhereId. apply nth_error_map. Qed.

Lemma length_updateWhereId (set : Appointment -> Appointment) (i : string)
  (db : DB) : List.length (updateWhereId set i db) = List.length db.
Proof. unfold updateWhereId. apply length_map. Qed.

Lemma required_fields (req : BookRequest) (p d dt tm : string) :
  reqPatientId req = Some p -> reqDoctorId req = Some d ->
  reqDate req = Some dt -> reqTime req = Some tm ->
  p <> "" -> d <> "" -> dt <> "" -> tm <> "" ->
  negb (truthy (reqPatientId req)) || negb (truthy (reqDoctorId req))
  || negb (truthy (reqDate req)) || negb (truthy (reqTime req)) = false.
Proof.
  intros -> -> -> -> Np Nd Ndt Ntm. simpl.
  apply String.eqb_neq in Np, Nd, Ndt, Ntm.
  now rewrite Np, Nd, Ndt, Ntm.
Qed.

(** What a successful [book] does, for the slot [s] the request resolves
    to. *)
Lemma book_run (e : Env) (req : BookRequest) (db : DB)
  (p d dt tm : string) (s : Appointment) :
  reqPatientId req = Some p -> reqDoctorId req = Some d ->
  reqDate req = Some dt -> reqTime req = Some tm ->
  p <> "" -> d <> "" -> dt <> "" -> tm <> "" ->
  isPast e dt = false ->
  find (whereSlot d dt tm) db = Some s ->
  find (wherePatientAt (Some p) dt tm) db = None ->
  let db' := updateWhereId
               (setBooked (Some p) (orNull (reqNotes req)) (now e))
               (id s) db in
  run (book e req) [] db
  = (mkResponse 201 (BookedBody "Appointment booked successfully"
                                (find (whereId (id s)) db')), db')
  /\ history (book e req) [] db = [db'].
Proof.
  intros Hp Hd Hdt Htm Np Nd Ndt Ntm Hpast Hs Hfree db'.
  unfold book.
  rewrite (required_fields req p d dt tm) by assumption.
  rewrite Hp, Hd, Hdt, Htm. simpl valueOf. rewrite Hpast. simpl.
  rewrite Hs. simpl. rewrite Hfree. simpl. split; reflexivity.
Qed.

(** Every 201 answer of [book] comes about in this way. *)
Lemma book_201_inv (e : Env) (req : BookRequest) (faults : list bool)
  (db : DB) (r : Response) (db' : DB) :
  run (book e req) faults db = (r, db') -> code r = 201 ->
  exists p s,
    reqPatientId req = Some p /\ p <> ""
    /\ isPast e (valueOf (reqDate req)) = false
    /\ find (whereSlot (valueOf (reqDoctorId req)) (valueOf (reqDate req))
                       (valueOf (reqTime req))) db = Some s
    /\ find (wherePatientAt (Some p) (valueOf (reqDate req))
                            (valueOf (reqTime req))) db = None
    /\ db' = updateWhereId
               (setBooked (Some p) (orNull (reqNotes req)) (now e))
               (id s) db
    /\ r = mkResponse 201
             (BookedBody "Appointment booked successfully"
                         (find (whereId (id s)) db')).
Proof.
  unfold book. destruct (reqPatientId req) as [p|] eqn:Hp.
  - run_cases; intros [= <- <-]; simpl; try discriminate; intros _;
      exists p; eexists; (split; [reflexivity|]);
      (split; [|repeat split; (eassumption || reflexivity)]);
      match goal with
      | H : _ || _ = false |- _ =>
          rewrite !orb_false_iff in H; destruct H as [[[H _] _] _];
          apply negb_false_iff in H; intros ->; discriminate H
      end.
  - simpl. intros [= <- <-]. discriminate.
Qed.

(** ** Booking: the success *)

(** C5.  A request with the required fields, for a date that is not
    past, that resolves to the available slot [s] and whose patient holds
    no booked row at that (date, time), is answered 201 with the updated
    slot.  The single [UPDATE] of the run leaves [s] with status
    [booked], the patient of the request, the notes of the request (an
    absent or empty text is stored as NULL) and [updatedAt] at the
    current time; every other row of the table is as it was. *)
Theorem book_success (e : Env) (req : BookRequest) (db : DB)
  (p d dt tm : string) (s : Appointment) :
  reqPatientId req = Some p -> reqDoctorId req = Some d ->
  reqDate req = Some dt -> reqTime req = Some tm ->
  p <> "" -> d <> "" -> dt <> "" -> tm <> "" ->
  primaryKey db ->
  isPast e dt = false ->
  find (whereSlot d dt tm) db = Some s ->
  find (wherePatientAt (Some p) dt tm) db = None ->
  exists s' db',
    run (book e req) [] db
    = (mkResponse 201
         (BookedBody "Appointment booked successfully" (Some s')), db')
    /\ history (book e req) [] db = [db']
    /\ status s' = booked /\ patientId s' = Some p
    /\ notes s' = orNull (reqNotes req)
    /\ (forall n, reqNotes req = Some n -> n <> "" -> notes s' = Some n)
    /\ updatedAt s' = now e
    /\ id s' = id s /\ doctorId s' = doctorId s /\ date s' = date s
    /\ time s' = time s /\ createdAt s' = createdAt s
    /\ List.length db' = List.length db
    /\ (forall n, nth_error db n = Some s -> nth_error db' n = Some s')
    /\ (forall n r, nth_error db n = Some r -> r <> s ->
                    nth_error db' n = Some r).
Proof.
  intros Hp Hd Hdt Htm Np Nd Ndt Ntm Hk Hpast Hs Hfree.
  destruct (book_run e req db p d dt tm s) as [Hrun Hhist]; try assumption.
  assert (Hin : In s db) by (apply find_some in Hs; tauto).
  exists (setBooked (Some p) (orNull (reqNotes req)) (now e) s).
  eexists. split.
  { rewrite Hrun. rewrite find_updateWhereId by auto. reflexivity. }
  split; [exact Hhist|].
  repeat split; simpl.
  - intros n Hn Nn. unfold orNull. rewrite Hn. simpl.
    apply String.eqb_neq in Nn. now rewrite Nn.
  - apply length_updateWhereId.
  - intros n Hn. rewrite nth_error_updateWhereId, Hn. simpl.
    now rewrite String.eqb_refl.
  - intros n r Hn Hr. rewrite nth_error_updateWhereId, Hn. simpl.
    destruct (id r =? id s) eqn:E; [|reflexivity].
    apply String.eqb_eq in E. exfalso. apply Hr.
    apply (primaryKey_inj db); auto. eapply nth_error_In; eauto.
Qed.

(** ** Rescheduling *)

Section Reschedule.

Variables (e : Env) (i : string) (req : PutRequest) (db : DB).
Variables (a t : Appointment).

Let d := orColumn (putDoctorId req) (doctorId a).
Let dt := orColumn (putDate req) (date a).
Let tm := orColumn (putTime req) (time a).

(** The table after the first [UPDATE] (the source slot is freed) and
    after the second (the target slot is booked). *)
Let db1 := updateWhereId (setAvailable (now e)) i db.
Let db2 := updateWhereId
             (setBooked (patientId a)
                        (orElse (putNotes req) (notes a)) (now2 e))
             (id t) db1.

Hypothesis Hkey : primaryKey db.
Hypothesis Hsource : find (whereId i) db = Some a.
Hypothesis Hbooked : status a = booked.
Hypothesis Hdate :
  truthy (putDate req) && isPast e (valueOf (putDate req)) = false.
Hypothesis Htarget : find (whereSlot d dt tm) db = Some t.
Hypothesis Hfree :
  forall r, In r db -> wherePatientAt (patientId a) dt tm r = true ->
            r = a.

Lemma source_in : In a db /\ id a = i.
Proof.
  apply find_some in Hsource. unfold whereId in Hsource.
  now rewrite String.eqb_eq in Hsource.
Qed.

Lemma target_in : In t db /\ status t = available.
Proof.
  apply find_some in Htarget. rewrite whereSlot_true in Htarget. tauto.
Qed.

Lemma target_not_source : (id t =? i) = false.
Proof.
  destruct source_in as [Ha Hi], target_in as [Ht Hs].
  apply String.eqb_neq. intro E.
  assert (t = a) by (apply (primaryKey_inj db); congruence).
  subst t. congruence.
Qed.

Lemma double_booking_check_passes :
  find (wherePatientAtExcept (patientId a) dt tm i) db = None.
Proof.
  apply find_all_false. intros r Hr. unfold wherePatientAtExcept.
  destruct (wherePatientAt (patientId a) dt tm r) eqn:E; [|reflexivity].
  rewrite (Hfree r Hr E). destruct source_in as [_ ->].
  now rewrite String.eqb_refl.
Qed.

Lemma reschedule_run :
  run (reschedule e i req) [] db
  = (mkResponse 200
       (RescheduledBody "Appointment rescheduled successfully" (id t)),
     db2)
  /\ history (reschedule e i req) [] db = [db1; db2]
  /\ run (reschedule e i req) [false; false; false; true] db
     = (fail 500 "Failed to reschedule appointment", db)
  /\ history (reschedule e i req) [false; false; false; true] db = []
  /\ run (reschedule e i req) [false; false; false; false; true] db
     = (fail 500 "Failed to reschedule appointment", db1)
  /\ history (reschedule e i req) [false; false; false; false; true] db
     = [db1].
Proof.
  unfold reschedule. simpl. rewrite Hsource. rewrite Hbooked. simpl.
  rewrite Hdate. simpl. fold d dt tm. rewrite Htarget. simpl.
  rewrite double_booking_check_passes. simpl.
  repeat split; reflexivity.
Qed.

Lemma freed_source (n : nat) :
  nth_error db n = Some a ->
  nth_error db1 n = Some (setAvailable (now e) a)
  /\ nth_error db2 n = Some (setAvailable (now e) a).
Proof.
  intro Hn. destruct source_in as [_ Hi]. unfold db2.
  rewrite nth_error_updateWhereId. unfold db1.
  rewrite nth_error_updateWhereId, Hn. simpl.
  rewrite Hi, String.eqb_refl. simpl. rewrite Hi.
  assert (E : (i =? id t) = false).
  { rewrite String.eqb_sym. apply target_not_source. }
  now rewrite E.
Qed.

Lemma claimed_target (n : nat) :
  nth_error db n = Some t ->
  nth_error db1 n = Some t
  /\ nth_error db2 n
     = Some (setBooked (patientId a) (orElse (putNotes req) (notes a))
                       (now2 e) t).
Proof.
  intro Hn. unfold db2. rewrite nth_error_updateWhereId. unfold db1.
  rewrite nth_error_updateWhereId, Hn. simpl.
  rewrite target_not_source. simpl. now rewrite String.eqb_refl.
Qed.

Lemma untouched_rows (n : nat) (r : Appointment) :
  nth_error db n = Some r -> r <> a -> r <> t ->
  nth_error db1 n = Some r /\ nth_error db2 n = Some r.
Proof.
  intros Hn Ha Ht. destruct source_in as [Hia Hi], target_in as [Hit _].
  assert (Hr : In r db) by (eapply nth_error_In; eauto).
  assert (E1 : (id r =? i) = false).
  { apply String.eqb_neq. intro E. apply Ha.
    apply (primaryKey_inj db); congruence. }
  assert (E2 : (id r =? id t) = false).
  { apply String.eqb_neq. intro E. apply Ht.
    apply (primaryKey_inj db); congruence. }
  unfold db2. rewrite nth_error_updateWhereId. unfold db1.
  rewrite nth_error_updateWhereId, Hn. simpl. rewrite E1. simpl.
  now rewrite E2.
Qed.

End Reschedule.

(** C7.  When [PUT /:id] names a booked appointment [a], the target
    (doctor, date, time) resolves to the available slot [t], the target
    date is not past, and no row other than [a] itself is a booked row of
    the patient at the target (date, time), the answer is 200 with the
    id of [t]; the source row is then [available] with no patient and no
    notes, the target row is [booked] with the patient of [a] and the
    notes of [a] (the notes of the request when it carries some), and
    every other row is as it was.  The double-booking query never
    matches the row being moved. *)
Theorem reschedule_success (e : Env) (i : string) (req : PutRequest)
  (db : DB) (a t : Appointment) :
  primaryKey db ->
  find (whereId i) db = Some a ->
  status a = booked ->
  truthy (putDate req) && isPast e (valueOf (putDate req)) = false ->
  find (whereSlot (orColumn (putDoctorId req) (doctorId a))
                  (orColumn (putDate req) (date a))
                  (orColumn (putTime req) (time a))) db = Some t ->
  (forall r, In r db ->
     wherePatientAt (patientId a) (orColumn (putDate req) (date a))
                    (orColumn (putTime req) (time a)) r = true ->
     r = a) ->
  exists src tgt db',
    run (reschedule e i req) [] db
    = (mkResponse 200
         (RescheduledBody "Appointment rescheduled successfully" (id t)),
       db')
    /\ status src = available /\ patientId src = None /\ notes src = None
    /\ id src = id a /\ doctorId src = doctorId a /\ date src = date a
    /\ time src = time a
    /\ status tgt = booked /\ patientId tgt = patientId a
    /\ notes tgt = orElse (putNotes req) (notes a)
    /\ (truthy (putNotes req) = false -> notes tgt = notes a)
    /\ id tgt = id t /\ doctorId tgt = doctorId t /\ date tgt = date t
    /\ time tgt = time t
    /\ List.length db' = List.length db
    /\ (forall n, nth_error db n = Some a -> nth_error db' n = Some src)
    /\ (forall n, nth_error db n = Some t -> nth_error db' n = Some tgt)
    /\ (forall n r, nth_error db n = Some r -> r <> a -> r <> t ->
                    nth_error db' n = Some r)
    /\ (forall r, id r = i ->
          wherePatientAtExcept (patientId a)
            (orColumn (putDate req) (date a))
            (orColumn (putTime req) (time a)) i r = false).
Proof.
  intros Hk Hsrc Hb Hdate Htgt Hfree.
  destruct (reschedule_run e i req db a t Hsrc Hb Hdate Htgt Hfree)
    as (Hrun & _).
  exists (setAvailable (now e) a).
  exists (setBooked (patientId a) (orElse (putNotes req) (notes a))
                    (now2 e) t).
  eexists. split; [exact Hrun|].
  repeat split; simpl.
  - intro Hn. unfold orElse. now rewrite Hn.
  - now rewrite !length_updateWhereId.
  - intros n Hn.
    now destruct (freed_source e i req db a t Hk Hsrc Hb Htgt n Hn).
  - intros n Hn.
    now destruct (claimed_target e i req db a t Hk Hsrc Hb Htgt n Hn).
  - intros n r Hn Ha Ht.
    now destruct (untouched_rows e i req db a t Hk Hsrc Htgt n r Hn Ha Ht).
  - intros r <-. unfold wherePatientAtExcept.
    rewrite String.eqb_refl. apply andb_false_r.
Qed.

(** C2, as the code has it.  The two mutations of a reschedule are two
    separate [UPDATE] statements, the release of the source first and the
    claim of the target second, with no transaction around them.  When
    both succeed both are applied, and between them the table holds the
    state in which the source is released and the target not yet
    claimed.  When the release fails neither is applied.  When the claim
    fails the release stays applied and the request is answered with a
    failure. *)
Theorem reschedule_two_statements (e : Env) (i : string) (req : PutRequest)
  (db : DB) (a t : Appointment) :
  primaryKey db ->
  find (whereId i) db = Some a ->
  status a = booked ->
  truthy (putDate req) && isPast e (valueOf (putDate req)) = false ->
  find (whereSlot (orColumn (putDoctorId req) (doctorId a))
                  (orColumn (putDate req) (date a))
                  (orColumn (putTime req) (time a))) db = Some t ->
  (forall r, In r db ->
     wherePatientAt (patientId a) (orColumn (putDate req) (date a))
                    (orColumn (putTime req) (time a)) r = true ->
     r = a) ->
  exists db1 db2,
    run (reschedule e i req) [] db
    = (mkResponse 200
         (RescheduledBody "Appointment rescheduled successfully" (id t)),
       db2)
    /\ history (reschedule e i req) [] db = [db1; db2]
    /\ (forall n, nth_error db n = Some a ->
          nth_error db1 n = Some (setAvailable (now e) a)
          /\ nth_error db2 n = Some (setAvailable (now e) a))
    /\ (forall n, nth_error db n = Some t ->
          nth_error db1 n = Some t
          /\ nth_error db2 n
             = Some (setBooked (patientId a)
                       (orElse (putNotes req) (notes a)) (now2 e) t))
    /\ run (reschedule e i req) [false; false; false; true] db
       = (fail 500 "Failed to reschedule appointment", db)
    /\ history (reschedule e i req) [false; false; false; true] db = []
    /\ run (reschedule e i req) [false; false; false; false; true] db
       = (fail 500 "Failed to reschedule appointment", db1)
    /\ history (reschedule e i req) [false; false; false; false; true] db
       = [db1].
Proof.
  intros Hk Hsrc Hb Hdate Htgt Hfree.
  destruct (reschedule_run e i req db a t Hsrc Hb Hdate Htgt Hfree)
    as (H1 & H2 & H3 & H4 & H5 & H6).
  do 2 eexists. split; [exact H1|]. split; [exact H2|].
  split; [|split].
  - intros n Hn. exact (freed_source e i req db a t Hk Hsrc Hb Htgt n Hn).
  - intros n Hn. exact (claimed_target e i req db a t Hk Hsrc Hb Htgt n Hn).
  - repeat split; assumption.
Qed.

(** C2 as stated fails.  Patient A holds [S1] and asks to move to [S2].
    When the store reports an error for the claim of the target, the
    source is left released while the target is still unclaimed.  And
    when both statements succeed, a request for the available slots of
    doctor D1 on 2025-06-10 that the store executes between them is
    answered with [S1], released, while [S2] is not yet claimed. *)
Lemma reschedule_half_applied :
  run (reschedule env0 "S1" moveToS2)
      [false; false; false; false; true] dbA
  = (fail 500 "Failed to reschedule appointment",
     [setAvailable (now env0) S1A; S2; S3])
  /\ status S1A = booked /\ patientId S1A = Some "patientA"
  /\ status (setAvailable (now env0) S1A) = available
  /\ patientId (setAvailable (now env0) S1A) = None
  /\ status S2 = available /\ patientId S2 = None
  /\ concurrent [true; true; true; true; false]
       (reschedule env0 "S1" moveToS2)
       (availableSlots env0 (Some "D1") (Some "2025-06-10")) dbA
     = (mkResponse 200
          (RescheduledBody "Appointment rescheduled successfully" "S2"),
        mkResponse 200
          (RowsBody [slotRow (setAvailable (now env0) S1A)]),
        [setAvailable (now env0) S1A;
         setBooked (Some "patientA") (Some "cough") (now2 env0) S2; S3])
  /\ history (reschedule env0 "S1" moveToS2) [] dbA
     = [[setAvailable (now env0) S1A; S2; S3];
        [setAvailable (now env0) S1A;
         setBooked (Some "patientA") (Some "cough") (now2 env0) S2; S3]].
Proof. vm_compute. repeat split; reflexivity. Qed.

(** ** Cancelling *)

Lemma find_whereId (db : DB) (a : Appointment) :
  primaryKey db -> In a db -> find (whereId (id a)) db = Some a.
Proof.
  intros Hk Ha. induction db as [|x l IH]; simpl in *; [tauto|].
  unfold whereId at 1. destruct (id x =? id a) eqn:E.
  - apply String.eqb_eq in E. f_equal.
    apply (primaryKey_inj (x :: l)); simpl; auto.
  - destruct Ha as [->|Ha]; [now rewrite String.eqb_refl in E|].
    apply IH; [|assumption].
    unfold primaryKey in *. simpl in Hk. now inversion Hk.
Qed.

Lemma filter_updateWhereId (f : Appointment -> bool)
  (set : Appointment -> Appointment) (i : string) (db : DB) :
  (forall r, In r db -> id r = i -> f r = false /\ f (set r) = false) ->
  filter f (updateWhereId set i db) = filter f db.
Proof.
  induction db as [|x l IH]; simpl; intro H; [reflexivity|].
  rewrite IH by (intros r Hr; apply H; now right).
  destruct (id x =? i) eqn:E; [|reflexivity].
  apply String.eqb_eq in E.
  destruct (H x (or_introl eq_refl) E) as [-> ->]. reflexivity.
Qed.

(** C8.  [cancel] answers 404 when no row has the id; 400 "Only booked
    appointments can be cancelled" when the row is not booked (so for an
    available and for a cancelled row); 400 "Cannot cancel past
    appointments" when the row is booked and its date is before today.
    Otherwise it answers 200 and the row is [cancelled], with its other
    columns but [updatedAt] unchanged; the other rows are as they were,
    no row is added, and the available rows of the table are the ones
    there were: the freed (doctor, date, time) gets no available slot. *)
Theorem cancel_contract (e : Env) (i : string) (db : DB) :
  primaryKey db ->
  ((forall r, In r db -> id r <> i) ->
   run (cancel e i) [] db = (fail 404 "Appointment not found", db))
  /\ (forall a, In a db -> id a = i -> status a <> booked ->
        run (cancel e i) [] db
        = (fail 400 "Only booked appointments can be cancelled", db))
  /\ (forall a, In a db -> id a = i -> status a = booked ->
        isPast e (date a) = true ->
        run (cancel e i) [] db
        = (fail 400 "Cannot cancel past appointments", db))
  /\ (forall a, In a db -> id a = i -> status a = booked ->
        isPast e (date a) = false ->
        exists a' db',
          run (cancel e i) [] db
          = (mkResponse 200
               (MessageBody "Appointment cancelled successfully"), db')
          /\ status a' = cancelled
          /\ id a' = id a /\ patientId a' = patientId a
          /\ doctorId a' = doctorId a /\ date a' = date a
          /\ time a' = time a /\ notes a' = notes a
          /\ List.length db' = List.length db
          /\ (forall n, nth_error db n = Some a ->
                        nth_error db' n = Some a')
          /\ (forall n r, nth_error db n = Some r -> r <> a ->
                          nth_error db' n = Some r)
          /\ filter isAvailable db' = filter isAvailable db).
Proof.
  intro Hk. repeat split.
  - intro Hnone. unfold cancel. simpl.
    rewrite find_all_false; [reflexivity|].
    intros r Hr. unfold whereId. apply String.eqb_neq. now apply Hnone.
  - intros a Ha <- Hs. unfold cancel. simpl.
    rewrite (find_whereId db a Hk Ha).
    destruct (status a); simpl; congruence.
  - intros a Ha <- Hs Hpast. unfold cancel. simpl.
    rewrite (find_whereId db a Hk Ha), Hs. simpl. now rewrite Hpast.
  - intros a Ha <- Hs Hpast.
    exists (setCancelled (now e) a). eexists. split.
    { unfold cancel. simpl.
      rewrite (find_whereId db a Hk Ha), Hs. simpl. rewrite Hpast. simpl.
      reflexivity. }
    repeat split; simpl.
    + apply length_updateWhereId.
    + intros n Hn. rewrite nth_error_updateWhereId, Hn. simpl.
      now rewrite String.eqb_refl.
    + intros n r Hn Hr. rewrite nth_error_updateWhereId, Hn. simpl.
      destruct (id r =? id a) eqn:E; [|reflexivity].
      apply String.eqb_eq in E. exfalso. apply Hr.
      apply (primaryKey_inj db); auto. eapply nth_error_In; eauto.
    + apply filter_updateWhereId. intros r Hr E.
      assert (r = a) as -> by (apply (primaryKey_inj db); auto).
      unfold isAvailable. simpl. now rewrite Hs.
Qed.

(** ** Listing the available slots *)

Lemma String_leb_trans (a b c : string) :
  String.leb a b = true -> String.leb b c = true -> String.leb a c = true.
Proof.
  unfold String.leb. revert b c.
  induction a as [|x a IH]; intros [|y b] [|z c]; simpl; try easy.
  unfold Ascii.compare.
  destruct (N.compare_spec (N_of_ascii x) (N_of_ascii y)) as [E1|E1|E1];
  destruct (N.compare_spec (N_of_ascii y) (N_of_ascii z)) as [E2|E2|E2];
  destruct (N.compare_spec (N_of_ascii x) (N_of_ascii z)) as [E3|E3|E3];
  try lia; try easy.
  apply IH.
Qed.

Lemma insertByTime_perm (r : Appointment) (l : list Appointment) :
  Permutation (insertByTime r l) (r :: l).
Proof.
  induction l as [|x l IH]; simpl; [apply Permutation_refl|].
  destruct (String.leb (time r) (time x)); [apply Permutation_refl|].
  eapply perm_trans; [apply perm_skip, IH | apply perm_swap].
Qed.

Lemma orderByTime_perm (l : list Appointment) :
  Permutation (orderByTime l) l.
Proof.
  induction l as [|x l IH]; simpl; [constructor|].
  eapply perm_trans; [apply insertByTime_perm | now apply perm_skip].
Qed.

Lemma insertByTime_sorted (r : Appointment) (l : list Appointment) :
  StronglySorted timeLe l -> StronglySorted timeLe (insertByTime r l).
Proof.
  induction l as [|x l IH]; simpl; intro Hs.
  - repeat constructor.
  - inversion Hs as [|? ? Hl Hx]; subst.
    destruct (String.leb (time r) (time x)) eqn:E.
    + constructor; [assumption|]. constructor; [exact E|].
      rewrite Forall_forall in *. intros y Hy. unfold timeLe.
      eapply String_leb_trans; [exact E | now apply Hx].
    + constructor; [now apply IH|].
      rewrite Forall_forall in *. intros y Hy.
      apply (Permutation_in _ (insertByTime_perm r l)) in Hy.
      destruct Hy as [<-|Hy]; [|now apply Hx].
      unfold timeLe.
      destruct (String.leb_total (time x) (time r)); congruence.
Qed.

Lemma orderByTime_sorted (l : list Appointment) :
  StronglySorted timeLe (orderByTime l).
Proof.
  induction l as [|x l IH]; simpl; [constructor|].
  now apply insertByTime_sorted.
Qed.

Lemma whereAvailableOn_true (d dt : string) (r : Appointment) :
  whereAvailableOn d dt r = true <->
  doctorId r = d /\ date r = dt /\ status r = available.
Proof.
  unfold whereAvailableOn.
  rewrite !andb_true_iff, !String.eqb_eq, Status_eqb_eq. tauto.
Qed.

(** C9, as the code has it.  For a doctor id and a date that are present
    and a date that is not before today, the route answers 200 with the
    columns (id, doctorId, date, time, status) of exactly the rows of
    that doctor on that date whose status is [available], each as many
    times as it is in the table, in ascending order of [time], and
    issues no [UPDATE]. *)
Theorem availableSlots_lists (e : Env) (qDoctorId qDate : option string)
  (d dt : string) (db : DB) :
  qDoctorId = Some d -> qDate = Some dt -> d <> "" -> dt <> "" ->
  isPast e dt = false ->
  exists rows,
    run (availableSlots e qDoctorId qDate) [] db
    = (mkResponse 200 (RowsBody (map slotRow rows)), db)
    /\ history (availableSlots e qDoctorId qDate) [] db = []
    /\ Permutation rows (filter (whereAvailableOn d dt) db)
    /\ (forall r, In r rows <->
          In r db /\ doctorId r = d /\ date r = dt
          /\ status r = available)
    /\ StronglySorted timeLe rows.
Proof.
  intros -> -> Nd Ndt Hpast.
  exists (orderByTime (filter (whereAvailableOn d dt) db)).
  unfold availableSlots. simpl.
  apply String.eqb_neq in Nd, Ndt. rewrite Nd, Ndt. simpl.
  rewrite Hpast. simpl. unfold selectAvailable.
  repeat split.
  - apply orderByTime_perm.
  - apply (Permutation_in _ (orderByTime_perm _)) in H.
    apply filter_In in H. tauto.
  - apply (Permutation_in _ (orderByTime_perm _)) in H.
    apply filter_In in H. destruct H as [_ H].
    apply whereAvailableOn_true in H. tauto.
  - apply (Permutation_in _ (orderByTime_perm _)) in H.
    apply filter_In in H. destruct H as [_ H].
    apply whereAvailableOn_true in H. tauto.
  - apply (Permutation_in _ (orderByTime_perm _)) in H.
    apply filter_In in H. destruct H as [_ H].
    apply whereAvailableOn_true in H. tauto.
  - intros (Hin & H1 & H2 & H3).
    apply (Permutation_in _ (Permutation_sym (orderByTime_perm _))).
    apply filter_In. split; [assumption|].
    apply whereAvailableOn_true. tauto.
  - apply orderByTime_sorted.
Qed.

(** C9 as stated fails for a date before today: the table holds an
    available slot of doctor D1 on 2025-05-20, and the route answers
    with an error instead of listing it. *)
Lemma availableSlots_past_not_listed :
  filter (whereAvailableOn "D1" "2025-05-20") dbPast = [S0]
  /\ run (availableSlots env0 (Some "D1") (Some "2025-05-20")) [] dbPast
     = (fail 400 "Cannot view slots for past dates", dbPast).
Proof. split; reflexivity. Qed.

(** C10.  When the doctor id and the date are present and the date is
    before today, the route answers 400 "Cannot view slots for past
    dates" and reads nothing from the table: no list of slots, empty or
    not, is returned. *)
Theorem availableSlots_past (e : Env) (qDoctorId qDate : option string)
  (faults : list bool) (db : DB) :
  truthy qDoctorId = true -> truthy qDate = true ->
  isPast e (valueOf qDate) = true ->
  availableSlots e qDoctorId qDate
  = Respond (fail 400 "Cannot view slots for past dates")
  /\ run (availableSlots e qDoctorId qDate) faults db
     = (fail 400 "Cannot view slots for past dates", db)
  /\ forall rows,
       body (fst (run (availableSlots e qDoctorId qDate) faults db))
       <> RowsBody rows.
Proof.
  intros H1 H2 H3. unfold availableSlots. rewrite H1, H2, H3. simpl.
  repeat split. discriminate.
Qed.

(** ** Status and patient *)

Lemma forallb_updateWhereId (f : Appointment -> bool)
  (set : Appointment -> Appointment) (i : string) (db : DB) :
  (forall r, In r db -> f (set r) = true) ->
  forallb f db = true -> forallb f (updateWhereId set i db) = true.
Proof.
  intros Hset. rewrite !forallb_forall. intros H x Hx.
  unfold updateWhereId in Hx. apply in_map_iff in Hx.
  destruct Hx as (r & <- & Hr).
  destruct (id r =? i); [now apply Hset | now apply H].
Qed.

Lemma claimConsistent_setBooked (p : option string) (n : option string)
  (t : string) (r : Appointment) :
  claimConsistent (setBooked p n t r)
  = match p with Some _ => true | None => false end.
Proof. reflexivity. Qed.

Lemma booked_has_patient (db : DB) (q : Appointment -> bool)
  (a : Appointment) :
  forallb claimConsistent db = true -> find q db = Some a ->
  Status_eqb (status a) booked = true ->
  exists p, patientId a = Some p.
Proof.
  intros Hinv Hf Hs. apply find_some in Hf. destruct Hf as [Ha _].
  rewrite forallb_forall in Hinv. specialize (Hinv a Ha).
  unfold claimConsistent in Hinv.
  destruct (status a); try discriminate.
  destruct (patientId a) as [p|]; [now exists p | discriminate].
Qed.

(** C3, as the code has it.  The routes keep this much of the relation
    between status and patient: a booked slot carries a patient and an
    available slot carries none.  If it holds of every row before a
    [book], a reschedule or a [cancel], it holds of every row after it,
    whatever the answer and whatever errors the store reports.  A
    cancelled slot keeps the patient it was booked for. *)
Theorem claim_consistent_preserved (e : Env) (db : DB) :
  forallb claimConsistent db = true ->
  (forall req faults r db',
     run (book e req) faults db = (r, db') ->
     forallb claimConsistent db' = true)
  /\ (forall i req faults r db',
        run (reschedule e i req) faults db = (r, db') ->
        forallb claimConsistent db' = true)
  /\ (forall i faults r db',
        run (cancel e i) faults db = (r, db') ->
        forallb claimConsistent db' = true
        /\ forall n x, nth_error db n = Some x ->
             exists x', nth_error db' n = Some x'
                        /\ patientId x' = patientId x).
Proof.
  intro Hinv. repeat split.
  - intros req faults r db'. unfold book.
    destruct (reqPatientId req) as [p|] eqn:Hp;
      run_cases; intros [= <- <-]; try assumption;
      apply forallb_updateWhereId; auto.
  - intros i req faults r db'. unfold reschedule.
    run_cases; intros [= <- <-]; try assumption;
      repeat (apply forallb_updateWhereId; [|try assumption]);
      try (intros; reflexivity).
    all: intros x _; rewrite claimConsistent_setBooked;
      match goal with
      | H : find (whereId _) _ = Some ?a |- _ =>
          destruct (booked_has_patient _ _ a Hinv H) as [p ->];
          [now apply negb_false_iff | reflexivity]
      end.
  - revert H. unfold cancel.
    run_cases; intros [= <- <-]; try assumption;
      (apply forallb_updateWhereId; [|assumption]);
      intros x Hx; reflexivity.
  - intros n x Hn. revert H. unfold cancel.
    run_cases; intros [= <- <-]; try (now exists x);
      rewrite nth_error_updateWhereId, Hn; simpl;
      destruct (id x =? i); eexists; split; reflexivity.
Qed.

(** C3 as stated fails.  From a table in which every slot is booked
    exactly when it carries a patient, patient A books [S1] and cancels
    it, then patient B books [S2]: after that successful booking the
    cancelled [S1] still carries patient A. *)
Lemma cancelled_slot_keeps_patient :
  forallb bookedIffPatient db0 = true
  /\ run (book env0 (bookS1 "patientA" (Some "cough"))) [] db0
     = (mkResponse 201
          (BookedBody "Appointment booked successfully" (Some S1A)), dbA)
  /\ forallb bookedIffPatient dbA = true
  /\ run (cancel env0 "S1") [] dbA
     = (mkResponse 200 (MessageBody "Appointment cancelled successfully"),
        dbC)
  /\ code (fst (run (book env0 bookS2B) [] dbC)) = 201
  /\ nth_error (snd (run (book env0 bookS2B) [] dbC)) 0 = Some S1C
  /\ status S1C = cancelled /\ patientId S1C = Some "patientA"
  /\ forallb bookedIffPatient (snd (run (book env0 bookS2B) [] dbC))
     = false.
Proof. vm_compute. repeat split; reflexivity. Qed.

(** ** Completing *)

Lemma in_updateWhereId (set : Appointment -> Appointment) (i : string)
  (db : DB) (x : Appointment) :
  In x (updateWhereId set i db) ->
  (In x db /\ (id x =? i) = false) \/ exists r, In r db /\ x = set r.
Proof.
  unfold updateWhereId. rewrite in_map_iff. intros (r & <- & Hr).
  destruct (id r =? i) eqn:E; [right; now exists r | now left].
Qed.

(** No request through [PUT /:id], the route that [completeAppointment]
    calls, makes a slot [completed]: a completed row of the table after
    the request was a row of the table before it. *)
Lemma put_completes_nothing (e : Env) (i : string) (req : PutRequest)
  (faults : list bool) (db : DB) (x : Appointment) :
  In x (snd (run (reschedule e i req) faults db)) ->
  status x = completed -> In x db.
Proof.
  unfold reschedule.
  run_cases; try tauto; intros Hx Hs;
    repeat (apply in_updateWhereId in Hx;
            destruct Hx as [[Hx _]|(r & _ & ->)]; [|discriminate Hs]);
    exact Hx.
Qed.

(** C4 on the code.  Patient A holds the booked slot [S1];
    [completeAppointment("S1", "bronchitis", "cough syrup")] is answered
    400 "New time slot is not available" and the table is unchanged:
    [S1] is still [booked], and neither the diagnosis nor the
    prescription is stored. *)
Theorem complete_booked_slot_rejected :
  nth_error dbA 0 = Some S1A /\ status S1A = booked
  /\ run (completeAppointment env0 "S1" (Some "bronchitis")
                              (Some "cough syrup")) [] dbA
     = (fail 400 "New time slot is not available", dbA).
Proof. repeat split; reflexivity. Qed.

(** ** Booking: two requests for one slot *)

Lemma find_filter {A : Type} (f : A -> bool) (l : list A) :
  find f l = hd_error (filter f l).
Proof.
  induction l as [|x l IH]; simpl; [reflexivity|].
  destruct (f x); [reflexivity | exact IH].
Qed.

Lemma slot_taken (d dt tm : string) (p n : option string) (t : string)
  (db : DB) (s : Appointment) :
  filter (whereSlot d dt tm) db = [s] ->
  find (whereSlot d dt tm) (updateWhereId (setBooked p n t) (id s) db)
  = None.
Proof.
  intro Hone. apply find_all_false. intros x Hx.
  apply in_updateWhereId in Hx. destruct Hx as [[Hx Hi]|(r & _ & ->)].
  - destruct (whereSlot d dt tm x) eqn:E; [|reflexivity].
    assert (Hf : In x (filter (whereSlot d dt tm) db))
      by (apply filter_In; now split).
    rewrite Hone in Hf. destruct Hf as [<-|[]].
    now rewrite String.eqb_refl in Hi.
  - unfold whereSlot. simpl. apply andb_false_r.
Qed.

(** *** One request, statement by statement *)

Section Caller.

Variables (e : Env) (req : BookRequest) (db : DB).
Variables (p d dt tm : string) (s : Appointment).

Hypothesis Hp : reqPatientId req = Some p.
Hypothesis Hd : reqDoctorId req = Some d.
Hypothesis Hdt : reqDate req = Some dt.
Hypothesis Htm : reqTime req = Some tm.
Hypothesis Np : p <> "".
Hypothesis Nd : d <> "".
Hypothesis Ndt : dt <> "".
Hypothesis Ntm : tm <> "".
Hypothesis Hpast : isPast e dt = false.
Hypothesis Hs : find (whereSlot d dt tm) db = Some s.
Hypothesis Hfree : find (wherePatientAt (Some p) dt tm) db = None.

(** The request after its first read found [s], after its second read
    found the patient free, and after its write. *)
Let c1 := fst (step (book e req) db).
Let c2 := fst (step c1 db).
Let c3 := fst (step c2 db).

Lemma step_start_found (db' : DB) :
  find (whereSlot d dt tm) db' = Some s ->
  step (book e req) db' = (c1, db').
Proof.
  intro H. unfold c1, book.
  rewrite (required_fields req p d dt tm) by assumption.
  rewrite Hd, Hdt, Htm. simpl valueOf. rewrite Hpast. simpl.
  now rewrite H, Hs.
Qed.

Lemma step_start_none (db' : DB) :
  find (whereSlot d dt tm) db' = None ->
  step (book e req) db'
  = (Respond (fail 400 "Selected time slot is not available"), db').
Proof.
  intro H. unfold book.
  rewrite (required_fields req p d dt tm) by assumption.
  rewrite Hd, Hdt, Htm. simpl valueOf. rewrite Hpast. simpl.
  now rewrite H.
Qed.

Lemma step_slot_read (db' : DB) :
  find (wherePatientAt (Some p) dt tm) db' = None ->
  step c1 db' = (c2, db').
Proof.
  intro H. unfold c2, c1, book.
  rewrite (required_fields req p d dt tm) by assumption.
  rewrite Hp, Hd, Hdt, Htm. simpl valueOf. rewrite Hpast. simpl.
  rewrite Hs. simpl. now rewrite H, Hfree.
Qed.

Lemma step_patient_read (db' : DB) :
  step c2 db'
  = (c3, updateWhereId
           (setBooked (Some p) (orNull (reqNotes req)) (now e)) (id s) db').
Proof.
  unfold c3, c2, c1, book.
  rewrite (required_fields req p d dt tm) by assumption.
  rewrite Hp, Hd, Hdt, Htm. simpl valueOf. rewrite Hpast. simpl.
  rewrite Hs. simpl. rewrite Hfree. reflexivity.
Qed.

Lemma step_written (db' : DB) :
  step c3 db'
  = (Respond (mkResponse 201
       (BookedBody "Appointment booked successfully"
                   (find (whereId (id s)) db'))), db').
Proof.
  unfold c3, c2, c1, book.
  rewrite (required_fields req p d dt tm) by assumption.
  rewrite Hp, Hd, Hdt, Htm. simpl valueOf. rewrite Hpast. simpl.
  rewrite Hs. simpl. rewrite Hfree. reflexivity.
Qed.

End Caller.

(** *** The stages of two requests *)

Lemma validConfig_schedule1 (who : bool) (c : Config) :
  validConfig c = true -> validConfig (schedule1 who c) = true.
Proof.
  destruct c as [[sa sb] log].
  destruct who, sa, sb, log as [|[|] [|[|] [|? ?]]]; simpl;
    try discriminate; reflexivity.
Qed.

Lemma validConfig_stages (sched : list bool) (c : Config) :
  validConfig c = true -> validConfig (stages sched c) = true.
Proof.
  revert c. induction sched as [|w sched IH]; simpl; intros c H;
    [assumption|].
  now apply IH, validConfig_schedule1.
Qed.

Lemma stages_app (s1 s2 : list bool) (c : Config) :
  stages (s1 ++ s2) c = stages s2 (stages s1 c).
Proof.
  revert c. induction s1 as [|w s1 IH]; simpl; intro c; [reflexivity|].
  apply IH.
Qed.

Lemma settled_finishing (c : Config) :
  validConfig c = true -> settled (stages finishing c) = true.
Proof.
  destruct c as [[sa sb] log].
  destruct sa, sb, log as [|[|] [|[|] [|? ?]]]; simpl;
    try discriminate; reflexivity.
Qed.

Lemma run_step (p : Prog) (db : DB) :
  run p [] db = run (fst (step p db)) [] (snd (step p db)).
Proof. destruct p; reflexivity. Qed.

Lemma interleave_app (s1 s2 : list bool) (a b : Prog) (db : DB) :
  interleave (s1 ++ s2) a b db
  = let '(a', b', db') := interleave s1 a b db in interleave s2 a' b' db'.
Proof.
  revert a b db. induction s1 as [|[|] s1 IH]; simpl; intros a b db.
  - reflexivity.
  - destruct (step a db) as [a' db']. apply IH.
  - destruct (step b db) as [b' db']. apply IH.
Qed.

Lemma concurrent_finishing (sched : list bool) (a b : Prog) (db : DB)
  (ra rb : Response) (db' : DB) :
  interleave (sched ++ finishing) a b db = (Respond ra, Respond rb, db') ->
  concurrent sched a b db = (ra, rb, db').
Proof.
  unfold concurrent. rewrite interleave_app.
  destruct (interleave sched a b db) as [[a0 b0] x0].
  unfold finishing. simpl.
  rewrite (run_step a0 x0). destruct (step a0 x0) as [a1 x1]. simpl.
  rewrite (run_step a1 x1). destruct (step a1 x1) as [a2 x2]. simpl.
  rewrite (run_step a2 x2). destruct (step a2 x2) as [a3 x3]. simpl.
  rewrite (run_step a3 x3). destruct (step a3 x3) as [a4 x4]. simpl.
  destruct (step b0 x4) as [b1 y1] eqn:E1.
  destruct (step b1 y1) as [b2 y2] eqn:E2.
  destruct (step b2 y2) as [b3 y3] eqn:E3.
  destruct (step b3 y3) as [b4 y4] eqn:E4.
  intros [= -> -> ->]. simpl.
  rewrite (run_step b0 x4), E1. simpl.
  rewrite (run_step b1 y1), E2. simpl.
  rewrite (run_step b2 y2), E3. simpl.
  rewrite (run_step b3 y3), E4. reflexivity.
Qed.

Lemma patient_still_free (p q : string) (n : option string) (t i : string)
  (dt tm : string) (db : DB) :
  p <> q ->
  find (wherePatientAt (Some p) dt tm) db = None ->
  find (wherePatientAt (Some p) dt tm)
       (updateWhereId (setBooked (Some q) n t) i db) = None.
Proof.
  intros Hpq Hfree. apply find_all_false. intros x Hx.
  apply in_updateWhereId in Hx. destruct Hx as [[Hx _]|(r & _ & ->)].
  - exact (find_none _ _ Hfree x Hx).
  - unfold wherePatientAt, patientIs. simpl.
    apply String.eqb_neq in Hpq. rewrite String.eqb_sym in Hpq.
    now rewrite Hpq.
Qed.

(** *** Every interleaving of two requests for one slot *)

Section Race.

Variables (e1 e2 : Env) (req1 req2 : BookRequest) (db : DB).
Variables (p1 p2 d dt tm : string) (s : Appointment).

Hypothesis Hp1 : reqPatientId req1 = Some p1.
Hypothesis Hp2 : reqPatientId req2 = Some p2.
Hypothesis Hd1 : reqDoctorId req1 = Some d.
Hypothesis Hd2 : reqDoctorId req2 = Some d.
Hypothesis Hdt1 : reqDate req1 = Some dt.
Hypothesis Hdt2 : reqDate req2 = Some dt.
Hypothesis Htm1 : reqTime req1 = Some tm.
Hypothesis Htm2 : reqTime req2 = Some tm.
Hypothesis Np1 : p1 <> "".
Hypothesis Np2 : p2 <> "".
Hypothesis Nd : d <> "".
Hypothesis Ndt : dt <> "".
Hypothesis Ntm : tm <> "".
Hypothesis Hpast1 : isPast e1 dt = false.
Hypothesis Hpast2 : isPast e2 dt = false.
Hypothesis Hone : filter (whereSlot d dt tm) db = [s].
Hypothesis Hfree1 : find (wherePatientAt (Some p1) dt tm) db = None.
Hypothesis Hfree2 : find (wherePatientAt (Some p2) dt tm) db = None.
Hypothesis Hdiff : p1 <> p2.

Let u1 := updateWhereId
            (setBooked (Some p1) (orNull (reqNotes req1)) (now e1)) (id s).
Let u2 := updateWhereId
            (setBooked (Some p2) (orNull (reqNotes req2)) (now e2)) (id s).

Lemma slot_found : find (whereSlot d dt tm) db = Some s.
Proof. now rewrite find_filter, Hone. Qed.

Lemma race_step (who : bool) (sa sb : Stage) (log : list bool)
  (a b : Prog) :
  validConfig (sa, sb, log) = true ->
  atStage e1 req1 db sa a -> atStage e2 req2 db sb b ->
  exists a' b',
    interleave [who] a b (tableAfter u1 u2 log db)
    = (a', b', tableAfter u1 u2 (snd (schedule1 who (sa, sb, log))) db)
    /\ atStage e1 req1 db (fst (fst (schedule1 who (sa, sb, log)))) a'
    /\ atStage e2 req2 db (snd (fst (schedule1 who (sa, sb, log)))) b'.
Proof.
  intros Hv Ha Hb.
  pose proof slot_found as Hs.
  assert (G1 : find (whereSlot d dt tm) (u1 db) = None)
    by (apply slot_taken, Hone).
  assert (G2 : find (whereSlot d dt tm) (u2 db) = None)
    by (apply slot_taken, Hone).
  assert (F1 : find (wherePatientAt (Some p1) dt tm) (u2 db) = None)
    by (apply patient_still_free; assumption).
  assert (F2 : find (wherePatientAt (Some p2) dt tm) (u1 db) = None)
    by (apply patient_still_free; [congruence | assumption]).
  destruct who, sa, sb, log as [|[|] [|[|] [|? ?]]];
    simpl in Hv; try discriminate Hv;
    simpl in Ha, Hb; unfold tableAfter; simpl;
    repeat match goal with
    | H : exists _, _ |- _ => destruct H as [? H]
    end; subst a b.
  all: try (erewrite (step_start_found e1 req1 db p1 d dt tm s) by eassumption).
  all: try (erewrite (step_start_found e2 req2 db p2 d dt tm s) by eassumption).
  all: try (erewrite (step_start_none e1 req1 p1 d dt tm) by eassumption).
  all: try (erewrite (step_start_none e2 req2 p2 d dt tm) by eassumption).
  all: try (erewrite (step_slot_read e1 req1 db p1 d dt tm s) by eassumption).
  all: try (erewrite (step_slot_read e2 req2 db p2 d dt tm s) by eassumption).
  all: try (erewrite (step_patient_read e1 req1 db p1 d dt tm s) by eassumption).
  all: try (erewrite (step_patient_read e2 req2 db p2 d dt tm s) by eassumption).
  all: try (erewrite (step_written e1 req1 db p1 d dt tm s) by eassumption).
  all: try (erewrite (step_written e2 req2 db p2 d dt tm s) by eassumption).
  all: do 2 eexists; split; [reflexivity|]; split; simpl; eauto.
Qed.

Lemma race_steps (sched : list bool) (c : Config) (a b : Prog) :
  validConfig c = true ->
  atStage e1 req1 db (fst (fst c)) a ->
  atStage e2 req2 db (snd (fst c)) b ->
  exists a' b',
    interleave sched a b (tableAfter u1 u2 (snd c) db)
    = (a', b', tableAfter u1 u2 (snd (stages sched c)) db)
    /\ atStage e1 req1 db (fst (fst (stages sched c))) a'
    /\ atStage e2 req2 db (snd (fst (stages sched c))) b'.
Proof.
  revert c a b. induction sched as [|w sched IH]; intros c a b Hv Ha Hb.
  - exists a, b. simpl. auto.
  - destruct c as [[sa sb] log].
    destruct (race_step w sa sb log a b Hv Ha Hb)
      as (a1 & b1 & Hstep & Ha1 & Hb1).
    assert (Hv1 := validConfig_schedule1 w (sa, sb, log) Hv).
    destruct (IH (schedule1 w (sa, sb, log)) a1 b1 Hv1 Ha1 Hb1)
      as (a' & b' & Hrest & Ha' & Hb').
    exists a', b'. split; [|now split].
    change (w :: sched) with ([w] ++ sched).
    rewrite interleave_app. simpl snd.
    rewrite Hstep. exact Hrest.
Qed.


Lemma race_outcome (sched : list bool) :
  exists ra rb db',
    concurrent sched (book e1 req1) (book e2 req2) db = (ra, rb, db')
    /\ (code ra = 201
        \/ ra = fail 400 "Selected time slot is not available")
    /\ (code rb = 201
        \/ rb = fail 400 "Selected time slot is not available")
    /\ (code ra = 201 \/ code rb = 201)
    /\ forall k, nth_error db k = Some s ->
         (code ra = 201
          /\ nth_error db' k
             = Some (setBooked (Some p1) (orNull (reqNotes req1))
                               (now e1) s))
         \/ (code rb = 201
             /\ nth_error db' k
                = Some (setBooked (Some p2) (orNull (reqNotes req2))
                                  (now e2) s)).
Proof.
  destruct (race_steps (sched ++ finishing) (Start, Start, [])
              (book e1 req1) (book e2 req2) eq_refl eq_refl eq_refl)
    as (a' & b' & Hi & Ha & Hb).
  assert (Hset : settled (stages (sched ++ finishing) (Start, Start, []))
                 = true).
  { rewrite stages_app. apply settled_finishing.
    now apply validConfig_stages. }
  destruct (stages (sched ++ finishing) (Start, Start, []))
    as [[sa sb] log].
  simpl in Hi, Ha, Hb, Hset.
  destruct log as [|[|] [|[|] [|? ?]]]; try discriminate Hset;
    destruct sa; try discriminate Hset;
    destruct sb; try discriminate Hset;
    simpl in Ha, Hb;
    repeat match goal with
    | H : exists _, _ |- _ => destruct H as [? H]
    end; subst a' b';
    apply concurrent_finishing in Hi;
    do 3 eexists; (split; [exact Hi|]); simpl;
    (split; [auto|]); (split; [auto|]); (split; [auto|]);
    intros k Hk; unfold tableAfter; simpl; unfold u1, u2;
    rewrite ?nth_error_updateWhereId, Hk; simpl;
    rewrite ?String.eqb_refl; simpl; rewrite ?String.eqb_refl; auto.
Qed.

End Race.

(** C1, as the code has it.  The mutation that books a slot is an
    [UPDATE] keyed by the slot id alone, issued after a separate read has
    found the slot available; it rewrites the row whatever its status is
    at write time.  Two [book] requests name the same (doctor, date,
    time), whose only available row is [s].  When they run one after the
    other, the first is answered 201, the second 400 "Selected time slot
    is not available" with the table unchanged, and the final [s] is
    booked for the patient of the first.  When they are two different
    patients' requests in flight together, then in every interleaving of
    their statements each is answered 201 or 400 "Selected time slot is
    not available", at least one is answered 201, and the final [s] is
    booked for one patient, that of a request answered 201. *)
Theorem book_check_then_write (e1 e2 : Env) (req1 req2 : BookRequest)
  (db : DB) (p1 p2 d dt tm : string) (s : Appointment) :
  reqPatientId req1 = Some p1 -> reqPatientId req2 = Some p2 ->
  reqDoctorId req1 = Some d -> reqDoctorId req2 = Some d ->
  reqDate req1 = Some dt -> reqDate req2 = Some dt ->
  reqTime req1 = Some tm -> reqTime req2 = Some tm ->
  p1 <> "" -> p2 <> "" -> d <> "" -> dt <> "" -> tm <> "" ->
  isPast e1 dt = false -> isPast e2 dt = false ->
  filter (whereSlot d dt tm) db = [s] ->
  find (wherePatientAt (Some p1) dt tm) db = None ->
  (forall p n t i k r,
     nth_error db k = Some r -> id r = i ->
     nth_error (updateWhereId (setBooked p n t) i db) k
     = Some (setBooked p n t r))
  /\ (exists r1 db1,
        run (book e1 req1) [] db = (r1, db1)
        /\ code r1 = 201
        /\ history (book e1 req1) [] db = [db1]
        /\ run (book e2 req2) [] db1
           = (fail 400 "Selected time slot is not available", db1)
        /\ history (book e2 req2) [] db1 = []
        /\ forall k, nth_error db k = Some s ->
             nth_error db1 k
             = Some (setBooked (Some p1) (orNull (reqNotes req1))
                               (now e1) s))
  /\ (p1 <> p2 ->
      find (wherePatientAt (Some p2) dt tm) db = None ->
      forall sched, exists ra rb db',
        concurrent sched (book e1 req1) (book e2 req2) db = (ra, rb, db')
        /\ (code ra = 201
            \/ ra = fail 400 "Selected time slot is not available")
        /\ (code rb = 201
            \/ rb = fail 400 "Selected time slot is not available")
        /\ (code ra = 201 \/ code rb = 201)
        /\ forall k, nth_error db k = Some s ->
             (code ra = 201
              /\ nth_error db' k
                 = Some (setBooked (Some p1) (orNull (reqNotes req1))
                                   (now e1) s))
             \/ (code rb = 201
                 /\ nth_error db' k
                    = Some (setBooked (Some p2) (orNull (reqNotes req2))
                                      (now e2) s))).
Proof.
  intros Hp1 Hp2 Hd1 Hd2 Hdt1 Hdt2 Htm1 Htm2 Np1 Np2 Nd Ndt Ntm
         Hpast1 Hpast2 Hone Hfree.
  split; [|split].
  - intros p n t i k r Hk <-. rewrite nth_error_updateWhereId, Hk. simpl.
    now rewrite String.eqb_refl.
  - assert (Hs : find (whereSlot d dt tm) db = Some s)
      by (now rewrite find_filter, Hone).
    destruct (book_run e1 req1 db p1 d dt tm s) as [Hrun Hhist];
      try assumption.
    do 2 eexists. split; [exact Hrun|]. split; [reflexivity|].
    split; [exact Hhist|].
    assert (Hgone := slot_taken d dt tm (Some p1) (orNull (reqNotes req1))
                                (now e1) db s Hone).
    repeat split.
    + unfold book.
      rewrite (required_fields req2 p2 d dt tm) by assumption.
      rewrite Hd2, Hdt2, Htm2. simpl valueOf. rewrite Hpast2. simpl.
      now rewrite Hgone.
    + unfold book.
      rewrite (required_fields req2 p2 d dt tm) by assumption.
      rewrite Hd2, Hdt2, Htm2. simpl valueOf. rewrite Hpast2. simpl.
      now rewrite Hgone.
    + intros k Hk. rewrite nth_error_updateWhereId, Hk. simpl.
      now rewrite String.eqb_refl.
  - intros Hdiff Hfree2 sched.
    now apply (race_outcome e1 e2 req1 req2 db p1 p2 d dt tm s).
Qed.

(** C1 as stated fails.  Two [book] requests for the available slot [S1]
    are in flight; the store executes the two reads of the first, the two
    reads of the second, and then the writes.  Both requests are answered
    201: neither receives the slot-unavailable failure, and the slot ends
    with the patient of the second write, the booking of the first
    overwritten. *)
Lemma book_race_both_succeed :
  concurrent [true; true; false; false]
             (book env0 (bookS1 "patientA" (Some "cough")))
             (book env0 (bookS1 "patientB" None)) db0
  = (mkResponse 201
       (BookedBody "Appointment booked successfully" (Some S1A)),
     mkResponse 201
       (BookedBody "Appointment booked successfully"
          (Some (setBooked (Some "patientB") None (now env0) S1))),
     [setBooked (Some "patientB") None (now env0) S1; S2; S3])
  /\ status S1 = available.
Proof. split; reflexivity. Qed.

(** * The theorems at concrete requests *)

Lemma primaryKey_db0 : primaryKey db0.
Proof. repeat constructor; simpl; intuition discriminate. Qed.

Lemma primaryKey_dbA : primaryKey dbA.
Proof. repeat constructor; simpl; intuition discriminate. Qed.

Lemma primaryKey_dbC : primaryKey dbC.
Proof. repeat constructor; simpl; intuition discriminate. Qed.

Lemma primaryKey_dbPastA : primaryKey dbPastA.
Proof. repeat constructor; simpl; intuition discriminate. Qed.

(** [book_failures] at three requests: a date before today, the slot
    [S1] that patient A already holds, and a second slot for patient A at
    the time of [S1]. *)
Lemma book_failures_witness :
  run (book env0 bookPast) [] dbPast
  = (fail 400 "Cannot book appointments in the past", dbPast)
  /\ run (book env0 (bookS1 "patientB" None)) [] dbA
     = (fail 400 "Selected time slot is not available", dbA)
  /\ run (book env0 bookS3A) [] dbA
     = (fail 400 "Patient already has an appointment at this time", dbA)
  /\ code (fst (run (book env0 (bookS1 "patientB" None)) [false] dbA))
     = 400
  /\ snd (run (book env0 (bookS1 "patientB" None)) [false] dbA) = dbA.
Proof.
  split; [|split; [|split; [|split]]].
  - apply (book_failures env0 bookPast dbPast
             "patientA" "D1" "2025-05-20" "10:00");
      try reflexivity; discriminate.
  - apply (book_failures env0 (bookS1 "patientB" None) dbA
             "patientB" "D1" "2025-06-10" "10:00");
      try reflexivity; try discriminate.
    intros r [<-|[<-|[<-|[]]]]; simpl; intros; discriminate.
  - refine (proj1 (proj2 (proj2
      (book_failures env0 bookS3A dbA
         "patientA" "D2" "2025-06-10" "10:00" eq_refl eq_refl eq_refl
         eq_refl _ _ _ _))) eq_refl S3 S1A _ eq_refl eq_refl eq_refl
         eq_refl _ eq_refl eq_refl eq_refl eq_refl);
      try discriminate; simpl; tauto.
  - reflexivity.
  - refine (proj2 (proj2 (proj2 (proj2
      (book_failures env0 (bookS1 "patientB" None) dbA
         "patientB" "D1" "2025-06-10" "10:00" eq_refl eq_refl eq_refl
         eq_refl _ _ _ _)))) [false] _ _ (surjective_pairing _) eq_refl);
      discriminate.
Defined.

(** [book_success] at the scenario of the specification: patient A
    books [S1] with the notes "cough". *)
Lemma book_success_witness :
  exists s' db',
    run (book env0 (bookS1 "patientA" (Some "cough"))) [] db0
    = (mkResponse 201
         (BookedBody "Appointment booked successfully" (Some s')), db')
    /\ status s' = booked /\ patientId s' = Some "patientA"
    /\ notes s' = Some "cough" /\ updatedAt s' = now env0
    /\ nth_error db' 0 = Some s' /\ nth_error db' 1 = Some S2
    /\ nth_error db' 2 = Some S3.
Proof.
  destruct (book_success env0 (bookS1 "patientA" (Some "cough")) db0
              "patientA" "D1" "2025-06-10" "10:00" S1)
    as (s' & db' & H1 & _ & H3 & H4 & H5 & _ & H7 & _ & _ & _ & _ & _ & _
        & H8 & H9);
    try reflexivity; try discriminate; try exact primaryKey_db0.
  exists s', db'. repeat split; try assumption.
  - now apply H8.
  - apply H9; [reflexivity | discriminate].
  - apply H9; [reflexivity | discriminate].
Defined.

(** [reschedule_success] at a move of [S1] to doctor D2 at the same date
    and time: the booking of patient A at that time is the one being
    moved, and the move succeeds. *)
Lemma reschedule_success_witness :
  find (wherePatientAt (Some "patientA") "2025-06-10" "10:00") dbA
  = Some S1A
  /\ exists src tgt db',
       run (reschedule env0 "S1" moveToD2) [] dbA
       = (mkResponse 200
            (RescheduledBody "Appointment rescheduled successfully" "S3"),
          db')
       /\ status src = available /\ patientId src = None
       /\ notes src = None
       /\ status tgt = booked /\ patientId tgt = Some "patientA"
       /\ notes tgt = Some "cough"
       /\ nth_error db' 0 = Some src /\ nth_error db' 1 = Some S2
       /\ nth_error db' 2 = Some tgt.
Proof.
  split; [reflexivity|].
  destruct (reschedule_success env0 "S1" moveToD2 dbA S1A S3)
    as (src & tgt & db' & H1 & H2 & H3 & H4 & _ & _ & _ & _ & H5 & H6
        & H7 & _ & _ & _ & _ & _ & _ & H8 & H9 & H10 & _);
    try reflexivity; try exact primaryKey_dbA.
  { intros r [<-|[<-|[<-|[]]]]; simpl; intro; (reflexivity || discriminate). }
  exists src, tgt, db'. repeat split; try assumption.
  - now apply H8.
  - apply H10; [reflexivity | discriminate | discriminate].
  - now apply H9.
Defined.

(** [reschedule_two_statements] at the scenario of the specification:
    [S1] of patient A is moved to [S2]. *)
Lemma reschedule_two_statements_witness :
  exists db1 db2,
    history (reschedule env0 "S1" moveToS2) [] dbA = [db1; db2]
    /\ nth_error db1 0 = Some (setAvailable (now env0) S1A)
    /\ nth_error db1 1 = Some S2
    /\ run (reschedule env0 "S1" moveToS2) [false; false; false; true] dbA
       = (fail 500 "Failed to reschedule appointment", dbA)
    /\ run (reschedule env0 "S1" moveToS2)
           [false; false; false; false; true] dbA
       = (fail 500 "Failed to reschedule appointment", db1).
Proof.
  destruct (reschedule_two_statements env0 "S1" moveToS2 dbA S1A S2)
    as (db1 & db2 & _ & H2 & H3 & H4 & H5 & _ & H7 & _);
    try reflexivity; try exact primaryKey_dbA.
  { intros r [<-|[<-|[<-|[]]]]; simpl; intro; (reflexivity || discriminate). }
  exists db1, db2. repeat split; try assumption.
  - now apply (H3 0%nat).
  - now apply (H4 1%nat).
Defined.

(** [cancel_contract] at an id that no row has, at an available and at
    a cancelled slot, at a booked slot of a past date, and at the booked
    [S1]. *)
Lemma cancel_contract_witness :
  run (cancel env0 "S9") [] dbA = (fail 404 "Appointment not found", dbA)
  /\ run (cancel env0 "S2") [] dbA
     = (fail 400 "Only booked appointments can be cancelled", dbA)
  /\ run (cancel env0 "S1") [] dbC
     = (fail 400 "Only booked appointments can be cancelled", dbC)
  /\ run (cancel env0 "S0") [] dbPastA
     = (fail 400 "Cannot cancel past appointments", dbPastA)
  /\ exists a' db',
       run (cancel env0 "S1") [] dbA
       = (mkResponse 200
            (MessageBody "Appointment cancelled successfully"), db')
       /\ status a' = cancelled /\ patientId a' = Some "patientA"
       /\ nth_error db' 0 = Some a'
       /\ filter isAvailable db' = [S2; S3].
Proof.
  split; [|split; [|split; [|split]]].
  - apply (cancel_contract env0 "S9" dbA primaryKey_dbA).
    intros r [<-|[<-|[<-|[]]]]; discriminate.
  - apply (proj1 (proj2 (cancel_contract env0 "S2" dbA primaryKey_dbA))
             S2); [simpl; tauto | reflexivity | discriminate].
  - apply (proj1 (proj2 (cancel_contract env0 "S1" dbC primaryKey_dbC))
             S1C); [simpl; tauto | reflexivity | discriminate].
  - apply (proj1 (proj2 (proj2
             (cancel_contract env0 "S0" dbPastA primaryKey_dbPastA)))
             S0A); [simpl; tauto | reflexivity | reflexivity | reflexivity].
  - destruct (proj2 (proj2 (proj2
               (cancel_contract env0 "S1" dbA primaryKey_dbA)))
               S1A) as (a' & db' & H1 & H2 & _ & H3 & _ & _ & _ & _ & _
                        & H4 & _ & H5);
      [simpl; tauto | reflexivity | reflexivity | reflexivity |].
    exists a', db'. repeat split; try assumption.
    + now apply H4.
Defined.

(** [availableSlots_lists] for doctor D1 on 2025-06-10. *)
Lemma availableSlots_lists_witness :
  exists rows,
    run (availableSlots env0 (Some "D1") (Some "2025-06-10")) [] dbPast
    = (mkResponse 200 (RowsBody (map slotRow rows)), dbPast)
    /\ Permutation rows [S1]
    /\ StronglySorted timeLe rows.
Proof.
  destruct (availableSlots_lists env0 (Some "D1") (Some "2025-06-10")
              "D1" "2025-06-10" dbPast)
    as (rows & H1 & _ & H3 & _ & H5);
    try reflexivity; try discriminate.
  exists rows. repeat split; assumption.
Defined.

(** [availableSlots_past] for doctor D1 on 2025-05-20, twelve days
    before the day of [env0]. *)
Lemma availableSlots_past_witness :
  isPast env0 "2025-05-20" = true
  /\ run (availableSlots env0 (Some "D1") (Some "2025-05-20")) [] dbPast
     = (fail 400 "Cannot view slots for past dates", dbPast).
Proof.
  split; [reflexivity|].
  apply (availableSlots_past env0 (Some "D1") (Some "2025-05-20") []
           dbPast); reflexivity.
Defined.

(** [claim_consistent_preserved] at the table in which patient A holds
    [S1]. *)
Lemma claim_consistent_preserved_witness :
  forallb claimConsistent dbA = true
  /\ forallb claimConsistent (snd (run (book env0 bookS2B) [] dbA)) = true
  /\ forallb claimConsistent
       (snd (run (reschedule env0 "S1" moveToS2)
                 [false; false; false; false; true] dbA)) = true
  /\ forallb claimConsistent (snd (run (cancel env0 "S1") [] dbA)) = true.
Proof.
  destruct (claim_consistent_preserved env0 dbA eq_refl) as (Hb & Hr & Hc).
  split; [reflexivity|]. split; [|split].
  - eapply Hb. apply surjective_pairing.
  - eapply Hr. apply surjective_pairing.
  - eapply Hc. apply surjective_pairing.
Defined.

(** [book_check_then_write] at the scenario of the specification:
    patients A and B both ask for [S1]. *)
Lemma book_check_then_write_witness :
  (exists r1 db1,
     run (book env0 (bookS1 "patientA" (Some "cough"))) [] db0 = (r1, db1)
     /\ code r1 = 201
     /\ run (book env0 (bookS1 "patientB" None)) [] db1
        = (fail 400 "Selected time slot is not available", db1)
     /\ nth_error db1 0 = Some S1A)
  /\ exists ra rb db',
       concurrent [true; false; false; true; false]
                  (book env0 (bookS1 "patientA" (Some "cough")))
                  (book env0 (bookS1 "patientB" None)) db0
       = (ra, rb, db')
       /\ (code ra = 201 \/ code rb = 201).
Proof.
  destruct (book_check_then_write env0 env0
              (bookS1 "patientA" (Some "cough")) (bookS1 "patientB" None)
              db0 "patientA" "patientB" "D1" "2025-06-10" "10:00" S1)
    as (_ & (r1 & db1 & H1 & H2 & _ & H4 & _ & H6) & H7);
    try reflexivity; try discriminate.
  split.
  - exists r1, db1. repeat split; try assumption.
    now apply (H6 0%nat).
  - destruct (H7 ltac:(discriminate) eq_refl
                 [true; false; false; true; false])
      as (ra & rb & db' & G1 & _ & _ & G4 & _).
    now exists ra, rb, db'.
Defined.

(** * Further properties of the routes *)

(** ** What no route changes *)

Lemma sameSlots_updateWhereId (set : Appointment -> Appointment)
  (i : string) :
  (forall r, slotKey (set r) = slotKey r) ->
  keepsSlots (updateWhereId set i).
Proof.
  intros Hset db. unfold sameSlots, updateWhereId. rewrite map_map.
  apply map_ext. intro r. destruct (id r =? i); [apply Hset | reflexivity].
Qed.

Lemma writesOnly_step (W : (DB -> DB) -> Prop) (p : Prog) (db : DB) :
  writesOnly W p ->
  writesOnly W (fst (step p db))
  /\ (snd (step p db) = db \/ exists u, W u /\ snd (step p db) = u db).
Proof.
  intros [r|q k Hk|q k Hk|u k Hu Hk]; simpl; split; auto.
  - constructor.
  - right. now exists u.
Qed.

Section Frame.

Variable W : (DB -> DB) -> Prop.
Variable R : DB -> DB -> Prop.
Hypothesis R_refl : forall db, R db db.
Hypothesis R_trans : forall a b c, R a b -> R b c -> R a c.
Hypothesis R_write : forall u db, W u -> R db (u db).

Lemma writesOnly_run (p : Prog) :
  writesOnly W p ->
  forall faults db, R db (snd (run p faults db)).
Proof.
  induction 1 as [r|q k Hk IH|q k Hk IH|u k Hu Hk IH]; intros faults db;
    simpl; try apply R_refl;
    destruct (hd false faults); try apply IH.
  eapply R_trans; [apply R_write, Hu | apply IH].
Qed.

Lemma writesOnly_interleave (sched : list bool) (a b : Prog) (db : DB) :
  writesOnly W a -> writesOnly W b ->
  writesOnly W (fst (fst (interleave sched a b db)))
  /\ writesOnly W (snd (fst (interleave sched a b db)))
  /\ R db (snd (interleave sched a b db)).
Proof.
  revert a b db. induction sched as [|[|] sched IH]; intros a b db Ha Hb;
    simpl.
  - auto.
  - destruct (writesOnly_step W a db Ha) as [Ha' Hdb].
    destruct (step a db) as [a' db']. simpl in Ha', Hdb.
    destruct (IH a' b db' Ha' Hb) as (H1 & H2 & H3).
    repeat split; try assumption.
    destruct Hdb as [->|(u & Hu & ->)]; [assumption|].
    eapply R_trans; [apply R_write, Hu | exact H3].
  - destruct (writesOnly_step W b db Hb) as [Hb' Hdb].
    destruct (step b db) as [b' db']. simpl in Hb', Hdb.
    destruct (IH a b' db' Ha Hb') as (H1 & H2 & H3).
    repeat split; try assumption.
    destruct Hdb as [->|(u & Hu & ->)]; [assumption|].
    eapply R_trans; [apply R_write, Hu | exact H3].
Qed.

Lemma writesOnly_concurrent (sched : list bool) (a b : Prog) (db : DB) :
  writesOnly W a -> writesOnly W b ->
  R db (snd (concurrent sched a b db)).
Proof.
  intros Ha Hb. unfold concurrent.
  destruct (writesOnly_interleave sched a b db Ha Hb) as (Ha' & Hb' & H1).
  destruct (interleave sched a b db) as [[a' b'] db1]. simpl in *.
  pose proof (writesOnly_run a' Ha' [] db1) as H2.
  destruct (run a' [] db1) as [ra db2]. simpl in H2.
  pose proof (writesOnly_run b' Hb' [] db2) as H3.
  destruct (run b' [] db2) as [rb db3]. simpl in *.
  eapply R_trans; [exact H1|]. eapply R_trans; [exact H2 | exact H3].
Qed.

End Frame.

Ltac writes_only :=
  repeat (first
    [ match goal with
      | |- writesOnly _ (if ?c then _ else _) => destruct c
      | |- writesOnly _ (match ?x with _ => _ end) => destruct x
      end
    | apply wo_respond
    | apply wo_get; intro
    | apply wo_all; intro
    | apply wo_run; [|intro] ]).

Lemma handle_keepsSlots (r : Request) : writesOnly keepsSlots (handle r).
Proof.
  destruct r; simpl;
    [unfold book | unfold reschedule | unfold cancel | unfold availableSlots];
    writes_only; apply sameSlots_updateWhereId; reflexivity.
Qed.

(** X1.  No request to the booking, rescheduling, cancelling or listing
    route, run alone under any errors of the store or interleaved in any
    way with another such request, adds or removes a row of the slot
    table or changes the id, the doctor, the date, the time or the
    creation stamp of a row. *)
Theorem routes_keep_slots (r1 r2 : Request) (faults sched : list bool)
  (db : DB) :
  sameSlots db (snd (run (handle r1) faults db))
  /\ sameSlots db (snd (concurrent sched (handle r1) (handle r2) db))
  /\ List.length (snd (concurrent sched (handle r1) (handle r2) db))
     = List.length db.
Proof.
  assert (Hrefl : forall d : DB, sameSlots d d) by reflexivity.
  assert (Htrans : forall a b c : DB,
             sameSlots a b -> sameSlots b c -> sameSlots a c).
  { unfold sameSlots. intros a b c H1 H2. now rewrite H2. }
  assert (Hw : forall u d, keepsSlots u -> sameSlots d (u d)) by auto.
  split; [|split].
  - apply (writesOnly_run keepsSlots sameSlots Hrefl Htrans Hw).
    apply handle_keepsSlots.
  - apply (writesOnly_concurrent keepsSlots sameSlots Hrefl Htrans Hw);
      apply handle_keepsSlots.
  - pose proof (writesOnly_concurrent keepsSlots sameSlots Hrefl Htrans Hw
                  sched (handle r1) (handle r2) db
                  (handle_keepsSlots r1) (handle_keepsSlots r2)) as H.
    unfold sameSlots in H. apply (f_equal (@List.length _)) in H.
    now rewrite !length_map in H.
Qed.

(** ** What a run can have done *)

Lemma book_run_inv (e : Env) (req : BookRequest) (faults : list bool)
  (db : DB) (r : Response) (db' : DB) :
  run (book e req) faults db = (r, db') ->
  (db' = db /\ code r <> 201)
  \/ exists p s,
       reqPatientId req = Some p /\ p <> ""
       /\ find (whereSlot (valueOf (reqDoctorId req))
                          (valueOf (reqDate req))
                          (valueOf (reqTime req))) db = Some s
       /\ find (wherePatientAt (Some p) (valueOf (reqDate req))
                               (valueOf (reqTime req))) db = None
       /\ db' = updateWhereId
                  (setBooked (Some p) (orNull (reqNotes req)) (now e))
                  (id s) db.
Proof.
  unfold book. destruct (reqPatientId req) as [p|] eqn:Hp.
  - run_cases; intros [= <- <-];
      try (left; split; [reflexivity | discriminate]);
      right; exists p; eexists; (split; [reflexivity|]);
      (split; [|repeat split; (eassumption || reflexivity)]);
      match goal with
      | H : _ || _ = false |- _ =>
          rewrite !orb_false_iff in H; destruct H as [[[H _] _] _];
          apply negb_false_iff in H; intros ->; discriminate H
      end.
  - simpl. intros [= <- <-]. left. split; [reflexivity | discriminate].
Qed.

Lemma reschedule_run_inv (e : Env) (i : string) (req : PutRequest)
  (faults : list bool) (db : DB) (r : Response) (db' : DB) :
  run (reschedule e i req) faults db = (r, db') ->
  (db' = db /\ code r <> 200)
  \/ exists a t,
       find (whereId i) db = Some a /\ status a = booked
       /\ find (whereSlot (orColumn (putDoctorId req) (doctorId a))
                          (orColumn (putDate req) (date a))
                          (orColumn (putTime req) (time a))) db = Some t
       /\ find (wherePatientAtExcept (patientId a)
                 (orColumn (putDate req) (date a))
                 (orColumn (putTime req) (time a)) i) db = None
       /\ ((db' = updateWhereId (setAvailable (now e)) i db
            /\ code r = 500)
           \/ (db' = updateWhereId
                       (setBooked (patientId a)
                          (orElse (putNotes req) (notes a)) (now2 e))
                       (id t) (updateWhereId (setAvailable (now e)) i db)
               /\ code r = 200)).
Proof.
  unfold reschedule.
  run_cases; intros [= <- <-];
    try (left; split; [reflexivity | discriminate]);
    right; do 2 eexists;
    (split; [first [eassumption | reflexivity]|]);
    (split; [match goal with
             | H : negb (Status_eqb ?s booked) = false |- _ =>
                 apply negb_false_iff, Status_eqb_eq in H; exact H
             end|]);
    (split; [eassumption|]); (split; [eassumption|]);
    first [left; split; reflexivity | right; split; reflexivity].
Qed.

Lemma cancel_run_inv (e : Env) (i : string) (faults : list bool)
  (db : DB) (r : Response) (db' : DB) :
  run (cancel e i) faults db = (r, db') ->
  (db' = db /\ code r <> 200)
  \/ exists a,
       find (whereId i) db = Some a /\ status a = booked
       /\ isPast e (date a) = false
       /\ db' = updateWhereId (setCancelled (now e)) i db
       /\ code r = 200.
Proof.
  unfold cancel.
  run_cases; intros [= <- <-];
    try (left; split; [reflexivity | discriminate]);
    right; eexists;
    (split; [first [eassumption | reflexivity]|]);
    (split; [match goal with
             | H : negb (Status_eqb ?s booked) = false |- _ =>
                 apply negb_false_iff, Status_eqb_eq in H; exact H
             end|]);
    repeat split; (eassumption || reflexivity).
Qed.

Lemma availableSlots_run_inv (e : Env) (d dt : option string)
  (faults : list bool) (db : DB) :
  snd (run (availableSlots e d dt) faults db) = db.
Proof. unfold availableSlots. run_cases; reflexivity. Qed.

(** ** Terminal slots *)

Lemma nth_error_update_other (set : Appointment -> Appointment)
  (i : string) (db : DB) (n : nat) (x : Appointment) :
  nth_error db n = Some x -> (id x =? i) = false ->
  nth_error (updateWhereId set i db) n = Some x.
Proof.
  intros Hn Hi. rewrite nth_error_updateWhereId, Hn. simpl. now rewrite Hi.
Qed.

Lemma other_status_other_id (db : DB) (q : Appointment -> bool)
  (x a : Appointment) :
  primaryKey db -> In x db -> find q db = Some a ->
  status x <> status a -> (id x =? id a) = false.
Proof.
  intros Hk Hx Ha Hs. apply find_some in Ha. destruct Ha as [Ha _].
  apply String.eqb_neq. intro E. apply Hs. f_equal.
  now apply (primaryKey_inj db).
Qed.

Lemma whereId_id (i : string) (db : DB) (a : Appointment) :
  find (whereId i) db = Some a -> id a = i.
Proof.
  intro H. apply find_some in H. destruct H as [_ H].
  now apply String.eqb_eq in H.
Qed.

Lemma whereSlot_available (d dt tm : string) (db : DB) (t : Appointment) :
  find (whereSlot d dt tm) db = Some t -> status t = available.
Proof.
  intro H. apply find_some in H. destruct H as [_ H].
  apply whereSlot_true in H. tauto.
Qed.

(** X2.  With [id] a primary key, a slot that is [cancelled] or
    [completed] is left exactly as it is by every request to the
    booking, rescheduling, cancelling and listing routes, whatever the
    request and whatever errors the store reports: no route reopens,
    rebooks or rewrites a slot in a terminal status. *)
Theorem terminal_slots_untouched (r : Request) (faults : list bool)
  (db : DB) (n : nat) (x : Appointment) :
  primaryKey db ->
  nth_error db n = Some x -> isTerminal x = true ->
  nth_error (snd (run (handle r) faults db)) n = Some x.
Proof.
  intros Hk Hn Ht.
  assert (Hx : In x db) by (eapply nth_error_In; eauto).
  assert (Hna : status x <> available)
    by (unfold isTerminal in Ht; destruct (status x); congruence).
  assert (Hnb : status x <> booked)
    by (unfold isTerminal in Ht; destruct (status x); congruence).
  destruct r as [e req|e i req|e i|e d dt]; unfold handle.
  - destruct (run (book e req) faults db) as [rsp db'] eqn:E.
    apply book_run_inv in E.
    destruct E as [[-> _]|(p & s & _ & _ & Hs & _ & ->)]; simpl;
      try assumption.
    apply nth_error_update_other; [assumption|].
    apply (other_status_other_id db _ x s Hk Hx Hs).
    now rewrite (whereSlot_available _ _ _ _ _ Hs).
  - destruct (run (reschedule e i req) faults db) as [rsp db'] eqn:E.
    apply reschedule_run_inv in E.
    destruct E as [[-> _]|(a & t & Ha & Hb & Hs & _ & Hdb)]; simpl;
      try assumption.
    assert (E1 : (id x =? i) = false).
    { rewrite <- (whereId_id i db a Ha).
      apply (other_status_other_id db _ x a Hk Hx Ha). now rewrite Hb. }
    assert (E2 : (id x =? id t) = false).
    { apply (other_status_other_id db _ x t Hk Hx Hs).
      now rewrite (whereSlot_available _ _ _ _ _ Hs). }
    destruct Hdb as [[-> _]|[-> _]]; simpl.
    + now apply nth_error_update_other.
    + apply nth_error_update_other; [|assumption].
      now apply nth_error_update_other.
  - destruct (run (cancel e i) faults db) as [rsp db'] eqn:E.
    apply cancel_run_inv in E.
    destruct E as [[-> _]|(a & Ha & Hb & _ & -> & _)]; simpl;
      try assumption.
    apply nth_error_update_other; [assumption|].
    rewrite <- (whereId_id i db a Ha).
    apply (other_status_other_id db _ x a Hk Hx Ha). now rewrite Hb.
  - now rewrite availableSlots_run_inv.
Qed.

(** ** The number of bookings *)

Lemma update_absent (set : Appointment -> Appointment) (i : string)
  (l : DB) :
  (forall r, In r l -> id r <> i) -> updateWhereId set i l = l.
Proof.
  induction l as [|x l IH]; simpl; intro H; [reflexivity|].
  destruct (id x =? i) eqn:E.
  - apply String.eqb_eq in E. now destruct (H x (or_introl eq_refl)).
  - f_equal. apply IH. intros r Hr. apply H. now right.
Qed.

Lemma countStatus_update (st : Status) (set : Appointment -> Appointment)
  (db : DB) (a : Appointment) :
  primaryKey db -> In a db ->
  countStatus st (updateWhereId set (id a) db) + inStatus st a
  = countStatus st db + inStatus st (set a).
Proof.
  unfold primaryKey, countStatus, inStatus.
  induction db as [|x l IH]; simpl; [tauto|].
  intros Hk Ha. inversion Hk as [|? ? Hnot Hl]; subst.
  destruct Ha as [->|Ha].
  - rewrite String.eqb_refl.
    rewrite update_absent.
    + destruct (Status_eqb (status a) st), (Status_eqb (status (set a)) st);
        simpl; lia.
    + intros r Hr E. apply Hnot. rewrite <- E. now apply in_map.
  - destruct (id x =? id a) eqn:E.
    + apply String.eqb_eq in E. exfalso. apply Hnot. rewrite E.
      now apply in_map.
    + specialize (IH Hl Ha).
      destruct (Status_eqb (status x) st); simpl; lia.
Qed.

Lemma primaryKey_updateWhereId (set : Appointment -> Appointment)
  (i : string) (db : DB) :
  (forall r, id (set r) = id r) ->
  primaryKey db -> primaryKey (updateWhereId set i db).
Proof.
  intros Hset Hk. unfold primaryKey, updateWhereId in *.
  rewrite map_map. erewrite map_ext; [exact Hk|].
  intro r. simpl. destruct (id r =? i); [apply Hset | reflexivity].
Qed.

(** X3.  With [id] a primary key: a [book] answered 201 raises the
    number of booked slots by one and lowers the number of available
    slots by one; a reschedule answered 200 leaves the number of slots in
    every status as it was, so that it neither creates nor loses a
    booking; a [cancel] answered 200 moves one slot from booked to
    cancelled and leaves the number of available slots as it was. *)
Theorem bookings_counted (e : Env) (db : DB) (faults : list bool)
  (r : Response) (db' : DB) :
  primaryKey db ->
  (forall req,
     run (book e req) faults db = (r, db') -> code r = 201 ->
     countStatus booked db' = S (countStatus booked db)
     /\ S (countStatus available db') = countStatus available db
     /\ countStatus cancelled db' = countStatus cancelled db
     /\ countStatus completed db' = countStatus completed db)
  /\ (forall i req,
        run (reschedule e i req) faults db = (r, db') -> code r = 200 ->
        forall st, countStatus st db' = countStatus st db)
  /\ (forall i,
        run (cancel e i) faults db = (r, db') -> code r = 200 ->
        S (countStatus booked db') = countStatus booked db
        /\ countStatus cancelled db' = S (countStatus cancelled db)
        /\ countStatus available db' = countStatus available db
        /\ countStatus completed db' = countStatus completed db).
Proof.
  intro Hk. split; [|split].
  - intros req E Hc. apply book_run_inv in E.
    destruct E as [[_ E]|(p & s & _ & _ & Hs & _ & ->)]; [congruence|].
    assert (Hav := whereSlot_available _ _ _ _ _ Hs).
    apply find_some in Hs. destruct Hs as [Hs _].
    pose proof (fun st => countStatus_update st
      (setBooked (Some p) (orNull (reqNotes req)) (now e)) db s Hk Hs)
      as H.
    pose proof (H booked) as H1. pose proof (H available) as H2.
    pose proof (H cancelled) as H3. pose proof (H completed) as H4.
    unfold inStatus in *. simpl in *. rewrite Hav in *. simpl in *. lia.
  - intros i req E Hc st. apply reschedule_run_inv in E.
    destruct E as [[_ E]|(a & t & Ha & Hb & Hs & _ & Hdb)]; [congruence|].
    destruct Hdb as [[_ E]|[-> _]]; [congruence|].
    assert (Hav := whereSlot_available _ _ _ _ _ Hs).
    assert (Hi := whereId_id i db a Ha). subst i.
    assert (Hne : (id t =? id a) = false).
    { rewrite String.eqb_sym. apply String.eqb_neq. intro E.
      apply find_some in Ha, Hs. destruct Ha as [Ha _], Hs as [Hs _].
      assert (a = t) by now apply (primaryKey_inj db).
      subst t. congruence. }
    apply find_some in Ha, Hs. destruct Ha as [Ha _], Hs as [Hs _].
    pose proof (countStatus_update st (setAvailable (now e)) db a Hk Ha)
      as H1.
    set (db1 := updateWhereId (setAvailable (now e)) (id a) db) in *.
    assert (Hk1 : primaryKey db1)
      by (apply primaryKey_updateWhereId; auto).
    assert (Ht1 : In t db1).
    { unfold db1, updateWhereId. apply in_map_iff. exists t.
      now rewrite Hne. }
    pose proof (countStatus_update st
      (setBooked (patientId a) (orElse (putNotes req) (notes a)) (now2 e))
      db1 t Hk1 Ht1) as H2.
    unfold inStatus in *. simpl in *. rewrite Hav, Hb in *.
    destruct st; simpl in *; lia.
  - intros i E Hc. apply cancel_run_inv in E.
    destruct E as [[_ E]|(a & Ha & Hb & _ & -> & _)]; [congruence|].
    assert (Hi := whereId_id i db a Ha). subst i.
    apply find_some in Ha. destruct Ha as [Ha _].
    pose proof (fun st => countStatus_update st
      (setCancelled (now e)) db a Hk Ha) as H.
    pose proof (H booked) as H1. pose proof (H available) as H2.
    pose proof (H cancelled) as H3. pose proof (H completed) as H4.
    unfold inStatus in *. simpl in *. rewrite Hb in *. simpl in *. lia.
Qed.

(** ** One booking per patient and time *)

Lemma in_update_cases (set : Appointment -> Appointment) (i : string)
  (db : DB) (x : Appointment) :
  In x (updateWhereId set i db) ->
  (In x db /\ (id x =? i) = false)
  \/ exists r, In r db /\ id r = i /\ x = set r.
Proof.
  unfold updateWhereId. rewrite in_map_iff. intros (r & <- & Hr).
  destruct (id r =? i) eqn:E; [right | now left].
  exists r. repeat split; [assumption | now apply String.eqb_eq].
Qed.

Lemma noDoubleBooking_unbook (set : Appointment -> Appointment)
  (i : string) (db : DB) :
  (forall r, status (set r) <> booked) ->
  noDoubleBooking db -> noDoubleBooking (updateWhereId set i db).
Proof.
  intros Hset Hinv r1 r2 p H1 H2 S1 S2 P1 P2 Hd Ht.
  apply in_update_cases in H1, H2.
  destruct H1 as [[H1 _]|(x & _ & _ & ->)];
    [|now destruct (Hset x)].
  destruct H2 as [[H2 _]|(x & _ & _ & ->)];
    [|now destruct (Hset x)].
  now apply (Hinv r1 r2 p).
Qed.

Lemma noDoubleBooking_book (p n : option string) (t : string)
  (db : DB) (s : Appointment) :
  primaryKey db -> In s db ->
  (forall r q, In r db -> (id r =? id s) = false -> status r = booked ->
               patientId r = Some q -> p = Some q ->
               date r = date s -> time r = time s -> False) ->
  noDoubleBooking db ->
  noDoubleBooking (updateWhereId (setBooked p n t) (id s) db).
Proof.
  intros Hk Hs Hnone Hinv r1 r2 q H1 H2 S1 S2 P1 P2 Hd Ht.
  apply in_update_cases in H1, H2.
  destruct H1 as [[H1 E1]|(x1 & X1 & I1 & ->)],
           H2 as [[H2 E2]|(x2 & X2 & I2 & ->)].
  - now apply (Hinv r1 r2 q).
  - assert (x2 = s) as -> by now apply (primaryKey_inj db).
    simpl in *. exfalso. apply (Hnone r1 q); auto.
  - assert (x1 = s) as -> by now apply (primaryKey_inj db).
    simpl in *. exfalso. apply (Hnone r2 q); auto.
  - simpl. congruence.
Qed.

(** X4.  With [id] a primary key, if no patient holds two booked slots
    at one (date, time), then the same is true after any request to the
    booking, rescheduling, cancelling or listing route that runs alone,
    whatever errors the store reports. *)
Theorem no_double_booking_kept (r : Request) (faults : list bool)
  (db : DB) :
  primaryKey db -> noDoubleBooking db ->
  noDoubleBooking (snd (run (handle r) faults db)).
Proof.
  intros Hk Hinv.
  destruct r as [e req|e i req|e i|e d dt]; unfold handle.
  - destruct (run (book e req) faults db) as [rsp db'] eqn:E.
    apply book_run_inv in E.
    destruct E as [[-> _]|(p & s & _ & _ & Hs & Hfree & ->)]; simpl;
      try assumption.
    pose proof (find_some _ _ Hs) as [Hin Hw].
    apply whereSlot_true in Hw. destruct Hw as (_ & Hd & Ht & _).
    apply noDoubleBooking_book; try assumption.
    intros x q Hx _ Sx Px [= <-] Dx Tx.
    pose proof (find_none _ _ Hfree x Hx) as Hno.
    assert (wherePatientAt (Some p) (valueOf (reqDate req))
                           (valueOf (reqTime req)) x = true);
      [|congruence].
    apply wherePatientAt_true. repeat split; congruence.
  - destruct (run (reschedule e i req) faults db) as [rsp db'] eqn:E.
    apply reschedule_run_inv in E.
    destruct E as [[-> _]|(a & t & Ha & Hb & Hs & Hfree & Hdb)]; simpl;
      try assumption.
    assert (H1 : noDoubleBooking
                   (updateWhereId (setAvailable (now e)) i db))
      by (apply noDoubleBooking_unbook; [discriminate | assumption]).
    destruct Hdb as [[-> _]|[-> _]]; [assumption|].
    pose proof (find_some _ _ Hs) as [Hin Hw].
    apply whereSlot_true in Hw. destruct Hw as (_ & Hd & Ht & Hav).
    assert (Hi := whereId_id i db a Ha).
    assert (Hne : (id t =? i) = false).
    { apply String.eqb_neq. intro E. apply find_some in Ha.
      destruct Ha as [Ha _].
      assert (t = a) by (apply (primaryKey_inj db); congruence).
      subst t. congruence. }
    apply noDoubleBooking_book; try assumption.
    + apply primaryKey_updateWhereId; auto.
    + unfold updateWhereId. apply in_map_iff. exists t. now rewrite Hne.
    + intros x q Hx Ex Sx Px Pa Dx Tx.
      apply in_update_cases in Hx.
      destruct Hx as [[Hx Ei]|(x0 & _ & _ & ->)]; [|discriminate Sx].
      pose proof (find_none _ _ Hfree x Hx) as Hno.
      assert (wherePatientAtExcept (patientId a)
                (orColumn (putDate req) (date a))
                (orColumn (putTime req) (time a)) i x = true);
        [|congruence].
      unfold wherePatientAtExcept. rewrite Ei, Pa. simpl.
      rewrite andb_true_r. apply wherePatientAt_true.
      repeat split; congruence.
  - destruct (run (cancel e i) faults db) as [rsp db'] eqn:E.
    apply cancel_run_inv in E.
    destruct E as [[-> _]|(a & _ & _ & _ & -> & _)]; simpl;
      try assumption.
    apply noDoubleBooking_unbook; [discriminate | assumption].
  - now rewrite availableSlots_run_inv.
Qed.

(** ** Rescheduling: the failures *)

(** X5.  [PUT /:id] answers 404 when no row has the id; 400 "Only booked
    appointments can be rescheduled" when the row is not booked; 400
    "Cannot reschedule appointments to the past" when the body carries a
    date that is before today; 400 "New time slot is not available" when
    the target (doctor, date, time) has no available row; and 400
    "Patient already has an appointment at this time" when the patient
    holds another booked row at the target (date, time).  The checks are
    made in this order, and whenever the answer is 400 or 404, whatever
    errors the store reports, the table is unchanged. *)
Theorem reschedule_failures (e : Env) (i : string) (req : PutRequest)
  (db : DB) :
  ((forall r, In r db -> id r <> i) ->
   run (reschedule e i req) [] db = (fail 404 "Appointment not found", db))
  /\ (forall a, find (whereId i) db = Some a -> status a <> booked ->
        run (reschedule e i req) [] db
        = (fail 400 "Only booked appointments can be rescheduled", db))
  /\ (forall a dt, find (whereId i) db = Some a -> status a = booked ->
        putDate req = Some dt -> dt <> "" -> isPast e dt = true ->
        run (reschedule e i req) [] db
        = (fail 400 "Cannot reschedule appointments to the past", db))
  /\ (forall a, find (whereId i) db = Some a -> status a = booked ->
        truthy (putDate req) && isPast e (valueOf (putDate req)) = false ->
        (forall r, In r db ->
           doctorId r = orColumn (putDoctorId req) (doctorId a) ->
           date r = orColumn (putDate req) (date a) ->
           time r = orColumn (putTime req) (time a) ->
           status r <> available) ->
        run (reschedule e i req) [] db
        = (fail 400 "New time slot is not available", db))
  /\ (forall a t held p, find (whereId i) db = Some a -> status a = booked ->
        truthy (putDate req) && isPast e (valueOf (putDate req)) = false ->
        find (whereSlot (orColumn (putDoctorId req) (doctorId a))
                        (orColumn (putDate req) (date a))
                        (orColumn (putTime req) (time a))) db = Some t ->
        In held db -> id held <> i -> status held = booked ->
        patientId a = Some p -> patientId held = Some p ->
        date held = orColumn (putDate req) (date a) ->
        time held = orColumn (putTime req) (time a) ->
        run (reschedule e i req) [] db
        = (fail 400 "Patient already has an appointment at this time", db))
  /\ (forall faults r db',
        run (reschedule e i req) faults db = (r, db') ->
        code r = 400 \/ code r = 404 -> db' = db).
Proof.
  repeat split.
  - intro Hnone. unfold reschedule. simpl.
    rewrite find_all_false; [reflexivity|].
    intros r Hr. unfold whereId. apply String.eqb_neq. now apply Hnone.
  - intros a Ha Hs. unfold reschedule. simpl. rewrite Ha.
    destruct (status a); simpl; congruence.
  - intros a dt Ha Hs Hd Nd Hpast. unfold reschedule. simpl.
    rewrite Ha, Hs, Hd. simpl. apply String.eqb_neq in Nd.
    now rewrite Nd, Hpast.
  - intros a Ha Hs Hdate Hnone. unfold reschedule. simpl.
    rewrite Ha, Hs. simpl. rewrite Hdate. simpl.
    rewrite find_all_false; [reflexivity|].
    intros r Hr. match goal with |- ?w r = false => destruct (w r) eqn:E end;
      [|reflexivity].
    apply whereSlot_true in E. destruct E as (E1 & E2 & E3 & E4).
    now destruct (Hnone r Hr E1 E2 E3).
  - intros a t held p Ha Hs Hdate Ht Hh Hi Sh Pa Ph Dh Th.
    unfold reschedule. simpl. rewrite Ha, Hs. simpl. rewrite Hdate. simpl.
    rewrite Ht. simpl.
    destruct (find_exists
                (wherePatientAtExcept (patientId a)
                   (orColumn (putDate req) (date a))
                   (orColumn (putTime req) (time a)) i) db held Hh)
      as [h' ->]; [|reflexivity].
    unfold wherePatientAtExcept. apply andb_true_iff. split.
    + rewrite Pa. apply wherePatientAt_true. tauto.
    + apply negb_true_iff. now apply String.eqb_neq.
  - intros faults r db' E Hc. apply reschedule_run_inv in E.
    destruct E as [[-> _]|(a & t & _ & _ & _ & _ & [[_ E]|[_ E]])];
      [reflexivity | | ]; rewrite E in Hc; destruct Hc; discriminate.
Qed.

(** X6.  A [PUT /:id] that names the doctor, date and time the booked
    appointment already has, or leaves them out, is never answered 200
    when the appointment is the only slot at its (doctor, date, time):
    the target it asks for is the booked slot itself, which is not
    available.  The table is unchanged, so that the notes of a booking
    cannot be changed through this route without moving the booking. *)
Theorem put_on_own_slot_rejected (e : Env) (i : string) (req : PutRequest)
  (db : DB) (a : Appointment) (faults : list bool) :
  find (whereId i) db = Some a ->
  (forall r, In r db -> doctorId r = doctorId a -> date r = date a ->
             time r = time a -> r = a) ->
  orColumn (putDoctorId req) (doctorId a) = doctorId a ->
  orColumn (putDate req) (date a) = date a ->
  orColumn (putTime req) (time a) = time a ->
  code (fst (run (reschedule e i req) faults db)) <> 200
  /\ snd (run (reschedule e i req) faults db) = db
  /\ (status a = booked ->
      truthy (putDate req) && isPast e (valueOf (putDate req)) = false ->
      run (reschedule e i req) [] db
      = (fail 400 "New time slot is not available", db)).
Proof.
  intros Ha Hone Hd Hdt Htm.
  assert (Hnot : forall t,
            find (whereSlot (doctorId a) (date a) (time a)) db = Some t ->
            status a = booked -> False).
  { intros t Ht Hb. apply find_some in Ht. destruct Ht as [Hin Hw].
    apply whereSlot_true in Hw. destruct Hw as (W1 & W2 & W3 & W4).
    rewrite (Hone t Hin W1 W2 W3) in W4. congruence. }
  destruct (run (reschedule e i req) faults db) as [r db'] eqn:E.
  apply reschedule_run_inv in E. simpl.
  destruct E as [[-> Hc]|(a' & t & Ha' & Hb & Ht & _)].
  - repeat split; try assumption.
    intros Hb Hdate. unfold reschedule. simpl. rewrite Ha, Hb. simpl.
    rewrite Hdate. simpl. rewrite Hd, Hdt, Htm.
    destruct (find (whereSlot (doctorId a) (date a) (time a)) db)
      as [t|] eqn:Ht; [|reflexivity].
    now destruct (Hnot t eq_refl Hb).
  - rewrite Ha in Ha'. injection Ha' as <-.
    rewrite Hd, Hdt, Htm in Ht. now destruct (Hnot t Ht Hb).
Qed.

(** ** Cancelling and rescheduling, then booking *)

Lemma find_unique {A : Type} (f : A -> bool) (l : list A) (y : A) :
  In y l -> f y = true ->
  (forall z, In z l -> f z = true -> z = y) ->
  find f l = Some y.
Proof.
  intros Hy Hf Hu. destruct (find f l) as [z|] eqn:E.
  - apply find_some in E. destruct E as [Hz Hfz]. f_equal. now apply Hu.
  - now rewrite (find_none _ _ E y Hy) in Hf.
Qed.

Lemma cancel_run (e : Env) (i : string) (db : DB) (a : Appointment) :
  find (whereId i) db = Some a -> status a = booked ->
  isPast e (date a) = false ->
  run (cancel e i) [] db
  = (mkResponse 200 (MessageBody "Appointment cancelled successfully"),
     updateWhereId (setCancelled (now e)) i db).
Proof.
  intros Ha Hb Hpast. unfold cancel. simpl. rewrite Ha, Hb. simpl.
  now rewrite Hpast.
Qed.

(** X7.  A cancelled slot cannot be booked again.  When the booked slot
    [a] is the only slot at its (doctor, date, time) and is cancelled, a
    later [book] request for that doctor, date and time is answered 400
    "Selected time slot is not available" and changes nothing: the route
    that cancels does not make the slot available again. *)
Theorem cancelled_slot_not_rebookable (e e' : Env) (db : DB)
  (a : Appointment) (req : BookRequest) (p : string) :
  primaryKey db -> In a db -> status a = booked ->
  isPast e (date a) = false ->
  (forall r, In r db -> doctorId r = doctorId a -> date r = date a ->
             time r = time a -> r = a) ->
  reqPatientId req = Some p -> reqDoctorId req = Some (doctorId a) ->
  reqDate req = Some (date a) -> reqTime req = Some (time a) ->
  p <> "" -> doctorId a <> "" -> date a <> "" -> time a <> "" ->
  isPast e' (date a) = false ->
  exists db',
    run (cancel e (id a)) [] db
    = (mkResponse 200 (MessageBody "Appointment cancelled successfully"),
       db')
    /\ run (book e' req) [] db'
       = (fail 400 "Selected time slot is not available", db').
Proof.
  intros Hk Ha Hb Hpast Hone Hp Hd Hdt Htm Np Nd Ndt Ntm Hpast'.
  eexists. split.
  { apply (cancel_run e (id a) db a);
      [now apply find_whereId | assumption | assumption]. }
  unfold book. rewrite (required_fields req p _ _ _ Hp Hd Hdt Htm)
    by assumption.
  rewrite Hd, Hdt, Htm. simpl valueOf. rewrite Hpast'. simpl.
  rewrite find_all_false; [reflexivity|].
  intros x Hx. apply in_update_cases in Hx.
  destruct Hx as [[Hx Ex]|(r & _ & _ & ->)].
  - destruct (whereSlot (doctorId a) (date a) (time a) x) eqn:E;
      [|reflexivity].
    apply whereSlot_true in E. destruct E as (E1 & E2 & E3 & _).
    rewrite (Hone x Hx E1 E2 E3), String.eqb_refl in Ex. discriminate.
  - unfold whereSlot. simpl. apply andb_false_r.
Qed.

(** X8.  A rescheduled booking frees its slot for others.  After a
    reschedule answered 200 of the booked slot [a], the only slot at its
    (doctor, date, time), a [book] request of another patient for that
    doctor, date and time is answered 201 and books [a]. *)
Theorem rescheduled_source_bookable (e e' : Env) (i : string)
  (req : PutRequest) (db : DB) (a t : Appointment)
  (reqQ : BookRequest) (q : string) :
  primaryKey db ->
  find (whereId i) db = Some a ->
  status a = booked ->
  truthy (putDate req) && isPast e (valueOf (putDate req)) = false ->
  find (whereSlot (orColumn (putDoctorId req) (doctorId a))
                  (orColumn (putDate req) (date a))
                  (orColumn (putTime req) (time a))) db = Some t ->
  (forall r, In r db ->
     wherePatientAt (patientId a) (orColumn (putDate req) (date a))
                    (orColumn (putTime req) (time a)) r = true ->
     r = a) ->
  (forall r, In r db -> doctorId r = doctorId a -> date r = date a ->
             time r = time a -> r = a) ->
  reqPatientId reqQ = Some q -> reqDoctorId reqQ = Some (doctorId a) ->
  reqDate reqQ = Some (date a) -> reqTime reqQ = Some (time a) ->
  q <> "" -> doctorId a <> "" -> date a <> "" -> time a <> "" ->
  isPast e' (date a) = false ->
  patientId a <> Some q ->
  find (wherePatientAt (Some q) (date a) (time a)) db = None ->
  exists db2 db3,
    run (reschedule e i req) [] db
    = (mkResponse 200
         (RescheduledBody "Appointment rescheduled successfully" (id t)),
       db2)
    /\ run (book e' reqQ) [] db2
       = (mkResponse 201
            (BookedBody "Appointment booked successfully"
               (Some (setBooked (Some q) (orNull (reqNotes reqQ))
                                (now e') a))), db3)
    /\ forall n, nth_error db n = Some a ->
         nth_error db3 n
         = Some (setBooked (Some q) (orNull (reqNotes reqQ)) (now e') a).
Proof.
  intros Hk Ha Hb Hdate Ht Hfree Hone Hq Hd Hdt Htm Nq Nd Ndt Ntm Hpast'
         Hpq Hqfree.
  destruct (reschedule_run e i req db a t Ha Hb Hdate Ht Hfree)
    as (Hrun & _).
  pose proof (target_not_source e i req db a t Hk Ha Hb Ht) as Hne.
  pose proof (whereId_id i db a Ha) as Hi.
  pose proof (find_some _ _ Ha) as [Hina _].
  set (db1 := updateWhereId (setAvailable (now e)) i db) in *.
  set (db2 := updateWhereId
                (setBooked (patientId a) (orElse (putNotes req) (notes a))
                           (now2 e)) (id t) db1) in *.
  assert (Hk2 : primaryKey db2)
    by (unfold db2, db1; repeat apply primaryKey_updateWhereId; auto).
  set (a' := setAvailable (now e) a).
  assert (Hin2 : In a' db2).
  { unfold db2, updateWhereId. apply in_map_iff. exists a'. split.
    - unfold a'. simpl. rewrite Hi.
      assert (E : (i =? id t) = false) by now rewrite String.eqb_sym.
      now rewrite E.
    - unfold db1, updateWhereId. apply in_map_iff. exists a.
      now rewrite Hi, String.eqb_refl. }
  assert (Hs2 : find (whereSlot (doctorId a) (date a) (time a)) db2
                = Some a').
  { apply find_unique; [assumption| |].
    - apply whereSlot_true. now unfold a'.
    - intros z Hz Hw. apply whereSlot_true in Hw.
      destruct Hw as (W1 & W2 & W3 & W4).
      apply in_update_cases in Hz.
      destruct Hz as [[Hz _]|(r & _ & _ & ->)]; [|discriminate W4].
      apply in_update_cases in Hz.
      destruct Hz as [[Hz Ez]|(r & Hr & Er & ->)].
      + rewrite (Hone z Hz W1 W2 W3), Hi, String.eqb_refl in Ez.
        discriminate.
      + simpl in W1, W2, W3. now rewrite (Hone r Hr W1 W2 W3). }
  assert (Hq2 : find (wherePatientAt (Some q) (date a) (time a)) db2
                = None).
  { apply find_all_false. intros z Hz.
    apply in_update_cases in Hz.
    destruct Hz as [[Hz _]|(r & _ & _ & ->)].
    - apply in_update_cases in Hz.
      destruct Hz as [[Hz _]|(r & _ & _ & ->)].
      + exact (find_none _ _ Hqfree z Hz).
      + unfold wherePatientAt. simpl.
        first [reflexivity | apply andb_false_r].
    - unfold wherePatientAt, patientIs. simpl.
      destruct (patientId a) as [pa|]; [|reflexivity].
      assert (E : (pa =? q) = false)
        by (apply String.eqb_neq; congruence).
      now rewrite E. }
  destruct (book_run e' reqQ db2 q (doctorId a) (date a) (time a) a'
              Hq Hd Hdt Htm Nq Nd Ndt Ntm Hpast' Hs2 Hq2) as [Hbook _].
  exists db2. eexists. split; [exact Hrun|]. split.
  - rewrite Hbook. rewrite find_updateWhereId by auto. reflexivity.
  - intros n Hn.
    destruct (freed_source e i req db a t Hk Ha Hb Ht n Hn) as [_ H2].
    fold db1 db2 in H2. rewrite nth_error_updateWhereId, H2. simpl.
    now rewrite String.eqb_refl.
Qed.

(** ** Rescheduling there and back *)

Lemma orColumn_some (x w : string) : x <> "" -> orColumn (Some x) w = x.
Proof.
  intro H. unfold orColumn. simpl. apply String.eqb_neq in H.
  now rewrite H.
Qed.

(** X9.  Moving a booking to another slot and back restores it.  The
    booked slot [a], the only slot at its (doctor, date, time) and its
    patient's only booking at that time, is rescheduled to the available
    slot [t] with no new notes, and the new appointment is rescheduled
    to the doctor, date and time of [a].  Both requests are answered
    200; afterwards [a] is booked for its patient with its notes, [t] is
    available with no patient and no notes, every other row is as it
    was, and of the columns of [a] only [updatedAt] has changed. *)
Theorem reschedule_round_trip (e1 e2 : Env) (i : string) (req : PutRequest)
  (db : DB) (a t : Appointment) :
  primaryKey db ->
  find (whereId i) db = Some a ->
  status a = booked ->
  truthy (putDate req) && isPast e1 (valueOf (putDate req)) = false ->
  find (whereSlot (orColumn (putDoctorId req) (doctorId a))
                  (orColumn (putDate req) (date a))
                  (orColumn (putTime req) (time a))) db = Some t ->
  (forall r, In r db ->
     wherePatientAt (patientId a) (orColumn (putDate req) (date a))
                    (orColumn (putTime req) (time a)) r = true ->
     r = a) ->
  truthy (putNotes req) = false ->
  (forall r, In r db -> doctorId r = doctorId a -> date r = date a ->
             time r = time a -> r = a) ->
  (forall r, In r db ->
     wherePatientAt (patientId a) (date a) (time a) r = true -> r = a) ->
  doctorId a <> "" -> date a <> "" -> time a <> "" ->
  isPast e2 (date a) = false ->
  exists db2 db4,
    run (reschedule e1 i req) [] db
    = (mkResponse 200
         (RescheduledBody "Appointment rescheduled successfully" (id t)),
       db2)
    /\ run (reschedule e2 (id t)
              (mkPutRequest (Some (doctorId a)) (Some (date a))
                            (Some (time a)) None)) [] db2
       = (mkResponse 200
            (RescheduledBody "Appointment rescheduled successfully" (id a)),
          db4)
    /\ (forall n, nth_error db n = Some a ->
          nth_error db4 n
          = Some (mkAppointment (id a) (patientId a) (doctorId a) (date a)
                    (time a) (status a) (notes a) (createdAt a) (now2 e2)))
    /\ (forall n, nth_error db n = Some t ->
          nth_error db4 n = Some (setAvailable (now e2) t))
    /\ (forall n r, nth_error db n = Some r -> r <> a -> r <> t ->
          nth_error db4 n = Some r).
Proof.
  intros Hk Ha Hb Hdate Ht Hfree Hnotes Hone Honly Nd Ndt Ntm Hpast2.
  destruct (reschedule_run e1 i req db a t Ha Hb Hdate Ht Hfree)
    as (Hrun & _).
  pose proof (target_not_source e1 i req db a t Hk Ha Hb Ht) as Hne.
  pose proof (whereId_id i db a Ha) as Hi.
  pose proof (find_some _ _ Ha) as [Hina _].
  pose proof (find_some _ _ Ht) as [Hint _].
  assert (Hne' : (i =? id t) = false) by now rewrite String.eqb_sym.
  set (db1 := updateWhereId (setAvailable (now e1)) i db) in *.
  set (set2 := setBooked (patientId a) (orElse (putNotes req) (notes a))
                         (now2 e1)) in *.
  set (db2 := updateWhereId set2 (id t) db1) in *.
  set (a' := setAvailable (now e1) a).
  set (t' := set2 t).
  set (back := mkPutRequest (Some (doctorId a)) (Some (date a))
                            (Some (time a)) None).
  assert (Hk1 : primaryKey db1)
    by (unfold db1; apply primaryKey_updateWhereId; auto).
  assert (Hk2 : primaryKey db2)
    by (unfold db2; apply primaryKey_updateWhereId; auto).
  assert (Hint1 : In t db1).
  { unfold db1, updateWhereId. apply in_map_iff. exists t. now rewrite Hne. }
  assert (Hin2 : In a' db2).
  { unfold db2, updateWhereId. apply in_map_iff. exists a'. split.
    - unfold a'. simpl. now rewrite Hi, Hne'.
    - unfold db1, updateWhereId. apply in_map_iff. exists a.
      now rewrite Hi, String.eqb_refl. }
  assert (Hsrc2 : find (whereId (id t)) db2 = Some t')
    by (unfold db2, t'; apply find_updateWhereId; auto).
  assert (Hdate2 : truthy (putDate back)
                   && isPast e2 (valueOf (putDate back)) = false)
    by (simpl; rewrite Hpast2; apply andb_false_r).
  assert (Htgt2 : find (whereSlot (orColumn (putDoctorId back) (doctorId t'))
                                  (orColumn (putDate back) (date t'))
                                  (orColumn (putTime back) (time t')))
                       db2 = Some a').
  { unfold back. simpl putDoctorId. simpl putDate. simpl putTime.
    rewrite !orColumn_some by assumption.
    apply find_unique; [assumption| |].
    - apply whereSlot_true. now unfold a'.
    - intros z Hz Hw. apply whereSlot_true in Hw.
      destruct Hw as (W1 & W2 & W3 & W4).
      apply in_update_cases in Hz.
      destruct Hz as [[Hz _]|(r & _ & _ & ->)]; [|discriminate W4].
      apply in_update_cases in Hz.
      destruct Hz as [[Hz Ez]|(r & Hr & Er & ->)].
      + rewrite (Hone z Hz W1 W2 W3), Hi, String.eqb_refl in Ez.
        discriminate.
      + simpl in W1, W2, W3. now rewrite (Hone r Hr W1 W2 W3). }
  assert (Hfree2 : forall r, In r db2 ->
            wherePatientAt (patientId t')
              (orColumn (putDate back) (date t'))
              (orColumn (putTime back) (time t')) r = true -> r = t').
  { unfold back. simpl putDate. simpl putTime.
    rewrite !orColumn_some by assumption.
    intros r Hr Hw. change (patientId t') with (patientId a) in Hw.
    apply in_update_cases in Hr.
    destruct Hr as [[Hr Er]|(r0 & Hr0 & E0 & ->)].
    - apply in_update_cases in Hr.
      destruct Hr as [[Hr Ei]|(r0 & _ & _ & ->)].
      + rewrite (Honly r Hr Hw), Hi, String.eqb_refl in Ei. discriminate.
      + unfold wherePatientAt in Hw. simpl in Hw.
        rewrite ?andb_false_r in Hw. discriminate.
    - unfold t'. f_equal. now apply (primaryKey_inj db1). }
  destruct (reschedule_run e2 (id t) back db2 t' a'
              Hsrc2 eq_refl Hdate2 Htgt2 Hfree2) as (Hrun2 & _).
  exists db2. eexists. split; [exact Hrun|]. split; [exact Hrun2|].
  split; [|split].
  - intros n Hn.
    destruct (freed_source e1 i req db a t Hk Ha Hb Ht n Hn) as [_ H2].
    fold db1 set2 db2 a' in H2.
    destruct (claimed_target e2 (id t) back db2 t' a'
                Hk2 Hsrc2 eq_refl Htgt2 n H2) as [_ H4].
    rewrite H4. unfold t', set2, a', orElse. simpl.
    now rewrite Hnotes, Hb.
  - intros n Hn.
    destruct (claimed_target e1 i req db a t Hk Ha Hb Ht n Hn) as [_ H2].
    fold db1 set2 db2 t' in H2.
    destruct (freed_source e2 (id t) back db2 t' a'
                Hk2 Hsrc2 eq_refl Htgt2 n H2) as [_ H4].
    rewrite H4. reflexivity.
  - intros n r Hn Hra Hrt.
    destruct (untouched_rows e1 i req db a t Hk Ha Ht n r Hn Hra Hrt)
      as [_ H2].
    fold db1 set2 db2 in H2.
    assert (Hr : In r db) by (eapply nth_error_In; eauto).
    destruct (untouched_rows e2 (id t) back db2 t' a'
                Hk2 Hsrc2 Htgt2 n r H2) as [_ H4]; [| |exact H4].
    + intro E. apply Hrt. apply (primaryKey_inj db); auto.
      now rewrite E.
    + intro E. apply Hra. apply (primaryKey_inj db); auto.
      now rewrite E.
Qed.

(** ** Routing *)

Lemma upcoming_matches_id (path : list string)
  (ps : list (string * string)) :
  matchPath [Lit "upcoming"] path = Some ps ->
  matchPath [Param "id"] path <> None.
Proof.
  destruct path as [|x [|y l]]; cbn [matchPath]; try discriminate.
  - destruct (lowerCase x =? lowerCase "upcoming") eqn:E; [|discriminate].
    destruct (x =? "") eqn:E0; [|discriminate].
    apply String.eqb_eq in E0. subst x. vm_compute in E. discriminate E.
  - destruct (lowerCase x =? lowerCase "upcoming"); discriminate.
Qed.

(** X10.  The handler registered for [GET /upcoming] is never run.
    Whatever the method and the path of a request, the router does not
    hand it to that handler: a request for [/upcoming] is taken by the
    route [/:id], registered before it, with the text "upcoming" as the
    id. *)
Theorem upcoming_is_shadowed (m : Method) (path : list string) :
  (forall r ps, dispatch appointmentRoutes m path = Some (r, ps) ->
                r <> Upcoming)
  /\ (forall x, lowerCase x = "upcoming" ->
        dispatch appointmentRoutes GET [x] = Some (GetById, [("id", x)])).
Proof.
  split.
  - intros r ps H E. subst r. unfold appointmentRoutes in H.
    destruct m; cbn [dispatch Method_eqb] in H;
      repeat match type of H with
      | context [match matchPath ?pat ?pth with _ => _ end] =>
          destruct (matchPath pat pth) eqn:?; try discriminate H
      end; try discriminate H.
    now apply (upcoming_matches_id path l).
  - intros x Hx. unfold appointmentRoutes.
    cbn [dispatch Method_eqb matchPath].
    destruct (x =? "") eqn:E0; [|reflexivity].
    apply String.eqb_eq in E0. subst x. discriminate Hx.
Qed.

(** X11.  Which requests of the front-end service reach a handler.  The
    requests of [cancelAppointment], [updateAppointment] and
    [getAvailableTimeSlots] reach the handlers that cancel, reschedule
    and list slots.  The requests of [rescheduleAppointment],
    [deleteAppointment] and [getDoctorAppointments] match no route of the
    router: its only [POST] route is the root, and it has no [DELETE]
    route.  The requests of [getUpcomingAppointments] and
    [getPastAppointments] are taken by [GET /:id], which answers 404
    "Appointment not found" unless a slot has "upcoming" or "past" for
    its id. *)
Theorem frontend_requests_routed (st : Store) (i : string) :
  i <> "" ->
  dispatch appointmentRoutes (fst (cancelAppointmentCall i))
           (snd (cancelAppointmentCall i)) = Some (Cancel, [("id", i)])
  /\ dispatch appointmentRoutes (fst (updateAppointmentCall i))
              (snd (updateAppointmentCall i))
     = Some (Reschedule, [("id", i)])
  /\ dispatch appointmentRoutes (fst getAvailableTimeSlotsCall)
              (snd getAvailableTimeSlotsCall) = Some (SlotsAvailable, [])
  /\ dispatch appointmentRoutes (fst (rescheduleAppointmentCall i))
              (snd (rescheduleAppointmentCall i)) = None
  /\ dispatch appointmentRoutes (fst (deleteAppointmentCall i))
              (snd (deleteAppointmentCall i)) = None
  /\ dispatch appointmentRoutes (fst (getDoctorAppointmentsCall i))
              (snd (getDoctorAppointmentsCall i)) = None
  /\ (forall path r ps,
        dispatch appointmentRoutes POST path = Some (r, ps) ->
        path = [] /\ r = Book)
  /\ (forall path, dispatch appointmentRoutes DELETE path = None)
  /\ dispatch appointmentRoutes (fst getUpcomingAppointmentsCall)
              (snd getUpcomingAppointmentsCall)
     = Some (GetById, [("id", "upcoming")])
  /\ dispatch appointmentRoutes (fst getPastAppointmentsCall)
              (snd getPastAppointmentsCall)
     = Some (GetById, [("id", "past")])
  /\ (forall x, (forall a, In a (appointments st) -> id a <> x) ->
        getById st false x = mkReply 404 (ErrorReply "Appointment not found")).
Proof.
  intro Ni. apply String.eqb_neq in Ni.
  repeat match goal with |- _ /\ _ => split end; try reflexivity.
  - unfold appointmentRoutes. cbn. now rewrite Ni.
  - unfold appointmentRoutes. cbn. now rewrite Ni.
  - intros path r ps H. unfold appointmentRoutes in H.
    cbn [dispatch Method_eqb] in H.
    destruct path; cbn in H; [now injection H as <- _ | discriminate].
  - intros x Hx. unfold getById.
    rewrite find_all_false; [reflexivity|].
    intros r Hr. apply in_flat_map in Hr. destruct Hr as (a & Ha & Hr).
    unfold joinPatientDoctor in Hr. apply in_flat_map in Hr.
    destruct Hr as (p & _ & Hr). apply in_map_iff in Hr.
    destruct Hr as (d & <- & _). simpl. apply String.eqb_neq.
    now apply Hx.
Qed.

(** ** The read routes *)

Lemma insertBy_perm {A : Type} (le : A -> A -> bool) (x : A) (l : list A) :
  Permutation (insertBy le x l) (x :: l).
Proof.
  induction l as [|y l IH]; simpl; [apply Permutation_refl|].
  destruct (le x y); [apply Permutation_refl|].
  eapply perm_trans; [apply perm_skip, IH | apply perm_swap].
Qed.

Lemma sortBy_perm {A : Type} (le : A -> A -> bool) (l : list A) :
  Permutation (sortBy le l) l.
Proof.
  induction l as [|x l IH]; simpl; [constructor|].
  eapply perm_trans; [apply insertBy_perm | now apply perm_skip].
Qed.

Section SortBy.

Variable A : Type.
Variable le : A -> A -> bool.
Hypothesis le_total : forall x y, le x y = true \/ le y x = true.
Hypothesis le_trans :
  forall x y z, le x y = true -> le y z = true -> le x z = true.

Lemma insertBy_sorted (x : A) (l : list A) :
  StronglySorted (fun a b => le a b = true) l ->
  StronglySorted (fun a b => le a b = true) (insertBy le x l).
Proof.
  induction l as [|y l IH]; simpl; intro Hs.
  - repeat constructor.
  - inversion Hs as [|? ? Hl Hy]; subst.
    destruct (le x y) eqn:E.
    + constructor; [assumption|]. constructor; [exact E|].
      rewrite Forall_forall in *. intros z Hz.
      eapply le_trans; [exact E | now apply Hy].
    + constructor; [now apply IH|].
      rewrite Forall_forall in *. intros z Hz.
      apply (Permutation_in _ (insertBy_perm le x l)) in Hz.
      destruct Hz as [<-|Hz]; [|now apply Hy].
      destruct (le_total y x); congruence.
Qed.

Lemma sortBy_sorted (l : list A) :
  StronglySorted (fun a b => le a b = true) (sortBy le l).
Proof.
  induction l as [|x l IH]; simpl; [constructor|].
  now apply insertBy_sorted.
Qed.

End SortBy.

Lemma String_compare_refl (a : string) : String.compare a a = Eq.
Proof.
  induction a as [|x a IH]; simpl; [reflexivity|].
  unfold Ascii.compare. now rewrite N.compare_refl.
Qed.

Lemma String_compare_lt_trans (a b c : string) :
  String.compare a b = Lt -> String.compare b c = Lt ->
  String.compare a c = Lt.
Proof.
  revert b c.
  induction a as [|x a IH]; intros [|y b] [|z c]; simpl; try easy.
  unfold Ascii.compare.
  destruct (N.compare_spec (N_of_ascii x) (N_of_ascii y)) as [E1|E1|E1];
  destruct (N.compare_spec (N_of_ascii y) (N_of_ascii z)) as [E2|E2|E2];
  destruct (N.compare_spec (N_of_ascii x) (N_of_ascii z)) as [E3|E3|E3];
  try lia; try easy.
  apply IH.
Qed.

Lemma String_ltb_lt (a b : string) :
  String.ltb a b = true <-> String.compare a b = Lt.
Proof.
  unfold String.ltb. destruct (String.compare a b); split; congruence.
Qed.

Lemma dateDescTimeAsc_total (x y : AppointmentRow) :
  dateDescTimeAsc x y = true \/ dateDescTimeAsc y x = true.
Proof.
  unfold dateDescTimeAsc.
  set (a := rowAppointment x). set (b := rowAppointment y).
  destruct (String.compare (date a) (date b)) eqn:E.
  - apply String.compare_eq_iff in E. rewrite E, String.eqb_refl.
    unfold String.ltb. rewrite String_compare_refl. simpl.
    apply String.leb_total.
  - right. apply orb_true_iff. left. now apply String_ltb_lt.
  - left. apply orb_true_iff. left. apply String_ltb_lt.
    rewrite String.compare_antisym, E. reflexivity.
Qed.

Lemma dateDescTimeAsc_trans (x y z : AppointmentRow) :
  dateDescTimeAsc x y = true -> dateDescTimeAsc y z = true ->
  dateDescTimeAsc x z = true.
Proof.
  unfold dateDescTimeAsc.
  set (a := rowAppointment x). set (b := rowAppointment y).
  set (c := rowAppointment z).
  rewrite !orb_true_iff, !andb_true_iff, !String.eqb_eq, !String_ltb_lt.
  intros [H1|[H1 T1]] [H2|[H2 T2]].
  - left. eapply String_compare_lt_trans; eauto.
  - left. now rewrite <- H2.
  - left. now rewrite H1.
  - right. split; [congruence|]. eapply String_leb_trans; eauto.
Qed.

Lemma leftJoin_key {B : Type} (key : B -> string) (f : B -> bool)
  (l : list B) :
  NoDup (map key l) ->
  (forall x y, f x = true -> f y = true -> key x = key y) ->
  leftJoin (filter f l) = [find f l].
Proof.
  intros Hk Hf. induction l as [|x l IH]; simpl; [reflexivity|].
  inversion Hk as [|? ? Hnot Hl]; subst.
  destruct (f x) eqn:E; [|now apply IH].
  assert (Hnone : filter f l = []).
  { destruct (filter f l) as [|y l'] eqn:El; [reflexivity|].
    assert (Hy : In y (filter f l)) by (rewrite El; now left).
    apply filter_In in Hy. destruct Hy as [Hy Fy].
    exfalso. apply Hnot. rewrite (Hf x y E Fy). now apply in_map. }
  now rewrite Hnone.
Qed.

Lemma joinPatientDoctor_one (st : Store) (a : Appointment) :
  NoDup (map patId (patients st)) -> NoDup (map docId (doctors st)) ->
  joinPatientDoctor st a
  = [mkAppointmentRow a (find (onPatient a) (patients st))
                        (find (onDoctor a) (doctors st))].
Proof.
  intros Hp Hd. unfold joinPatientDoctor.
  rewrite (leftJoin_key patId), (leftJoin_key docId); try assumption.
  - reflexivity.
  - unfold onDoctor. intros x y Hx Hy.
    apply String.eqb_eq in Hx, Hy. congruence.
  - unfold onPatient. intros x y Hx Hy.
    destruct (patientId a); [|discriminate].
    apply String.eqb_eq in Hx, Hy. congruence.
Qed.

Lemma joinDoctor_one (st : Store) (a : Appointment) :
  NoDup (map docId (doctors st)) ->
  joinDoctor st a
  = [mkAppointmentRow a None (find (onDoctor a) (doctors st))].
Proof.
  intros Hd. unfold joinDoctor.
  rewrite (leftJoin_key docId); try assumption; [reflexivity|].
  unfold onDoctor. intros x y Hx Hy.
  apply String.eqb_eq in Hx, Hy. congruence.
Qed.

Lemma flat_map_singleton {A B : Type} (f : A -> list B) (g : A -> B)
  (l : list A) :
  (forall a, f a = [g a]) -> flat_map f l = map g l.
Proof.
  intro H. induction l as [|x l IH]; simpl; [reflexivity|].
  now rewrite H, IH.
Qed.

(** X12.  With [id] a primary key of [patients] and of [doctors],
    [GET /] answers 200 with exactly one row for every appointment of
    the table, booked or not, in descending order of date and, within a
    date, ascending order of time.  The patient columns of a row are
    those of the patient the slot names, and NULL when it names none or
    one that is not in the table; likewise for the doctor columns.  When
    the store reports an error the answer is 500. *)
Theorem listAll_rows (st : Store) :
  NoDup (map patId (patients st)) -> NoDup (map docId (doctors st)) ->
  (exists rows,
     listAll st false = mkReply 200 (RowsReply rows)
     /\ Permutation (map rowAppointment rows) (appointments st)
     /\ StronglySorted byDateDescTimeAsc rows
     /\ forall r, In r rows ->
          rowPatient r = find (onPatient (rowAppointment r)) (patients st)
          /\ rowDoctor r = find (onDoctor (rowAppointment r)) (doctors st)
          /\ (patientId (rowAppointment r) = None -> patientName r = None))
  /\ listAll st true
     = mkReply 500 (ErrorReply "Failed to fetch appointments").
Proof.
  intros Hp Hd. split; [|reflexivity].
  eexists. split; [reflexivity|].
  rewrite (flat_map_singleton _
             (fun a => mkAppointmentRow a (find (onPatient a) (patients st))
                                          (find (onDoctor a) (doctors st))))
    by (intro a; now apply joinPatientDoctor_one).
  split; [|split].
  - eapply perm_trans; [apply Permutation_map, sortBy_perm|].
    rewrite map_map. simpl. rewrite map_id. apply Permutation_refl.
  - apply sortBy_sorted;
      [apply dateDescTimeAsc_total | apply dateDescTimeAsc_trans].
  - intros r Hr. apply (Permutation_in _ (sortBy_perm _ _)) in Hr.
    apply in_map_iff in Hr. destruct Hr as (a & <- & _). simpl.
    repeat split. intro Hn. unfold patientName. simpl.
    assert (E : find (onPatient a) (patients st) = None).
    { apply find_all_false. intros x _. unfold onPatient. now rewrite Hn. }
    now rewrite E.
Qed.

Lemma filter_split {A : Type} (g f : A -> bool) (l : list A) :
  Permutation (filter (fun a => g a && f a) l
               ++ filter (fun a => g a && negb (f a)) l)
              (filter g l).
Proof.
  induction l as [|x l IH]; simpl; [constructor|].
  destruct (g x), (f x); simpl; try assumption.
  - now apply perm_skip.
  - apply Permutation_sym. eapply perm_trans;
      [apply perm_skip, Permutation_sym, IH | apply Permutation_middle].
Qed.

(** X13.  With [id] a primary key of [doctors], the route that lists a
    patient's appointments answers 200 with exactly one row for every
    appointment of the table that names the patient and passes the
    filters of the request, in descending order of date and ascending
    order of time.  Every row names the patient.  With a status given,
    every row has that status, and for a text that is no status of the
    table the list is empty.  With [past=true] every row is dated
    before today (UTC), with [past=false] none is. *)
Theorem patientAppointments_rows (st : Store) (pid : string)
  (qStatus qPast : option string) (todayUtc : string) :
  NoDup (map docId (doctors st)) ->
  exists rows,
    patientAppointments st false pid qStatus qPast todayUtc
    = mkReply 200 (RowsReply rows)
    /\ Permutation (map rowAppointment rows)
         (filter (wherePatientFilter pid qStatus qPast todayUtc)
                 (appointments st))
    /\ StronglySorted byDateDescTimeAsc rows
    /\ (forall r, In r rows ->
          In (rowAppointment r) (appointments st)
          /\ patientId (rowAppointment r) = Some pid
          /\ (truthy qStatus = true ->
              statusName (status (rowAppointment r)) = valueOf qStatus)
          /\ (qPast = Some "true" ->
              String.ltb (date (rowAppointment r)) todayUtc = true)
          /\ (qPast = Some "false" ->
              String.ltb (date (rowAppointment r)) todayUtc = false))
    /\ (truthy qStatus = true ->
        (forall s, statusName s <> valueOf qStatus) -> rows = []).
Proof.
  intros Hd. eexists. split; [reflexivity|].
  rewrite (flat_map_singleton _
             (fun a => mkAppointmentRow a None
                         (find (onDoctor a) (doctors st))))
    by (intro a; now apply joinDoctor_one).
  split; [|split; [|split]].
  - eapply perm_trans; [apply Permutation_map, sortBy_perm|].
    rewrite map_map. simpl. rewrite map_id. apply Permutation_refl.
  - apply sortBy_sorted;
      [apply dateDescTimeAsc_total | apply dateDescTimeAsc_trans].
  - intros r Hr. apply (Permutation_in _ (sortBy_perm _ _)) in Hr.
    apply in_map_iff in Hr. destruct Hr as (a & <- & Ha). simpl.
    apply filter_In in Ha. destruct Ha as [Ha Hw].
    unfold wherePatientFilter in Hw.
    apply andb_true_iff in Hw. destruct Hw as [Hw Hpast].
    apply andb_true_iff in Hw. destruct Hw as [Hpid Hstatus].
    split; [assumption|]. split.
    { destruct (patientId a) as [x|]; [|discriminate].
      apply String.eqb_eq in Hpid. now subst. }
    split.
    { intro Hq. rewrite Hq in Hstatus. now apply String.eqb_eq. }
    split.
    + intros ->. exact Hpast.
    + intros ->. now apply negb_true_iff.
  - intros Hq Hno.
    assert (E : filter (wherePatientFilter pid qStatus qPast todayUtc)
                       (appointments st) = []).
    { induction (appointments st) as [|a l IH]; simpl; [reflexivity|].
      unfold wherePatientFilter at 1. rewrite Hq.
      assert (F : (statusName (status a) =? valueOf qStatus) = false)
        by (apply String.eqb_neq, Hno).
      rewrite F, andb_false_r. simpl. exact IH. }
    now rewrite E.
Qed.

(** X14.  The filter [past] of the route that lists a patient's
    appointments splits the list in two: the rows answered with
    [past=true] and those answered with [past=false] are together, up to
    their order, the rows answered with no [past]; and any other text
    for [past] is ignored. *)
Theorem patientAppointments_past_split (st : Store) (pid : string)
  (qStatus : option string) (todayUtc : string) :
  Permutation
    (replyRows (patientAppointments st false pid qStatus (Some "true")
                                    todayUtc)
     ++ replyRows (patientAppointments st false pid qStatus (Some "false")
                                       todayUtc))
    (replyRows (patientAppointments st false pid qStatus None todayUtc))
  /\ forall x, x <> "true" -> x <> "false" ->
       patientAppointments st false pid qStatus (Some x) todayUtc
       = patientAppointments st false pid qStatus None todayUtc.
Proof.
  split.
  - unfold patientAppointments, replyRows. simpl.
    eapply perm_trans;
      [apply Permutation_app; apply sortBy_perm|].
    eapply perm_trans; [|apply Permutation_sym, sortBy_perm].
    rewrite <- flat_map_app. apply Permutation_flat_map.
    set (g := fun a : Appointment =>
                match patientId a with Some x => x =? pid | None => false end
                && (if truthy qStatus
                    then statusName (status a) =? valueOf qStatus
                    else true)).
    set (f := fun a : Appointment => String.ltb (date a) todayUtc).
    rewrite (filter_ext _ (fun a => g a && f a)) by reflexivity.
    rewrite (filter_ext (wherePatientFilter pid qStatus (Some "false")
                                            todayUtc)
                        (fun a => g a && negb (f a))) by reflexivity.
    rewrite (filter_ext (wherePatientFilter pid qStatus None todayUtc) g)
      by (intro a; unfold wherePatientFilter, g; apply andb_true_r).
    apply filter_split.
  - intros x H1 H2. unfold patientAppointments.
    rewrite (filter_ext (wherePatientFilter pid qStatus (Some x) todayUtc)
                        (wherePatientFilter pid qStatus None todayUtc));
      [reflexivity|].
    intro a. unfold wherePatientFilter.
    apply String.eqb_neq in H1, H2. now rewrite H1, H2.
Qed.

(** ** Creating a patient *)

Lemma existsb_false_find {A : Type} (f : A -> bool) (l : list A) :
  existsb f l = false <-> find f l = None.
Proof.
  induction l as [|x l IH]; simpl; [tauto|].
  destruct (f x); simpl; [split; discriminate | exact IH].
Qed.

Lemma insertPatient_keyed (p : Patient) (tbl tbl' : list Patient) :
  insertPatient p tbl = Some tbl' ->
  tbl' = tbl ++ [p]
  /\ (patientsKeyed tbl -> patientsKeyed tbl').
Proof.
  unfold insertPatient.
  destruct (existsb (fun x => patId x =? patId p) tbl) eqn:E1;
    [discriminate|].
  destruct (existsb (fun x => patEmail x =? patEmail p) tbl) eqn:E2;
    [discriminate|].
  simpl. intros [= <-]. split; [reflexivity|].
  intros [Hi He]. unfold patientsKeyed. rewrite !map_app. simpl.
  split; apply NoDup_app; try assumption;
    try (repeat constructor; simpl; tauto).
  - intros x Hx [<-|[]]. apply in_map_iff in Hx.
    destruct Hx as (y & Ey & Hy).
    apply existsb_false_find in E1.
    pose proof (find_none _ _ E1 y Hy) as F. simpl in F.
    rewrite Ey, String.eqb_refl in F. discriminate.
  - intros x Hx [<-|[]]. apply in_map_iff in Hx.
    destruct Hx as (y & Ey & Hy).
    apply existsb_false_find in E2.
    pose proof (find_none _ _ E2 y Hy) as F. simpl in F.
    rewrite Ey, String.eqb_refl in F. discriminate.
Qed.

Ltac pat_cases :=
  repeat (simpl in *;
    match goal with
    | |- context [hd false ?f] => destruct f as [|[|] ?]
    | |- context [match find ?q ?l with _ => _ end] =>
        destruct (find q l) eqn:?
    | |- context [match insertPatient ?p ?l with _ => _ end] =>
        destruct (insertPatient p l) eqn:?
    | |- context [if ?c then _ else _] => destruct c eqn:?
    end).

(** X15.  [POST /] of the patients' router.  A request without a name
    or without an email is answered 400 and reads nothing.  A request
    whose email a patient of the table already has is answered 400
    "Email already exists".  A request with a name, an email that no
    patient has and an id that no patient has is answered 201 with the
    new row, which is added at the end of the table with the name and
    the email of the request and with NULL for every other field that is
    absent or empty.  Whenever the answer is 400 the table is unchanged,
    and under any errors of the store the table only grows at its end
    and keeps [id] and [email] free of duplicates. *)
Theorem createPatient_contract (uuid stamp : string) (req : PatientRequest)
  (tbl : list Patient) :
  (truthy (reqName req) = false \/ truthy (reqEmail req) = false ->
   createPatient uuid stamp req
   = PatRespond (patFail 400 "Missing required fields: name, email"))
  /\ (forall x, truthy (reqName req) = true -> truthy (reqEmail req) = true ->
        In x tbl -> patEmail x = valueOf (reqEmail req) ->
        patRun (createPatient uuid stamp req) [] tbl
        = (patFail 400 "Email already exists", tbl))
  /\ (truthy (reqName req) = true -> truthy (reqEmail req) = true ->
      (forall x, In x tbl -> patEmail x <> valueOf (reqEmail req)) ->
      (forall x, In x tbl -> patId x <> uuid) ->
      patRun (createPatient uuid stamp req) [] tbl
      = (mkPatientResponse 201
           (PatientCreated "Patient created successfully"
              (Some (newPatient uuid stamp req))),
         tbl ++ [newPatient uuid stamp req]))
  /\ (forall faults r tbl',
        patRun (createPatient uuid stamp req) faults tbl = (r, tbl') ->
        (patCode r = 400 -> tbl' = tbl)
        /\ extends tbl tbl'
        /\ (patientsKeyed tbl -> patientsKeyed tbl')).
Proof.
  repeat match goal with |- _ /\ _ => split end.
  - intros [H|H]; unfold createPatient; rewrite H; simpl;
      [reflexivity | now rewrite orb_true_r].
  - intros x Hn He Hx Hem. unfold createPatient. rewrite Hn, He. simpl.
    destruct (find_exists (fun y => patEmail y =? valueOf (reqEmail req))
                tbl x Hx) as [y ->]; [|reflexivity].
    rewrite Hem. apply String.eqb_refl.
  - intros Hn He Hfresh Hid. unfold createPatient. rewrite Hn, He. simpl.
    rewrite find_all_false
      by (intros x Hx; apply String.eqb_neq; now apply Hfresh).
    simpl. fold (newPatient uuid stamp req).
    assert (Hins : insertPatient (newPatient uuid stamp req) tbl
                   = Some (tbl ++ [newPatient uuid stamp req])).
    { unfold insertPatient.
      assert (E1 : existsb (fun x => patId x =? patId (newPatient uuid stamp req))
                           tbl = false).
      { apply existsb_false_find, find_all_false. intros x Hx.
        apply String.eqb_neq. now apply Hid. }
      assert (E2 : existsb (fun x => patEmail x
                                     =? patEmail (newPatient uuid stamp req))
                           tbl = false).
      { apply existsb_false_find, find_all_false. intros x Hx.
        apply String.eqb_neq. now apply Hfresh. }
      now rewrite E1, E2. }
    rewrite Hins. simpl. do 2 f_equal. f_equal.
    assert (Hnone : find (fun x => patId x =? uuid) tbl = None).
    { apply find_all_false. intros x Hx. apply String.eqb_neq.
      now apply Hid. }
    clear Hins. induction tbl as [|y l IH]; simpl.
    + now rewrite String.eqb_refl.
    + simpl in Hnone. destruct (patId y =? uuid); [discriminate|].
      apply IH; try assumption; intros x Hx;
        [apply Hfresh | apply Hid]; now right.
  - intros faults r tbl'. unfold createPatient.
    fold (newPatient uuid stamp req).
    pat_cases; intros [= <- <-]; simpl;
      repeat match goal with
      | H : insertPatient _ _ = Some _ |- _ =>
          apply insertPatient_keyed in H; destruct H as [-> ?]
      end;
      (split; [intro; (reflexivity || discriminate)|]);
      (split; [first [now exists [] ; rewrite app_nil_r
                     | eexists; reflexivity]|]); auto.
Qed.

(** *** Two requests for one email *)

Section PatCaller.

Variables (uuid stamp : string) (req : PatientRequest).
Variable tbl : list Patient.

Hypothesis Hname : truthy (reqName req) = true.
Hypothesis Hemail : truthy (reqEmail req) = true.
Hypothesis Hfresh :
  find (fun x => patEmail x =? valueOf (reqEmail req)) tbl = None.
Hypothesis Hins :
  insertPatient (newPatient uuid stamp req) tbl
  = Some (tbl ++ [newPatient uuid stamp req]).

Let c1 := fst (patStep (createPatient uuid stamp req) tbl).
Let c2 := fst (patStep c1 tbl).

Lemma pat_start_free (tbl' : list Patient) :
  find (fun x => patEmail x =? valueOf (reqEmail req)) tbl' = None ->
  patStep (createPatient uuid stamp req) tbl' = (c1, tbl').
Proof.
  intro H. unfold c1, createPatient. rewrite Hname, Hemail. simpl.
  now rewrite H, Hfresh.
Qed.

Lemma pat_start_taken (tbl' : list Patient) (x : Patient) :
  find (fun x => patEmail x =? valueOf (reqEmail req)) tbl' = Some x ->
  patStep (createPatient uuid stamp req) tbl'
  = (PatRespond (patFail 400 "Email already exists"), tbl').
Proof.
  intro H. unfold createPatient. rewrite Hname, Hemail. simpl.
  now rewrite H.
Qed.

Lemma pat_checked_ok (tbl' tbl'' : list Patient) :
  insertPatient (newPatient uuid stamp req) tbl' = Some tbl'' ->
  patStep c1 tbl' = (c2, tbl'').
Proof.
  intro H. unfold c2, c1, createPatient. rewrite Hname, Hemail. simpl.
  rewrite Hfresh. simpl. fold (newPatient uuid stamp req).
  now rewrite H, Hins.
Qed.

Lemma pat_checked_refused (tbl' : list Patient) :
  insertPatient (newPatient uuid stamp req) tbl' = None ->
  patStep c1 tbl'
  = (PatRespond (patFail 500 "Failed to create patient"), tbl').
Proof.
  intro H. unfold c1, createPatient. rewrite Hname, Hemail. simpl.
  rewrite Hfresh. simpl. fold (newPatient uuid stamp req).
  now rewrite H.
Qed.

Lemma pat_inserted (tbl' : list Patient) :
  patStep c2 tbl'
  = (PatRespond (mkPatientResponse 201
       (PatientCreated "Patient created successfully"
          (find (fun x => patId x =? uuid) tbl'))), tbl').
Proof.
  unfold c2, c1, createPatient. rewrite Hname, Hemail. simpl.
  rewrite Hfresh. simpl. fold (newPatient uuid stamp req).
  now rewrite Hins.
Qed.

End PatCaller.

Lemma patValid_schedule1 (who : bool) (c : PatConfig) :
  patValid c = true -> patValid (patSchedule1 who c) = true.
Proof.
  destruct c as [[sa sb] log].
  destruct who, sa, sb, log as [|[|] [|? ?]]; simpl;
    try discriminate; reflexivity.
Qed.

Lemma patValid_stages (sched : list bool) (c : PatConfig) :
  patValid c = true -> patValid (patStages sched c) = true.
Proof.
  revert c. induction sched as [|w sched IH]; simpl; intros c H;
    [assumption|].
  now apply IH, patValid_schedule1.
Qed.

Lemma patStages_app (s1 s2 : list bool) (c : PatConfig) :
  patStages (s1 ++ s2) c = patStages s2 (patStages s1 c).
Proof.
  revert c. induction s1 as [|w s1 IH]; simpl; intro c; [reflexivity|].
  apply IH.
Qed.

Lemma patSettled_finishing (c : PatConfig) :
  patValid c = true -> patSettled (patStages patFinishing c) = true.
Proof.
  destruct c as [[sa sb] log].
  destruct sa, sb, log as [|[|] [|? ?]]; simpl;
    try discriminate; reflexivity.
Qed.

Lemma patRun_step (p : PatientProg) (tbl : list Patient) :
  patRun p [] tbl = patRun (fst (patStep p tbl)) [] (snd (patStep p tbl)).
Proof.
  destruct p as [r|q k|u k]; simpl; try reflexivity.
  destruct (u tbl); reflexivity.
Qed.

Lemma patInterleave_app (s1 s2 : list bool) (a b : PatientProg)
  (tbl : list Patient) :
  patInterleave (s1 ++ s2) a b tbl
  = let '(a', b', tbl') := patInterleave s1 a b tbl in
    patInterleave s2 a' b' tbl'.
Proof.
  revert a b tbl. induction s1 as [|[|] s1 IH]; simpl; intros a b tbl.
  - reflexivity.
  - destruct (patStep a tbl) as [a' tbl']. apply IH.
  - destruct (patStep b tbl) as [b' tbl']. apply IH.
Qed.

Lemma patConcurrent_finishing (sched : list bool) (a b : PatientProg)
  (tbl : list Patient) (ra rb : PatientResponse) (tbl' : list Patient) :
  patInterleave (sched ++ patFinishing) a b tbl
  = (PatRespond ra, PatRespond rb, tbl') ->
  patConcurrent sched a b tbl = (ra, rb, tbl').
Proof.
  unfold patConcurrent. rewrite patInterleave_app.
  destruct (patInterleave sched a b tbl) as [[a0 b0] x0].
  unfold patFinishing. simpl.
  rewrite (patRun_step a0 x0). destruct (patStep a0 x0) as [a1 x1]. simpl.
  rewrite (patRun_step a1 x1). destruct (patStep a1 x1) as [a2 x2]. simpl.
  rewrite (patRun_step a2 x2). destruct (patStep a2 x2) as [a3 x3]. simpl.
  destruct (patStep b0 x3) as [b1 y1] eqn:E1.
  destruct (patStep b1 y1) as [b2 y2] eqn:E2.
  destruct (patStep b2 y2) as [b3 y3] eqn:E3.
  intros [= -> -> ->]. simpl.
  rewrite (patRun_step b0 x3), E1. simpl.
  rewrite (patRun_step b1 y1), E2. simpl.
  rewrite (patRun_step b2 y2), E3. reflexivity.
Qed.

Lemma find_app_last {A : Type} (f : A -> bool) (l : list A) (x : A) :
  f x = true -> exists y, find f (l ++ [x]) = Some y.
Proof.
  intro H. apply (find_exists f (l ++ [x]) x); [|assumption].
  apply in_or_app. right. now left.
Qed.

Section PatRace.

Variables (uuid1 uuid2 stamp1 stamp2 : string).
Variables (req1 req2 : PatientRequest) (tbl : list Patient).

Hypothesis Hname1 : truthy (reqName req1) = true.
Hypothesis Hname2 : truthy (reqName req2) = true.
Hypothesis Hemail1 : truthy (reqEmail req1) = true.
Hypothesis Hsame : reqEmail req2 = reqEmail req1.
Hypothesis Hfresh :
  forall x, In x tbl -> patEmail x <> valueOf (reqEmail req1).
Hypothesis Hid1 : forall x, In x tbl -> patId x <> uuid1.
Hypothesis Hid2 : forall x, In x tbl -> patId x <> uuid2.

Let p1 := newPatient uuid1 stamp1 req1.
Let p2 := newPatient uuid2 stamp2 req2.

Lemma pat_email_free :
  find (fun x => patEmail x =? valueOf (reqEmail req1)) tbl = None.
Proof.
  apply find_all_false. intros x Hx. apply String.eqb_neq. now apply Hfresh.
Qed.

Lemma pat_insert_first (uuid stamp : string) (req : PatientRequest) :
  reqEmail req = reqEmail req1 ->
  (forall x, In x tbl -> patId x <> uuid) ->
  insertPatient (newPatient uuid stamp req) tbl
  = Some (tbl ++ [newPatient uuid stamp req]).
Proof.
  intros He Hid. unfold insertPatient.
  assert (E1 : existsb (fun x => patId x =? patId (newPatient uuid stamp req))
                       tbl = false).
  { apply existsb_false_find, find_all_false. intros x Hx.
    apply String.eqb_neq. now apply Hid. }
  assert (E2 : existsb (fun x => patEmail x
                                 =? patEmail (newPatient uuid stamp req))
                       tbl = false).
  { apply existsb_false_find, find_all_false. intros x Hx.
    apply String.eqb_neq. simpl. rewrite He. now apply Hfresh. }
  now rewrite E1, E2.
Qed.

Lemma pat_insert_second (p q : Patient) :
  patEmail p = patEmail q -> insertPatient p (tbl ++ [q]) = None.
Proof.
  intro He. unfold insertPatient.
  assert (E : existsb (fun x => patEmail x =? patEmail p) (tbl ++ [q])
              = true).
  { rewrite existsb_app. simpl. rewrite He, String.eqb_refl.
    now rewrite orb_true_r. }
  now rewrite E, orb_true_r.
Qed.

Lemma pat_race_step (who : bool) (sa sb : PatStage) (log : list bool)
  (a b : PatientProg) :
  patValid (sa, sb, log) = true ->
  patAtStage uuid1 stamp1 req1 tbl sa a ->
  patAtStage uuid2 stamp2 req2 tbl sb b ->
  exists a' b',
    patInterleave [who] a b (patTableAfter p1 p2 log tbl)
    = (a', b',
       patTableAfter p1 p2 (snd (patSchedule1 who (sa, sb, log))) tbl)
    /\ patAtStage uuid1 stamp1 req1 tbl
         (fst (fst (patSchedule1 who (sa, sb, log)))) a'
    /\ patAtStage uuid2 stamp2 req2 tbl
         (snd (fst (patSchedule1 who (sa, sb, log)))) b'.
Proof.
  intros Hv Ha Hb.
  assert (Hemail2 : truthy (reqEmail req2) = true) by now rewrite Hsame.
  pose proof pat_email_free as F0.
  assert (F0' : find (fun x => patEmail x =? valueOf (reqEmail req2)) tbl
                = None) by now rewrite Hsame.
  pose proof (pat_insert_first uuid1 stamp1 req1 eq_refl Hid1) as I1.
  pose proof (pat_insert_first uuid2 stamp2 req2 Hsame Hid2) as I2.
  fold p1 in I1. fold p2 in I2.
  assert (E12 : patEmail p1 = patEmail p2)
    by (unfold p1, p2; simpl; now rewrite Hsame).
  assert (J1 : insertPatient p1 (tbl ++ [p2]) = None)
    by (apply pat_insert_second; assumption).
  assert (J2 : insertPatient p2 (tbl ++ [p1]) = None)
    by (apply pat_insert_second; now symmetry).
  destruct (find_app_last (fun x => patEmail x =? valueOf (reqEmail req1))
              tbl p2) as [y2 G2].
  { unfold p2. simpl. rewrite Hsame. apply String.eqb_refl. }
  destruct (find_app_last (fun x => patEmail x =? valueOf (reqEmail req2))
              tbl p1) as [y1 G1].
  { unfold p1. simpl. rewrite Hsame. apply String.eqb_refl. }
  destruct who, sa, sb, log as [|[|] [|? ?]];
    simpl in Hv; try discriminate Hv;
    simpl in Ha, Hb; unfold patTableAfter; simpl;
    repeat match goal with
    | H : exists _, _ |- _ => destruct H as [? H]
    end; subst a b.
  all: try (erewrite (pat_start_free uuid1 stamp1 req1 tbl) by eassumption).
  all: try (erewrite (pat_start_free uuid2 stamp2 req2 tbl) by eassumption).
  all: try (erewrite (pat_start_taken uuid1 stamp1 req1) by eassumption).
  all: try (erewrite (pat_start_taken uuid2 stamp2 req2) by eassumption).
  all: try (erewrite (pat_checked_ok uuid1 stamp1 req1 tbl) by eassumption).
  all: try (erewrite (pat_checked_ok uuid2 stamp2 req2 tbl) by eassumption).
  all: try (erewrite (pat_checked_refused uuid1 stamp1 req1 tbl)
              by eassumption).
  all: try (erewrite (pat_checked_refused uuid2 stamp2 req2 tbl)
              by eassumption).
  all: try (erewrite (pat_inserted uuid1 stamp1 req1 tbl) by eassumption).
  all: try (erewrite (pat_inserted uuid2 stamp2 req2 tbl) by eassumption).
  all: do 2 eexists; split; [reflexivity|]; split; simpl; eauto.
Qed.

Lemma pat_race_steps (sched : list bool) (c : PatConfig)
  (a b : PatientProg) :
  patValid c = true ->
  patAtStage uuid1 stamp1 req1 tbl (fst (fst c)) a ->
  patAtStage uuid2 stamp2 req2 tbl (snd (fst c)) b ->
  exists a' b',
    patInterleave sched a b (patTableAfter p1 p2 (snd c) tbl)
    = (a', b', patTableAfter p1 p2 (snd (patStages sched c)) tbl)
    /\ patAtStage uuid1 stamp1 req1 tbl (fst (fst (patStages sched c))) a'
    /\ patAtStage uuid2 stamp2 req2 tbl (snd (fst (patStages sched c))) b'.
Proof.
  revert c a b. induction sched as [|w sched IH]; intros c a b Hv Ha Hb.
  - exists a, b. simpl. auto.
  - destruct c as [[sa sb] log].
    destruct (pat_race_step w sa sb log a b Hv Ha Hb)
      as (a1 & b1 & Hstep & Ha1 & Hb1).
    assert (Hv1 := patValid_schedule1 w (sa, sb, log) Hv).
    destruct (IH (patSchedule1 w (sa, sb, log)) a1 b1 Hv1 Ha1 Hb1)
      as (a' & b' & Hrest & Ha' & Hb').
    exists a', b'. split; [|now split].
    change (w :: sched) with ([w] ++ sched).
    rewrite patInterleave_app. simpl snd.
    rewrite Hstep. exact Hrest.
Qed.

Lemma pat_race_outcome (sched : list bool) :
  exists ra rb tbl',
    patConcurrent sched (createPatient uuid1 stamp1 req1)
                  (createPatient uuid2 stamp2 req2) tbl = (ra, rb, tbl')
    /\ ((patCode ra = 201
         /\ (rb = patFail 400 "Email already exists"
             \/ rb = patFail 500 "Failed to create patient")
         /\ tbl' = tbl ++ [p1])
        \/ (patCode rb = 201
            /\ (ra = patFail 400 "Email already exists"
                \/ ra = patFail 500 "Failed to create patient")
            /\ tbl' = tbl ++ [p2])).
Proof.
  destruct (pat_race_steps (sched ++ patFinishing)
              (PatStart, PatStart, [])
              (createPatient uuid1 stamp1 req1)
              (createPatient uuid2 stamp2 req2) eq_refl eq_refl eq_refl)
    as (a' & b' & Hi & Ha & Hb).
  assert (Hset : patSettled (patStages (sched ++ patFinishing)
                               (PatStart, PatStart, [])) = true).
  { rewrite patStages_app. apply patSettled_finishing.
    now apply patValid_stages. }
  destruct (patStages (sched ++ patFinishing) (PatStart, PatStart, []))
    as [[sa sb] log].
  simpl in Hi, Ha, Hb, Hset.
  destruct log as [|[|] [|? ?]]; try discriminate Hset;
    destruct sa; try discriminate Hset;
    destruct sb; try discriminate Hset;
    simpl in Ha, Hb;
    repeat match goal with
    | H : exists _, _ |- _ => destruct H as [? H]
    end; subst a' b';
    apply patConcurrent_finishing in Hi;
    do 3 eexists; (split; [exact Hi|]); simpl;
    first [left; repeat split; auto; fail
          | right; repeat split; auto].
Qed.

End PatRace.

(** X16.  Two requests to create a patient with the same email, an
    email that no patient of the table has, are in flight together.  In
    every interleaving of their statements exactly one is answered 201
    and its row is the one row added to the table; the other is answered
    400 "Email already exists" when its read of the email follows the
    insert, and 500 "Failed to create patient" when the table refuses
    its insert.  The table never holds the email twice. *)
Theorem createPatient_same_email_race (uuid1 uuid2 stamp1 stamp2 : string)
  (req1 req2 : PatientRequest) (tbl : list Patient) (sched : list bool) :
  truthy (reqName req1) = true -> truthy (reqName req2) = true ->
  truthy (reqEmail req1) = true -> reqEmail req2 = reqEmail req1 ->
  (forall x, In x tbl -> patEmail x <> valueOf (reqEmail req1)) ->
  (forall x, In x tbl -> patId x <> uuid1) ->
  (forall x, In x tbl -> patId x <> uuid2) ->
  exists ra rb tbl',
    patConcurrent sched (createPatient uuid1 stamp1 req1)
                  (createPatient uuid2 stamp2 req2) tbl = (ra, rb, tbl')
    /\ ((patCode ra = 201
         /\ (rb = patFail 400 "Email already exists"
             \/ rb = patFail 500 "Failed to create patient")
         /\ tbl' = tbl ++ [newPatient uuid1 stamp1 req1])
        \/ (patCode rb = 201
            /\ (ra = patFail 400 "Email already exists"
                \/ ra = patFail 500 "Failed to create patient")
            /\ tbl' = tbl ++ [newPatient uuid2 stamp2 req2])).
Proof.
  intros. now apply pat_race_outcome.
Qed.

(** ** The sample slots *)

Lemma forEach_inv {A St : Type} (P : nat -> St -> Prop)
  (f : A -> nat -> St -> option St) (l : list A) (i : nat) (s : St) :
  P i s ->
  (forall k x s0, nth_error l k = Some x -> P (i + k) s0 ->
     exists s1, f x (i + k) s0 = Some s1 /\ P (S (i + k)) s1) ->
  exists s', forEach f l i s = Some s' /\ P (i + List.length l) s'.
Proof.
  revert i s. induction l as [|x l IH]; simpl; intros i s H0 Hstep.
  - exists s. now rewrite Nat.add_0_r.
  - destruct (Hstep 0 x s eq_refl) as (s1 & E & H1);
      [now rewrite Nat.add_0_r|].
    rewrite Nat.add_0_r in E, H1. rewrite E.
    destruct (IH (S i) s1 H1) as (s' & E' & H').
    + intros k y s0 Hy Hs0. rewrite Nat.add_succ_comm in Hs0.
      destruct (Hstep (S k) y s0 Hy Hs0) as (s2 & E2 & H2).
      exists s2. now rewrite Nat.add_succ_comm.
    + exists s'. now rewrite <- Nat.add_succ_comm.
Qed.

Lemma pickPatient_inUnit (r : Draw) :
  inUnit r -> exists p, pickPatient r = Some p /\ In p samplePatientIds.
Proof.
  destruct r as [n d].
  unfold inUnit, QArith_base.Qle, QArith_base.Qlt. simpl. intros [H0 H1].
  unfold pickPatient. simpl List.length.
  set (k := Qround.Qfloor _).
  assert (Hk : (0 <= k < 2)%Z).
  { subst k. unfold QArith_base.Qmult, Qround.Qfloor. simpl.
    rewrite Pos.mul_1_r. split.
    - apply Z.div_pos; lia.
    - apply Z.div_lt_upper_bound; lia. }
  destruct (Z.ltb_spec k 0); [lia|].
  assert (Hc : (k = 0 \/ k = 1)%Z) by lia.
  destruct Hc as [-> | ->]; simpl; eauto.
Qed.

Lemma sample_index (d t : nat) (doctor time : string) :
  nth_error sampleDoctorIds d = Some doctor ->
  nth_error timeSlots t = Some time ->
  nth_error sampleKeys (6 * d + t) = Some (appointmentId d t, doctor, time).
Proof.
  intros Hd Ht.
  destruct d as [|[|[|d]]]; simpl in Hd; try (destruct d; discriminate Hd);
    injection Hd as <-;
    destruct t as [|[|[|[|[|[|t]]]]]]; simpl in Ht;
    try (destruct t; discriminate Ht);
    injection Ht as <-; reflexivity.
Qed.

Lemma sampleSlot_row (rnd : nat -> Draw) (tomorrow : string)
  (stamp : nat -> nat -> string) (d t : nat) (doctor time : string)
  (n : nat) :
  (forall m, inUnit (rnd m)) ->
  nth_error sampleDoctorIds d = Some doctor ->
  nth_error timeSlots t = Some time ->
  exists r m,
    sampleSlot rnd tomorrow stamp doctor d time t n = Some (r, m)
    /\ sampleKey r = (appointmentId d t, doctor, time)
    /\ sampleRow tomorrow r.
Proof.
  intros Hr Hd Ht.
  assert (Hin : In (appointmentId d t, doctor, time) sampleKeys)
    by (eapply nth_error_In, sample_index; eassumption).
  unfold sampleSlot.
  destruct (negb (QArith_base.Qle_bool (rnd n) threshold)).
  - destruct (pickPatient_inUnit (rnd (S n)) (Hr (S n))) as (p & -> & Hp).
    do 2 eexists. split; [reflexivity|]. split; [reflexivity|].
    unfold sampleRow. simpl. repeat split; try assumption. right. eauto.
  - do 2 eexists. split; [reflexivity|]. split; [reflexivity|].
    unfold sampleRow. simpl. repeat split; try assumption. left. auto.
Qed.

Lemma insertOrIgnore_keyed (r : Appointment) (db : DB) :
  primaryKey db -> primaryKey (insertOrIgnore r db).
Proof.
  unfold insertOrIgnore, primaryKey. intro H.
  destruct (existsb (fun x => id x =? id r) db) eqn:E; [assumption|].
  rewrite map_app. simpl.
  apply NoDup_app; [assumption | repeat constructor; intros [] | ].
  intros i Hi [<- | []].
  apply in_map_iff in Hi. destruct Hi as (x & Hx & Hin).
  assert (E' : existsb (fun x => id x =? id r) db = true).
  { apply existsb_exists. exists x. split; [assumption|].
    now apply String.eqb_eq. }
  congruence.
Qed.

Lemma insertOrIgnore_present (r : Appointment) (db : DB) :
  In (id r) (map id db) -> insertOrIgnore r db = db.
Proof.
  intro H. unfold insertOrIgnore.
  apply in_map_iff in H. destruct H as (x & Hx & Hin).
  assert (E : existsb (fun x => id x =? id r) db = true).
  { apply existsb_exists. exists x. split; [assumption|].
    now apply String.eqb_eq. }
  now rewrite E.
Qed.

Lemma insertOrIgnore_cases (r : Appointment) (db : DB) :
  insertOrIgnore r db = db \/ insertOrIgnore r db = db ++ [r].
Proof.
  unfold insertOrIgnore. destruct (existsb _ db); auto.
Qed.

Lemma seedSlot_cases (rnd : nat -> Draw) (tomorrow : string)
  (stamp : nat -> nat -> string) (d t : nat) (doctor time : string)
  (s : SeedState) :
  (forall m, inUnit (rnd m)) ->
  nth_error sampleDoctorIds d = Some doctor ->
  nth_error timeSlots t = Some time ->
  exists r s',
    seedSlot rnd tomorrow stamp doctor d time t s = Some s'
    /\ sampleKey r = (appointmentId d t, doctor, time)
    /\ sampleRow tomorrow r
    /\ ((seeded s' = seeded s /\ exists f, failures s = f :: failures s')
        \/ (seeded s' = insertOrIgnore r (seeded s)
            /\ (failures s = false :: failures s'
                \/ (failures s = [] /\ failures s' = [])))).
Proof.
  intros Hr Hd Ht.
  destruct (sampleSlot_row rnd tomorrow stamp d t doctor time (drawn s)
              Hr Hd Ht) as (r & m & E & Hk & Hrow).
  exists r. unfold seedSlot. rewrite E.
  destruct (failures s) as [|[|] fs]; eexists; (split; [reflexivity|]);
    (split; [assumption|]); (split; [assumption|]); simpl; eauto.
Qed.

Section SampleLoops.

Variables (rnd : nat -> Draw) (tomorrow : string).
Variable stamp : nat -> nat -> string.
Hypothesis Hrnd : forall m, inUnit (rnd m).

(** A property of the state after a number of turns that every turn
    carries on to the next. *)
Variable Inv : nat -> SeedState -> Prop.
Hypothesis Hturn :
  forall d t doctor time s s',
    nth_error sampleDoctorIds d = Some doctor ->
    nth_error timeSlots t = Some time ->
    Inv (6 * d + t) s ->
    seedSlot rnd tomorrow stamp doctor d time t s = Some s' ->
    Inv (S (6 * d + t)) s'.

Lemma sample_loops (faults : list bool) (db : DB) :
  Inv 0 (mkSeedState 0 faults db) ->
  exists s,
    forEach (fun doctor doctorIndex =>
               forEach (seedSlot rnd tomorrow stamp doctor doctorIndex)
                       timeSlots 0)
            sampleDoctorIds 0 (mkSeedState 0 faults db) = Some s
    /\ Inv 18 s.
Proof.
  intro H0.
  destruct (forEach_inv (fun d => Inv (6 * d))
              (fun doctor doctorIndex =>
                 forEach (seedSlot rnd tomorrow stamp doctor doctorIndex)
                         timeSlots 0)
              sampleDoctorIds 0 (mkSeedState 0 faults db) H0)
    as (s & E & Hs).
  - intros d doctor s0 Hd Hs0. cbn [Nat.add] in *.
    destruct (forEach_inv (fun t => Inv (6 * d + t))
                (seedSlot rnd tomorrow stamp doctor d) timeSlots 0 s0)
      as (s1 & E1 & Hs1).
    + now rewrite Nat.add_0_r.
    + intros t time s1 Ht Hs1. cbn [Nat.add] in *.
      destruct (seedSlot_cases rnd tomorrow stamp d t doctor time s1
                  Hrnd Hd Ht) as (r & s2 & E2 & _).
      exists s2. split; [assumption|].
      rewrite Nat.add_succ_r. eapply Hturn; eassumption.
    + exists s1. split; [assumption|].
      replace (6 * S d) with (6 * d + (0 + List.length timeSlots))
        by (simpl; lia).
      assumption.
  - exists s. now split.
Qed.

End SampleLoops.

Lemma sample_ids_distinct : NoDup (map (fun k => fst (fst k)) sampleKeys).
Proof. repeat constructor; simpl; intuition discriminate. Qed.

Lemma nth_not_before {A : Type} (l : list A) (k : nat) (x : A) :
  NoDup l -> nth_error l k = Some x -> ~ In x (firstn k l).
Proof.
  revert k. induction l as [|y l IH]; intros [|k] Hn Hx; simpl in *;
    try discriminate; auto.
  inversion Hn as [|? ? Hy Hl]; subst. intros [-> | Hin].
  - apply Hy. eapply nth_error_In; eassumption.
  - now apply (IH k Hl Hx).
Qed.

Lemma firstn_next {A : Type} (l : list A) (k : nat) (x : A) :
  nth_error l k = Some x -> firstn (S k) l = firstn k l ++ [x].
Proof.
  revert k. induction l as [|y l IH]; intros [|k] Hx; simpl in *;
    try discriminate.
  - now injection Hx as ->.
  - f_equal. now apply IH.
Qed.

Lemma insert_next (r : Appointment) (db : DB) (k : nat) :
  map sampleKey db = firstn k sampleKeys ->
  nth_error sampleKeys k = Some (sampleKey r) ->
  insertOrIgnore r db = db ++ [r]
  /\ map sampleKey (db ++ [r]) = firstn (S k) sampleKeys.
Proof.
  intros Hdb Hk. split.
  - unfold insertOrIgnore.
    destruct (existsb (fun x => id x =? id r) db) eqn:E; [|reflexivity].
    exfalso. apply existsb_exists in E. destruct E as (x & Hx & Hid).
    apply String.eqb_eq in Hid.
    apply (nth_not_before (map (fun k => fst (fst k)) sampleKeys) k (id r)
             sample_ids_distinct).
    + rewrite nth_error_map, Hk. reflexivity.
    + rewrite firstn_map, <- Hdb, map_map. simpl.
      rewrite <- Hid. now apply (in_map id).
  - rewrite map_app, Hdb. cbn [map]. symmetry. now apply firstn_next.
Qed.

Lemma sampleRow_consistent (tomorrow : string) (r : Appointment) :
  sampleRow tomorrow r ->
  claimConsistent r = true /\ bookedIffPatient r = true.
Proof.
  unfold sampleRow, claimConsistent, bookedIffPatient.
  intros (_ & _ & _ & [[-> ->] | (-> & p & -> & _)]); split; reflexivity.
Qed.

(** X17.  The sample slots are put with [INSERT OR IGNORE]: whatever the
    table holds, whatever values [Math.random()] gives and whichever of
    the inserts the store fails, the loops end normally, the rows the
    table had are kept as they were and in their order, and [id] stays a
    key.  Each row added is one of the eighteen sample slots (its [id],
    doctor and time), is dated [tomorrow], has no notes, and is either
    available with no patient or booked with one of the two sample
    patients. *)
Theorem sample_slots_added (rnd : nat -> Draw) (tomorrow : string)
  (stamp : nat -> nat -> string) (faults : list bool) (db : DB) :
  (forall m, inUnit (rnd m)) -> primaryKey db ->
  exists new,
    insertSampleSlots rnd tomorrow stamp faults db = Some (db ++ new)
    /\ primaryKey (db ++ new)
    /\ (forall r, In r new ->
          sampleRow tomorrow r
          /\ claimConsistent r = true /\ bookedIffPatient r = true).
Proof.
  intros Hrnd Hkey.
  destruct (sample_loops rnd tomorrow stamp Hrnd
              (fun _ s => exists new,
                   seeded s = db ++ new
                   /\ primaryKey (db ++ new)
                   /\ Forall (sampleRow tomorrow) new)) with (faults := faults) (db := db)
    as (s & E & new & Hs & Hk & Hrows).
  - intros d t doctor time s s' Hd Ht (new & Hs & Hk & Hrows) E.
    destruct (seedSlot_cases rnd tomorrow stamp d t doctor time s
                Hrnd Hd Ht) as (r & s2 & E2 & _ & Hrow & Hcases).
    rewrite E in E2. injection E2 as <-.
    destruct Hcases as [[-> _] | [-> _]].
    + exists new. auto.
    + destruct (insertOrIgnore_cases r (seeded s)) as [-> | Hi].
      * exists new. auto.
      * exists (new ++ [r]). rewrite Hi, Hs, <- app_assoc.
        split; [reflexivity|]. split.
        -- rewrite app_assoc, <- Hs, <- Hi.
           apply insertOrIgnore_keyed. now rewrite Hs.
        -- apply Forall_app. split; [assumption|]. now constructor.
  - exists []. rewrite app_nil_r. simpl. auto.
  - exists new. unfold insertSampleSlots. rewrite E. simpl. rewrite Hs.
    split; [reflexivity|]. split; [assumption|].
    intros r Hr. rewrite Forall_forall in Hrows.
    split; [now apply Hrows|]. eapply sampleRow_consistent. now apply Hrows.
Qed.

(** X18.  When the table already has the eighteen [id]s of the sample
    slots (as it does at every start of the server after the first),
    the loops leave the table exactly as it is, whatever its rows hold
    by then, whatever [Math.random()] gives and whichever inserts the
    store fails: no slot is reset and none is added for a later day. *)
Theorem sample_slots_once (rnd : nat -> Draw) (tomorrow : string)
  (stamp : nat -> nat -> string) (faults : list bool) (db : DB) :
  (forall m, inUnit (rnd m)) ->
  (forall k, In k sampleKeys -> In (fst (fst k)) (map id db)) ->
  insertSampleSlots rnd tomorrow stamp faults db = Some db.
Proof.
  intros Hrnd Hall.
  destruct (sample_loops rnd tomorrow stamp Hrnd
              (fun _ s => seeded s = db)) with (faults := faults) (db := db)
    as (s & E & Hs).
  - intros d t doctor time s s' Hd Ht Hs E.
    destruct (seedSlot_cases rnd tomorrow stamp d t doctor time s
                Hrnd Hd Ht) as (r & s2 & E2 & Hkey & _ & Hcases).
    rewrite E in E2. injection E2 as <-.
    destruct Hcases as [[-> _] | [-> _]]; [assumption|].
    rewrite Hs. apply insertOrIgnore_present.
    assert (Hin : In (sampleKey r) sampleKeys).
    { rewrite Hkey. eapply nth_error_In, sample_index; eassumption. }
    exact (Hall _ Hin).
  - reflexivity.
  - unfold insertSampleSlots. rewrite E. simpl. now rewrite Hs.
Qed.

(** X19.  On an empty table and with no error of the store, the loops
    leave eighteen rows, whatever [Math.random()] gives: one slot for
    each of the three doctors at each of the six times, in the order of
    the loops, with the [id]s [apt-1-1] to [apt-3-6]. *)
Theorem sample_slots_fresh (rnd : nat -> Draw) (tomorrow : string)
  (stamp : nat -> nat -> string) :
  (forall m, inUnit (rnd m)) ->
  exists db,
    insertSampleSlots rnd tomorrow stamp [] [] = Some db
    /\ map sampleKey db = sampleKeys.
Proof.
  intro Hrnd.
  destruct (sample_loops rnd tomorrow stamp Hrnd
              (fun k s => failures s = []
                          /\ map sampleKey (seeded s) = firstn k sampleKeys))
    with (faults := @nil bool) (db := @nil Appointment)
    as (s & E & _ & Hs).
  - intros d t doctor time s s' Hd Ht [Hf Hs] E.
    destruct (seedSlot_cases rnd tomorrow stamp d t doctor time s
                Hrnd Hd Ht) as (r & s2 & E2 & Hkey & _ & Hcases).
    rewrite E in E2. injection E2 as <-.
    rewrite Hf in Hcases.
    destruct Hcases as [[_ [f H]] | [-> [H | [_ ->]]]]; try discriminate.
    split; [reflexivity|].
    destruct (insert_next r (seeded s) (6 * d + t) Hs) as [-> Hn];
      [|assumption].
    rewrite Hkey. now apply sample_index.
  - split; reflexivity.
  - exists (seeded s). unfold insertSampleSlots. rewrite E. simpl.
    split; [reflexivity|]. exact Hs.
Qed.





(** ** The date guard and the zone of the server *)

Lemma own_day_past (nowMs tz : Z) (stamp stamp2 s : string) :
  isoDate s = Some (localDay nowMs tz * msPerDay)%Z ->
  isPast (serverEnv nowMs tz stamp stamp2) s = (tz <? 0)%Z.
Proof.
  intro Hs. unfold isPast, serverEnv. simpl. rewrite Hs.
  unfold localMidnight, msPerDay.
  destruct (Z.ltb_spec tz 0); [apply Z.ltb_lt | apply Z.ltb_ge]; lia.
Qed.

Lemma isoDate_not_empty (s : string) (t : Z) :
  isoDate s = Some t -> truthy (Some s) = true.
Proof.
  destruct s; [discriminate | reflexivity].
Qed.

(** X21.  The routes compare [new Date(date)], which is midnight UTC of
    the date, with midnight of the server's local day.  So the local day
    of the server itself counts as past exactly when the server's zone is
    behind UTC.  On such a server, under any store errors, a booking for
    today is answered 400 "Cannot book appointments in the past", the
    slots of today are answered 400 "Cannot view slots for past dates",
    and a booked appointment of today cannot be cancelled; the table is
    unchanged each time. *)
Theorem own_day_refused_behind_utc (nowMs tz : Z) (stamp stamp2 s : string)
  (req : BookRequest) (d : option string) (i : string) (a : Appointment)
  (faults : list bool) (db : DB) :
  isoDate s = Some (localDay nowMs tz * msPerDay)%Z ->
  (isPast (serverEnv nowMs tz stamp stamp2) s = true <-> (tz < 0)%Z)
  /\ ((tz < 0)%Z ->
      (truthy (reqPatientId req) = true -> truthy (reqDoctorId req) = true ->
       truthy (reqTime req) = true -> reqDate req = Some s ->
       run (book (serverEnv nowMs tz stamp stamp2) req) faults db
       = (fail 400 "Cannot book appointments in the past", db))
      /\ (truthy d = true ->
          run (availableSlots (serverEnv nowMs tz stamp stamp2) d (Some s))
              faults db
          = (fail 400 "Cannot view slots for past dates", db))
      /\ (find (whereId i) db = Some a -> status a = booked -> date a = s ->
          run (cancel (serverEnv nowMs tz stamp stamp2) i) [] db
          = (fail 400 "Cannot cancel past appointments", db))).
Proof.
  intro Hs. pose proof (own_day_past nowMs tz stamp stamp2 s Hs) as Hp.
  pose proof (isoDate_not_empty s _ Hs) as Ht.
  split.
  - rewrite Hp. apply Z.ltb_lt.
  - intro Htz. apply Z.ltb_lt in Htz. rewrite Htz in Hp.
    split; [|split].
    + intros Hp1 Hd1 Ht1 Hd. unfold book.
      rewrite Hp1, Hd1, Ht1, Hd, Ht. simpl negb. simpl orb. cbv iota.
      simpl valueOf. rewrite Hp. reflexivity.
    + intro Hd. unfold availableSlots. rewrite Hd, Ht. simpl negb.
      simpl orb. cbv iota. simpl valueOf. rewrite Hp. reflexivity.
    + intros Ha Hb Hdate. unfold cancel. simpl. rewrite Ha, Hb. simpl.
      rewrite Hdate, Hp. reflexivity.
Qed.

(** * The further properties at concrete requests *)

(** [terminal_slots_untouched] at the cancelled [S1] of [dbC], under a
    request to book it again. *)
Lemma terminal_slots_untouched_witness :
  primaryKey dbC
  /\ nth_error dbC 0 = Some S1C
  /\ isTerminal S1C = true
  /\ nth_error (snd (run (handle (PostAppointment env0 bookS1B)) [] dbC)) 0
     = Some S1C.
Proof.
  split; [exact primaryKey_dbC|]. split; [reflexivity|].
  split; [reflexivity|].
  apply (terminal_slots_untouched (PostAppointment env0 bookS1B) [] dbC 0
           S1C primaryKey_dbC); reflexivity.
Defined.

(** [bookings_counted] at patient B booking [S2] in [dbA]. *)
Lemma bookings_counted_witness :
  primaryKey dbA
  /\ code (fst (run (book env0 bookS2B) [] dbA)) = 201
  /\ countStatus booked (snd (run (book env0 bookS2B) [] dbA))
     = S (countStatus booked dbA)
  /\ S (countStatus available (snd (run (book env0 bookS2B) [] dbA)))
     = countStatus available dbA.
Proof.
  split; [exact primaryKey_dbA|]. split; [reflexivity|].
  destruct (bookings_counted env0 dbA []
              (fst (run (book env0 bookS2B) [] dbA))
              (snd (run (book env0 bookS2B) [] dbA)) primaryKey_dbA)
    as [Hbook _].
  destruct (Hbook bookS2B) as (H1 & H2 & _); [reflexivity|reflexivity|].
  split; assumption.
Defined.

Lemma noDoubleBooking_dbA : noDoubleBooking dbA.
Proof.
  intros r1 r2 p H1 H2 B1 B2 _ _ _ _. simpl in H1, H2.
  destruct H1 as [<- | [<- | [<- | []]]]; try discriminate B1;
    destruct H2 as [<- | [<- | [<- | []]]]; try discriminate B2;
    reflexivity.
Qed.

(** [no_double_booking_kept] at patient A asking for [S3], at the date
    and time of the booking of [S1]. *)
Lemma no_double_booking_kept_witness :
  primaryKey dbA /\ noDoubleBooking dbA
  /\ noDoubleBooking
       (snd (run (handle (PostAppointment env0 bookS3A)) [] dbA)).
Proof.
  split; [exact primaryKey_dbA|]. split; [exact noDoubleBooking_dbA|].
  exact (no_double_booking_kept (PostAppointment env0 bookS3A) [] dbA
           primaryKey_dbA noDoubleBooking_dbA).
Defined.

(** [reschedule_failures] at an id that no row has. *)
Lemma reschedule_failures_witness :
  (forall r, In r dbA -> id r <> "S9")
  /\ run (reschedule env0 "S9" moveToS2) [] dbA
     = (fail 404 "Appointment not found", dbA).
Proof.
  assert (H : forall r, In r dbA -> id r <> "S9").
  { intros r [<- | [<- | [<- | []]]]; discriminate. }
  split; [exact H|].
  exact (proj1 (reschedule_failures env0 "S9" moveToS2 dbA) H).
Defined.

Lemma S1A_alone :
  forall r, In r dbA -> doctorId r = doctorId S1A -> date r = date S1A ->
            time r = time S1A -> r = S1A.
Proof.
  intros r [<- | [<- | [<- | []]]] Hd Hdt Ht;
    try reflexivity; discriminate.
Qed.

(** [put_on_own_slot_rejected] at the edit of the notes of [S1]. *)
Lemma put_on_own_slot_rejected_witness :
  find (whereId "S1") dbA = Some S1A
  /\ orColumn (putDoctorId editNotesS1) (doctorId S1A) = doctorId S1A
  /\ orColumn (putDate editNotesS1) (date S1A) = date S1A
  /\ orColumn (putTime editNotesS1) (time S1A) = time S1A
  /\ run (reschedule env0 "S1" editNotesS1) [] dbA
     = (fail 400 "New time slot is not available", dbA).
Proof.
  repeat (split; [reflexivity|]).
  apply (put_on_own_slot_rejected env0 "S1" editNotesS1 dbA S1A []
           eq_refl S1A_alone eq_refl eq_refl eq_refl); reflexivity.
Defined.

(** [cancelled_slot_not_rebookable] at [S1] of [dbA], cancelled by
    patient A and asked for by patient B. *)
Lemma cancelled_slot_not_rebookable_witness :
  primaryKey dbA /\ In S1A dbA /\ status S1A = booked
  /\ isPast env0 (date S1A) = false
  /\ exists db',
       run (cancel env0 (id S1A)) [] dbA
       = (mkResponse 200 (MessageBody "Appointment cancelled successfully"),
          db')
       /\ run (book env0 bookS1B) [] db'
          = (fail 400 "Selected time slot is not available", db').
Proof.
  split; [exact primaryKey_dbA|]. split; [now left|].
  split; [reflexivity|]. split; [reflexivity|].
  apply (cancelled_slot_not_rebookable env0 env0 dbA S1A bookS1B "patientB"
           primaryKey_dbA (or_introl eq_refl) eq_refl eq_refl S1A_alone
           eq_refl eq_refl eq_refl eq_refl);
    first [discriminate | reflexivity].
Defined.

Lemma S1A_only_at_S2 :
  forall r, In r dbA ->
    wherePatientAt (patientId S1A)
      (orColumn (putDate moveToS2) (date S1A))
      (orColumn (putTime moveToS2) (time S1A)) r = true ->
    r = S1A.
Proof.
  intros r [<- | [<- | [<- | []]]] H; try reflexivity; discriminate H.
Qed.

Lemma S1A_only_at_S1 :
  forall r, In r dbA ->
    wherePatientAt (patientId S1A) (date S1A) (time S1A) r = true ->
    r = S1A.
Proof.
  intros r [<- | [<- | [<- | []]]] H; try reflexivity; discriminate H.
Qed.

(** [rescheduled_source_bookable] at the move of [S1] to [S2], after
    which patient B books [S1]. *)
Lemma rescheduled_source_bookable_witness :
  primaryKey dbA
  /\ find (whereId "S1") dbA = Some S1A
  /\ status S1A = booked
  /\ find (whereSlot (orColumn (putDoctorId moveToS2) (doctorId S1A))
                     (orColumn (putDate moveToS2) (date S1A))
                     (orColumn (putTime moveToS2) (time S1A))) dbA = Some S2
  /\ find (wherePatientAt (Some "patientB") (date S1A) (time S1A)) dbA = None
  /\ exists db2 db3,
       run (reschedule env0 "S1" moveToS2) [] dbA
       = (mkResponse 200
            (RescheduledBody "Appointment rescheduled successfully" (id S2)),
          db2)
       /\ run (book env0 bookS1B) [] db2
          = (mkResponse 201
               (BookedBody "Appointment booked successfully"
                  (Some (setBooked (Some "patientB")
                           (orNull (reqNotes bookS1B)) (now env0) S1A))),
             db3)
       /\ forall n, nth_error dbA n = Some S1A ->
            nth_error db3 n
            = Some (setBooked (Some "patientB") (orNull (reqNotes bookS1B))
                              (now env0) S1A).
Proof.
  split; [exact primaryKey_dbA|]. repeat (split; [reflexivity|]).
  apply (rescheduled_source_bookable env0 env0 "S1" moveToS2 dbA S1A S2
           bookS1B "patientB" primaryKey_dbA eq_refl eq_refl eq_refl eq_refl
           S1A_only_at_S2 S1A_alone eq_refl eq_refl eq_refl eq_refl);
    first [discriminate | reflexivity].
Defined.

(** [reschedule_round_trip] at the move of [S1] to [S2] and back. *)
Lemma reschedule_round_trip_witness :
  primaryKey dbA
  /\ find (whereId "S1") dbA = Some S1A
  /\ status S1A = booked
  /\ truthy (putNotes moveToS2) = false
  /\ isPast env0 (date S1A) = false
  /\ exists db2 db4,
       run (reschedule env0 "S1" moveToS2) [] dbA
       = (mkResponse 200
            (RescheduledBody "Appointment rescheduled successfully" (id S2)),
          db2)
       /\ run (reschedule env0 (id S2)
                 (mkPutRequest (Some (doctorId S1A)) (Some (date S1A))
                               (Some (time S1A)) None)) [] db2
          = (mkResponse 200
               (RescheduledBody "Appointment rescheduled successfully"
                                (id S1A)),
             db4)
       /\ nth_error db4 0
          = Some (mkAppointment (id S1A) (patientId S1A) (doctorId S1A)
                    (date S1A) (time S1A) (status S1A) (notes S1A)
                    (createdAt S1A) (now2 env0))
       /\ nth_error db4 1 = Some (setAvailable (now env0) S2).
Proof.
  split; [exact primaryKey_dbA|]. repeat (split; [reflexivity|]).
  destruct (reschedule_round_trip env0 env0 "S1" moveToS2 dbA S1A S2
              primaryKey_dbA eq_refl eq_refl eq_refl eq_refl
              S1A_only_at_S2 eq_refl S1A_alone S1A_only_at_S1)
    as (db2 & db4 & H1 & H2 & Ha & Ht & _);
    try first [discriminate | reflexivity].
  exists db2, db4. split; [exact H1|]. split; [exact H2|].
  split; [exact (Ha 0 eq_refl) | exact (Ht 1 eq_refl)].
Defined.

(** [upcoming_is_shadowed] at a request for [/UPCOMING]. *)
Lemma upcoming_is_shadowed_witness :
  lowerCase "UPCOMING" = "upcoming"
  /\ dispatch appointmentRoutes GET ["UPCOMING"]
     = Some (GetById, [("id", "UPCOMING")]).
Proof.
  split; [reflexivity|].
  exact (proj2 (upcoming_is_shadowed GET ["UPCOMING"]) "UPCOMING" eq_refl).
Defined.

(** [frontend_requests_routed] at the appointment [S1]. *)
Lemma frontend_requests_routed_witness :
  "S1" <> ""
  /\ dispatch appointmentRoutes (fst (cancelAppointmentCall "S1"))
              (snd (cancelAppointmentCall "S1")) = Some (Cancel, [("id", "S1")])
  /\ dispatch appointmentRoutes (fst (rescheduleAppointmentCall "S1"))
              (snd (rescheduleAppointmentCall "S1")) = None
  /\ getById storeA false "upcoming"
     = mkReply 404 (ErrorReply "Appointment not found").
Proof.
  assert (N : "S1" <> "") by discriminate.
  split; [exact N|].
  destruct (frontend_requests_routed storeA "S1" N)
    as (H1 & _ & _ & H4 & _ & _ & _ & _ & _ & _ & H11).
  split; [exact H1|]. split; [exact H4|].
  apply H11. intros a [<- | [<- | [<- | []]]]; discriminate.
Defined.

(** [listAll_rows] at [storeA]. *)
Lemma listAll_rows_witness :
  NoDup (map patId (patients storeA))
  /\ NoDup (map docId (doctors storeA))
  /\ exists rows,
       listAll storeA false = mkReply 200 (RowsReply rows)
       /\ Permutation (map rowAppointment rows) (appointments storeA)
       /\ StronglySorted byDateDescTimeAsc rows.
Proof.
  assert (Hp : NoDup (map patId (patients storeA)))
    by (repeat constructor; simpl; intuition discriminate).
  assert (Hd : NoDup (map docId (doctors storeA)))
    by (repeat constructor; simpl; intuition discriminate).
  split; [exact Hp|]. split; [exact Hd|].
  destruct (listAll_rows storeA Hp Hd) as [(rows & H1 & H2 & H3 & _) _].
  exists rows. auto.
Defined.

(** [patientAppointments_rows] at the booked past appointments of
    patient A in [storeA]. *)
Lemma patientAppointments_rows_witness :
  NoDup (map docId (doctors storeA))
  /\ exists rows,
       patientAppointments storeA false "patientA" (Some "booked")
                           (Some "true") "2025-06-01"
       = mkReply 200 (RowsReply rows)
       /\ forall r, In r rows ->
            patientId (rowAppointment r) = Some "patientA"
            /\ statusName (status (rowAppointment r)) = "booked"
            /\ String.ltb (date (rowAppointment r)) "2025-06-01" = true.
Proof.
  assert (Hd : NoDup (map docId (doctors storeA)))
    by (repeat constructor; simpl; intuition discriminate).
  split; [exact Hd|].
  destruct (patientAppointments_rows storeA "patientA" (Some "booked")
              (Some "true") "2025-06-01" Hd)
    as (rows & H1 & _ & _ & H4 & _).
  exists rows. split; [exact H1|].
  intros r Hr. destruct (H4 r Hr) as (_ & Hp & Hs & Hpast & _).
  split; [exact Hp|]. split; [exact (Hs eq_refl) | exact (Hpast eq_refl)].
Defined.

(** [patientAppointments_past_split] at a [past] that is neither text. *)
Lemma patientAppointments_past_split_witness :
  "yes" <> "true" /\ "yes" <> "false"
  /\ patientAppointments storeA false "patientA" None (Some "yes")
                         "2025-06-01"
     = patientAppointments storeA false "patientA" None None "2025-06-01".
Proof.
  assert (N1 : "yes" <> "true") by discriminate.
  assert (N2 : "yes" <> "false") by discriminate.
  split; [exact N1|]. split; [exact N2|].
  exact (proj2 (patientAppointments_past_split storeA "patientA" None
                  "2025-06-01") "yes" N1 N2).
Defined.

(** [createPatient_contract] at a new patient beside [annA]. *)
Lemma createPatient_contract_witness :
  truthy (reqName createBob) = true /\ truthy (reqEmail createBob) = true
  /\ (forall x, In x [annA] -> patEmail x <> valueOf (reqEmail createBob))
  /\ (forall x, In x [annA] -> patId x <> "id-1")
  /\ patRun (createPatient "id-1" seedStamp createBob) [] [annA]
     = (mkPatientResponse 201
          (PatientCreated "Patient created successfully"
             (Some (newPatient "id-1" seedStamp createBob))),
        [annA; newPatient "id-1" seedStamp createBob]).
Proof.
  assert (He : forall x, In x [annA] ->
                 patEmail x <> valueOf (reqEmail createBob))
    by (intros x [<- | []]; discriminate).
  assert (Hi : forall x, In x [annA] -> patId x <> "id-1")
    by (intros x [<- | []]; discriminate).
  split; [reflexivity|]. split; [reflexivity|].
  split; [exact He|]. split; [exact Hi|].
  destruct (createPatient_contract "id-1" seedStamp createBob [annA])
    as (_ & _ & H & _).
  exact (H eq_refl eq_refl He Hi).
Defined.

(** [createPatient_same_email_race] at two requests for one new email,
    both reading the table before either inserts. *)
Lemma createPatient_same_email_race_witness :
  truthy (reqName createBob) = true /\ truthy (reqEmail createBob) = true
  /\ (forall x, In x [annA] -> patEmail x <> valueOf (reqEmail createBob))
  /\ (forall x, In x [annA] -> patId x <> "id-1")
  /\ (forall x, In x [annA] -> patId x <> "id-2")
  /\ exists ra rb tbl',
       patConcurrent [true; false; true; false]
         (createPatient "id-1" seedStamp createBob)
         (createPatient "id-2" seedStamp createBob) [annA] = (ra, rb, tbl')
       /\ ((patCode ra = 201
            /\ (rb = patFail 400 "Email already exists"
                \/ rb = patFail 500 "Failed to create patient")
            /\ tbl' = [annA] ++ [newPatient "id-1" seedStamp createBob])
           \/ (patCode rb = 201
               /\ (ra = patFail 400 "Email already exists"
                   \/ ra = patFail 500 "Failed to create patient")
               /\ tbl' = [annA] ++ [newPatient "id-2" seedStamp createBob])).
Proof.
  assert (He : forall x, In x [annA] ->
                 patEmail x <> valueOf (reqEmail createBob))
    by (intros x [<- | []]; discriminate).
  assert (H1 : forall x, In x [annA] -> patId x <> "id-1")
    by (intros x [<- | []]; discriminate).
  assert (H2 : forall x, In x [annA] -> patId x <> "id-2")
    by (intros x [<- | []]; discriminate).
  split; [reflexivity|]. split; [reflexivity|].
  split; [exact He|]. split; [exact H1|]. split; [exact H2|].
  exact (createPatient_same_email_race "id-1" "id-2" seedStamp seedStamp
           createBob createBob [annA] [true; false; true; false]
           eq_refl eq_refl eq_refl eq_refl He H1 H2).
Defined.

Lemma drawsMixed_inUnit : forall m, inUnit (drawsMixed m).
Proof.
  intro m. unfold drawsMixed, inUnit, QArith_base.Qle, QArith_base.Qlt.
  destruct (Nat.even m); simpl; lia.
Qed.


(** [sample_slots_added] at the table [db0]. *)
Lemma sample_slots_added_witness :
  (forall m, inUnit (drawsMixed m)) /\ primaryKey db0
  /\ exists new,
       insertSampleSlots drawsMixed "2025-06-02" (fun _ _ => seedStamp) []
                         db0
       = Some (db0 ++ new)
       /\ primaryKey (db0 ++ new)
       /\ (forall r, In r new ->
             sampleRow "2025-06-02" r
             /\ claimConsistent r = true /\ bookedIffPatient r = true).
Proof.
  split; [exact drawsMixed_inUnit|]. split; [exact primaryKey_db0|].
  exact (sample_slots_added drawsMixed "2025-06-02" (fun _ _ => seedStamp)
           [] db0 drawsMixed_inUnit primaryKey_db0).
Defined.

Lemma sampleTable_ids :
  forall k, In k sampleKeys -> In (fst (fst k)) (map id sampleTable).
Proof.
  intros k Hk. unfold sampleKeys in Hk. simpl in Hk.
  repeat (destruct Hk as [<- | Hk];
          [vm_compute; repeat (first [left; reflexivity | right])|]).
  destruct Hk.
Qed.

(** [sample_slots_once] at a table that has the eighteen slots, one of
    them booked, a week later. *)
Lemma sample_slots_once_witness :
  (forall m, inUnit (drawsMixed m))
  /\ (forall k, In k sampleKeys -> In (fst (fst k)) (map id sampleTable))
  /\ insertSampleSlots drawsMixed "2025-06-09" (fun _ _ => seedStamp) []
                       sampleTable
     = Some sampleTable.
Proof.
  split; [exact drawsMixed_inUnit|]. split; [exact sampleTable_ids|].
  exact (sample_slots_once drawsMixed "2025-06-09" (fun _ _ => seedStamp)
           [] sampleTable drawsMixed_inUnit sampleTable_ids).
Defined.

(** [sample_slots_fresh] at the first start of the server. *)
Lemma sample_slots_fresh_witness :
  (forall m, inUnit (drawsMixed m))
  /\ exists db,
       insertSampleSlots drawsMixed "2025-06-02" (fun _ _ => seedStamp) []
                         []
       = Some db
       /\ map sampleKey db = sampleKeys.
Proof.
  split; [exact drawsMixed_inUnit|].
  exact (sample_slots_fresh drawsMixed "2025-06-02" (fun _ _ => seedStamp)
           drawsMixed_inUnit).
Defined.


(** [own_day_refused_behind_utc] at a server five hours behind UTC. *)
Lemma own_day_refused_behind_utc_witness :
  isoDate "2025-06-01" = Some (localDay 1748764800000 (-300) * msPerDay)%Z
  /\ (-300 < 0)%Z
  /\ isPast envWest "2025-06-01" = true
  /\ run (book envWest bookToday) [] db0
     = (fail 400 "Cannot book appointments in the past", db0)
  /\ run (availableSlots envWest (Some "D1") (Some "2025-06-01")) [] db0
     = (fail 400 "Cannot view slots for past dates", db0).
Proof.
  assert (Hs : isoDate "2025-06-01"
               = Some (localDay 1748764800000 (-300) * msPerDay)%Z)
    by reflexivity.
  assert (Hz : (-300 < 0)%Z) by lia.
  split; [exact Hs|]. split; [exact Hz|].
  destruct (own_day_refused_behind_utc 1748764800000 (-300)
              "2025-06-01T08:00:00.000Z" "2025-06-01T08:00:00.005Z"
              "2025-06-01" bookToday (Some "D1") "S1" S1 [] db0 Hs)
    as [Hiff Hrest].
  destruct (Hrest Hz) as (Hb & Ha & _).
  split; [exact (proj2 Hiff Hz)|].
  split; [exact (Hb eq_refl eq_refl eq_refl eq_refl) | exact (Ha eq_refl)].
Defined.
